(** * Embedded Targets Manager: a shallow embedding of the orchestration core

    The TypeScript sources are embedded as Rocq functions.  A JavaScript
    string is a [string]: every [ascii] stands for one UTF-16 code unit in
    the range 0..255.  A JavaScript object used as a dictionary
    ([runs], [availability]) and every [Map] is a [gmap] with string keys;
    a [Set<string>] is a [gset string].  JavaScript numbers that hold exit
    codes, counts and time stamps are integers ([Z]). *)

From Stdlib Require Import ZArith List String Ascii Bool Lia Permutation Sorted DecimalString.
From Stdlib Require OrderedTypeEx.
From stdpp Require Import base option gmap strings list fin_maps.
Import ListNotations.

Local Open Scope Z_scope.

(** ** JavaScript strings and the regular expressions of the sources *)

Module Js.

Definition code (c : ascii) : N := N_of_ascii c.

(** [\s] of a regular expression and the characters removed by
    [String.prototype.trim]: TAB, LF, VT, FF, CR, SPACE, NBSP. *)
Definition isSpace (c : ascii) : bool :=
  let n := code c in
  ((9 <=? n) && (n <=? 13))%N || (n =? 32)%N || (n =? 160)%N.

(** Line terminators, for [^], [$] and [.]: LF and CR. *)
Definition isLineTerminator (c : ascii) : bool :=
  let n := code c in (n =? 10)%N || (n =? 13)%N.

Definition isUpper (c : ascii) : bool :=
  let n := code c in ((65 <=? n) && (n <=? 90))%N.
Definition isLower (c : ascii) : bool :=
  let n := code c in ((97 <=? n) && (n <=? 122))%N.
Definition isDigit (c : ascii) : bool :=
  let n := code c in ((48 <=? n) && (n <=? 57))%N.

(** [\w], which decides the word boundary [\b]. *)
Definition isWord (c : ascii) : bool :=
  isUpper c || isLower c || isDigit c || (code c =? 95)%N.

(** [toLowerCase] on one code unit: A-Z, and the Latin-1 capitals. *)
Definition lowerChar (c : ascii) : ascii :=
  let n := code c in
  if isUpper c then ascii_of_N (n + 32)
  else if ((192 <=? n) && (n <=? 222) && negb (n =? 215))%N
       then ascii_of_N (n + 32)
       else c.

Fixpoint toLowerCase (s : string) : string :=
  match s with
  | EmptyString => EmptyString
  | String c s' => String (lowerChar c) (toLowerCase s')
  end.

(** Case-insensitive comparison of one code unit with a letter of a
    pattern (flag [i]): only the two ASCII cases of the letter match. *)
Definition ciChar (p c : ascii) : bool :=
  Ascii.eqb c p
  || (isLower p && (code c =? code p - 32)%N)
  || (isUpper p && (code c =? code p + 32)%N).

(** [dropPrefix p s]: [Some rest] when [s = p ++ rest] ([startsWith]). *)
Fixpoint dropPrefix (p s : string) : option string :=
  match p, s with
  | EmptyString, _ => Some s
  | String a p', String b s' => if Ascii.eqb a b then dropPrefix p' s' else None
  | String _ _, EmptyString => None
  end.

Definition startsWith (s p : string) : bool :=
  match dropPrefix p s with Some _ => true | None => false end.

(** The same, ignoring case (a literal under flag [i]). *)
Fixpoint dropPrefixCi (p s : string) : option string :=
  match p, s with
  | EmptyString, _ => Some s
  | String a p', String b s' => if ciChar a b then dropPrefixCi p' s' else None
  | String _ _, EmptyString => None
  end.

(** Greedy [\s*]: the rest of the string after its leading white space. *)
Fixpoint skipSpaces (s : string) : string :=
  match s with
  | String c s' => if isSpace c then skipSpaces s' else s
  | EmptyString => EmptyString
  end.

Fixpoint rev_onto (s acc : string) : string :=
  match s with
  | EmptyString => acc
  | String c s' => rev_onto s' (String c acc)
  end.
Definition rev (s : string) : string := rev_onto s EmptyString.

Definition trim (s : string) : string :=
  rev (skipSpaces (rev (skipSpaces s))).

Definition isEmpty (s : string) : bool :=
  match s with EmptyString => true | _ => false end.

(** [takeUntil stop s]: the part of [s] before the first code unit that
    satisfies [stop]; this is [s.split(/[...]/)[0]] for a one-character
    pattern. *)
Fixpoint takeUntil (stop : ascii -> bool) (s : string) : string :=
  match s with
  | EmptyString => EmptyString
  | String c s' => if stop c then EmptyString else String c (takeUntil stop s')
  end.

Fixpoint includes (p : ascii -> bool) (s : string) : bool :=
  match s with
  | EmptyString => false
  | String c s' => p c || includes p s'
  end.

(** [s.split(/\r?\n/)]: a line ends at LF or at CR LF; a CR that is not
    followed by LF stays in its line. *)
Fixpoint splitLines_aux (s : string) (cur : string) : list string :=
  match s with
  | EmptyString => [rev cur]
  | String c s' =>
      if (code c =? 10)%N then rev cur :: splitLines_aux s' EmptyString
      else if (code c =? 13)%N then
        match s' with
        | String d s'' =>
            if (code d =? 10)%N then rev cur :: splitLines_aux s'' EmptyString
            else splitLines_aux s' (String c cur)
        | EmptyString => splitLines_aux s' (String c cur)
        end
      else splitLines_aux s' (String c cur)
  end.
Definition splitLines (s : string) : list string := splitLines_aux s EmptyString.

(** The lines that [^] and [$] see under flag [m]: every line terminator
    ends a line. *)
Fixpoint regexLines_aux (s : string) (cur : string) : list string :=
  match s with
  | EmptyString => [rev cur]
  | String c s' =>
      if isLineTerminator c then rev cur :: regexLines_aux s' EmptyString
      else regexLines_aux s' (String c cur)
  end.
Definition regexLines (s : string) : list string := regexLines_aux s EmptyString.

(** [RegExp.prototype.test] for an unanchored pattern: the matcher [m] is
    tried at every position, from the left; it is told the code unit
    before the position ([None] at the start of the input). *)
Fixpoint search (m : option ascii -> string -> bool) (prev : option ascii) (s : string) : bool :=
  m prev s
  || match s with
     | EmptyString => false
     | String c s' => search m (Some c) s'
     end.

(** [^] under flag [m]. *)
Definition atLineStart (prev : option ascii) : bool :=
  match prev with None => true | Some c => isLineTerminator c end.

(** [(^|\s)] followed by [k]. *)
Definition bolOrSpace (k : string -> bool) (prev : option ascii) (s : string) : bool :=
  (atLineStart prev && k s)
  || match s with
     | String c s' => isSpace c && k s'
     | EmptyString => false
     end.

(** A literal [w] (flag [i]) followed by [\s*:]. *)
Definition wordColon (w : string) (s : string) : bool :=
  match dropPrefixCi w s with
  | Some rest =>
      match skipSpaces rest with
      | String c _ => (code c =? 58)%N
      | EmptyString => false
      end
  | None => false
  end.

(** [\s+] followed by [k]. *)
Definition spaces1 (k : string -> bool) (s : string) : bool :=
  match s with
  | String c s' => isSpace c && k (skipSpaces s')
  | EmptyString => false
  end.

End Js.

(** ** The data model ([state/types.ts], [cmake/generator.ts]) *)

Inductive BuildSystem := BsAuto | BsNinja | BsMake.
Inductive CMakeGenerator := Ninja | UnixMakefiles.

Inductive TargetRunStatus := StIdle | StRunning | StSuccess | StWarning | StFailed.
Inductive ConfigureStatus := CfgIdle | CfgRunning | CfgSuccess | CfgFailed.

Global Instance BuildSystem_eq_dec : EqDecision BuildSystem.
Proof. solve_decision. Defined.
Global Instance CMakeGenerator_eq_dec : EqDecision CMakeGenerator.
Proof. solve_decision. Defined.
Global Instance TargetRunStatus_eq_dec : EqDecision TargetRunStatus.
Proof. solve_decision. Defined.
Global Instance ConfigureStatus_eq_dec : EqDecision ConfigureStatus.
Proof. solve_decision. Defined.

Record ModuleInfo := mkModuleInfo {
  id : string;
  name : string;
  path : string;
  workspaceFolder : string
}.

Record TargetDefinition := mkTarget { target_name : string }.

Record RunResult := mkRunResult {
  status : TargetRunStatus;
  exitCode : option Z;
  startedAt : option Z;
  finishedAt : option Z
}.

(** An object literal passed as a partial update: for every optional
    property, [None] says that the literal has no such key and [Some v]
    that it has the key with value [v] ([v = None] is [undefined]). *)
Record RunPatch := mkRunPatch {
  patch_status : TargetRunStatus;
  patch_exitCode : option (option Z);
  patch_startedAt : option (option Z);
  patch_finishedAt : option (option Z)
}.

Record ConfigureResult := mkConfigureResult {
  cfg_status : ConfigureStatus;
  cfg_output : option string;
  cfg_updatedAt : option Z
}.

Record ConfigurePatch := mkConfigurePatch {
  cpatch_status : ConfigureStatus;
  cpatch_output : option (option string);
  cpatch_updatedAt : option (option Z)
}.

(** ** Plain objects used as dictionaries

    [availability] and [runs] are objects made by the literal [{}] and
    changed by assignments [object[name] = value] only.  A name that is not
    an own property is looked up in the prototype, which is
    [Object.prototype] at first; and an assignment to the name [__proto__]
    goes to the accessor that [Object.prototype] has under this name: it
    replaces the prototype of the object when the value is an object and
    does nothing when the value is a boolean, so that no own property
    [__proto__] ever comes to exist.  The maps below hold the own
    properties. *)

Module Obj.

Definition PROTO : string := "__proto__".

Definition isProto (name : string) : bool := String.eqb name PROTO.

(** The other properties of [Object.prototype]; all of them are
    functions. *)
Definition prototypeMembers : list string :=
  ["constructor"; "hasOwnProperty"; "isPrototypeOf"; "propertyIsEnumerable";
   "toLocaleString"; "toString"; "valueOf";
   "__defineGetter__"; "__defineSetter__"; "__lookupGetter__"; "__lookupSetter__"]%string.

Definition isMember (name : string) : bool := existsb (String.eqb name) prototypeMembers.

(** [flags[name] = value] on an object of booleans. *)
Definition assignFlag (name : string) (value : bool) (flags : gmap string bool) : gmap string bool :=
  if isProto name then flags else <[name := value]> flags.

(** [flags[name]] used as a condition: an own flag counts as it is, an
    inherited function or the prototype object is truthy, [undefined] is
    not. *)
Definition truthy (flags : gmap string bool) (name : string) : bool :=
  if isProto name then true
  else match flags !! name with
       | Some value => value
       | None => isMember name
       end.

End Obj.

(** An object built by the store for a run: its result properties and,
    when a string has been spread into it, the one-character properties
    ["0"], ["1"], ... of that string ([run_chars]). *)
Record RunObject := mkRunObject {
  run_result : RunResult;
  run_chars : string
}.

(** What [runs[name]] can evaluate to, [undefined] apart. *)
Inductive RunValue :=
| VObject (o : RunObject)
| VMember (name : string)
| VPrototype
| VString (s : string)
| VNumber (n : Z).

(** The [runs] object: its own properties, and its prototype when an
    assignment to [__proto__] has replaced [Object.prototype] ([None]
    otherwise). *)
Record Runs := mkRuns {
  own : gmap string RunValue;
  proto : option RunObject
}.

Record ModuleState := mkModuleState {
  ms_module : ModuleInfo;
  availability : gmap string bool;
  runs : Runs;
  generator : option CMakeGenerator;
  needsConfigure : bool;
  configure : ConfigureResult
}.

Definition idleRun : RunResult := mkRunResult StIdle None None None.
Definition idleConfigure : ConfigureResult := mkConfigureResult CfgIdle None None.

(** The object literal [{ status: 'idle' }]. *)
Definition idleObject : RunObject := mkRunObject idleRun EmptyString.

Definition statusText (status : TargetRunStatus) : string :=
  match status with
  | StIdle => "idle"
  | StRunning => "running"
  | StSuccess => "success"
  | StWarning => "warning"
  | StFailed => "failed"
  end.

(** The name of the array index [n]: its decimal numeral. *)
Definition indexName (n : nat) : string :=
  DecimalString.NilEmpty.string_of_uint (Nat.to_uint n).

Fixpoint charAt (name : string) (n : nat) (chars : string) : option RunValue :=
  match chars with
  | EmptyString => None
  | String c rest =>
      if String.eqb name (indexName n) then Some (VString (String c EmptyString))
      else charAt name (S n) rest
  end.

(** [o[name]] for an own property of a run object. *)
Definition fieldOf (o : RunObject) (name : string) : option RunValue :=
  if String.eqb name "status" then Some (VString (statusText (status (run_result o))))
  else if String.eqb name "exitCode" then VNumber <$> exitCode (run_result o)
  else if String.eqb name "startedAt" then VNumber <$> startedAt (run_result o)
  else if String.eqb name "finishedAt" then VNumber <$> finishedAt (run_result o)
  else charAt name 0 (run_chars o).

(** [runs[name]]; [None] is [undefined]. *)
Definition getRun (r : Runs) (name : string) : option RunValue :=
  if Obj.isProto name then
    Some (match proto r with Some o => VObject o | None => VPrototype end)
  else
    match own r !! name with
    | Some value => Some value
    | None =>
        match proto r ≫= fun o => fieldOf o name with
        | Some value => Some value
        | None => if Obj.isMember name then Some (VMember name) else None
        end
    end.

(** [runs[name] = o] for an object [o]. *)
Definition assignRun (name : string) (o : RunObject) (r : Runs) : Runs :=
  if Obj.isProto name then mkRuns (own r) (Some o)
  else mkRuns (<[name := VObject o]> (own r)) (proto r).

(** ** The state store ([state/stateStore.ts]) *)

Module StateStore.

Record t := mk {
  modules : list ModuleState;
  targets : list TargetDefinition
}.

Definition empty : t := mk [] [].

(** [{ ...old, ...update }]: the keys of the update win, also when their
    value is [undefined]. *)
Definition spread {A} (old : option A) (upd : option (option A)) : option A :=
  match upd with Some v => v | None => old end.

Definition mergeRun (old : option RunResult) (u : RunPatch) : RunResult :=
  mkRunResult (patch_status u)
    (spread (old ≫= exitCode) (patch_exitCode u))
    (spread (old ≫= startedAt) (patch_startedAt u))
    (spread (old ≫= finishedAt) (patch_finishedAt u)).

Definition mergeConfigure (old : ConfigureResult) (u : ConfigurePatch) : ConfigureResult :=
  mkConfigureResult (cpatch_status u)
    (spread (cfg_output old) (cpatch_output u))
    (spread (cfg_updatedAt old) (cpatch_updatedAt u)).

Definition with_runs (f : Runs -> Runs) (m : ModuleState) : ModuleState :=
  mkModuleState (ms_module m) (availability m) (f (runs m)) (generator m) (needsConfigure m) (configure m).

(** [runs[name] = runs[name] ?? { status: 'idle' }].  For the name
    [__proto__] the value read is the prototype, which is never nullish,
    and assigning it back leaves it in place. *)
Definition backfillEntry (r : Runs) (name : string) : Runs :=
  if Obj.isProto name then r
  else mkRuns (<[name := default (VObject idleObject) (getRun r name)]> (own r)) (proto r).

(** The same for every target, in order. *)
Definition backfill (ts : list TargetDefinition) (r : Runs) : Runs :=
  fold_left (fun r t => backfillEntry r (target_name t)) ts r.

Definition setTargets (ts : list TargetDefinition) (s : t) : t :=
  mk (map (with_runs (backfill ts)) (modules s)) ts.

(** [runs[target.name] = { status: 'idle' }] for every target, on [{}]. *)
Definition freshRuns (ts : list TargetDefinition) : Runs :=
  fold_left (fun r t => assignRun (target_name t) idleObject r) ts (mkRuns ∅ None).

Definition freshModule (ts : list TargetDefinition) (m : ModuleInfo) : ModuleState :=
  mkModuleState m ∅ (freshRuns ts) None false idleConfigure.

Definition setModules (ms : list ModuleInfo) (s : t) : t :=
  mk (map (freshModule (targets s)) ms) (targets s).

Definition hasId (moduleId : string) (m : ModuleState) : bool :=
  String.eqb (id (ms_module m)) moduleId.

(** [this.modules.find((state) => state.module.id === moduleId)]. *)
Definition getModuleState (moduleId : string) (s : t) : option ModuleState :=
  find (hasId moduleId) (modules s).

(** The object returned by [find] is mutated in place: the first module
    state with the id changes, the others stay. *)
Fixpoint updateFirst (moduleId : string) (f : ModuleState -> ModuleState) (l : list ModuleState) : list ModuleState :=
  match l with
  | [] => []
  | m :: l' => if hasId moduleId m then f m :: l' else m :: updateFirst moduleId f l'
  end.

Definition onModule (moduleId : string) (f : ModuleState -> ModuleState) (s : t) : t :=
  mk (updateFirst moduleId f (modules s)) (targets s).

Definition setModuleGenerator (moduleId : string) (g : CMakeGenerator) : t -> t :=
  onModule moduleId (fun m =>
    mkModuleState (ms_module m) (availability m) (runs m) (Some g) (needsConfigure m) (configure m)).

Definition setNeedsConfigure (moduleId : string) (b : bool) : t -> t :=
  onModule moduleId (fun m =>
    mkModuleState (ms_module m) (availability m) (runs m) (generator m) b (configure m)).

Definition setAvailability (moduleId targetName : string) (available : bool) : t -> t :=
  onModule moduleId (fun m =>
    mkModuleState (ms_module m) (Obj.assignFlag targetName available (availability m)) (runs m)
      (generator m) (needsConfigure m) (configure m)).

(** [{ ...value }]: the own enumerable properties of the value.  A run
    object gives its properties, a string its characters under their
    indices, and a function, [Object.prototype], a number or [undefined]
    give nothing. *)
Definition spreadResult (value : option RunValue) : option RunResult :=
  match value with
  | Some (VObject o) => Some (run_result o)
  | _ => None
  end.

Definition spreadChars (value : option RunValue) : string :=
  match value with
  | Some (VObject o) => run_chars o
  | Some (VString s) => s
  | _ => EmptyString
  end.

(** [runs[name] = { ...runs[name], ...update }] *)
Definition updateEntry (name : string) (u : RunPatch) (r : Runs) : Runs :=
  let value := getRun r name in
  assignRun name (mkRunObject (mergeRun (spreadResult value) u) (spreadChars value)) r.

Definition updateRun (moduleId targetName : string) (u : RunPatch) : t -> t :=
  onModule moduleId (with_runs (updateEntry targetName u)).

Definition updateConfigure (moduleId : string) (u : ConfigurePatch) : t -> t :=
  onModule moduleId (fun m =>
    mkModuleState (ms_module m) (availability m) (runs m) (generator m) (needsConfigure m)
      (mergeConfigure (configure m) u)).

(** [moduleState.availability[target]] used as a condition. *)
Definition isAvailable (m : ModuleState) (target : string) : bool :=
  Obj.truthy (availability m) target.

(** [getAllTargets]: the available pairs, module by module and in the
    order of the target list. *)
Definition getAllTargets (s : t) : list (ModuleInfo * string) :=
  flat_map (fun m =>
    map (fun t => (ms_module m, target_name t))
        (filter (fun t => isAvailable m (target_name t) = true) (targets s)))
    (modules s).

(** [result.status === 'failed'] for a value of [Object.entries(runs)]:
    only a run object has a [status]. *)
Definition hasFailed (value : RunValue) : bool :=
  match value with
  | VObject o => bool_decide (status (run_result o) = StFailed)
  | _ => false
  end.

(** [getFailedTargets]: the pairs whose run status is ['failed'], module
    by module; [Object.entries(runs)], the own properties, is rendered by
    the enumeration of the map. *)
Definition getFailedTargets (s : t) : list (ModuleInfo * string) :=
  flat_map (fun m =>
    map (fun kv => (ms_module m, fst kv))
        (List.filter (fun kv => hasFailed (snd kv)) (map_to_list (own (runs m)))))
    (modules s).

End StateStore.

(** ** The scheduler ([runner/targetRunner.ts]) and the controller that
    listens to it ([DashboardController])

    The runner's [updates] emitter calls the controller's listener
    synchronously, and the listener calls back into the runner; both are
    therefore functions on one state, the [Dashboard].  An [async] method is
    split at its [await]s: the part before the first [await] runs inside the
    calling turn, and every later part is a separate function that the
    environment runs when the awaited promise settles.  The suspended calls
    are kept in the state ([starting], [silentCalls], [settling]). *)

Record RunUpdate := mkRunUpdate {
  moduleId : string;
  upd_target : string;
  upd_status : TargetRunStatus;
  upd_exitCode : option Z
}.

Record RunRequest := mkRunRequest {
  module : ModuleInfo;
  target : string;
  useNinja : bool;
  makeJobs : Z;
  autoCloseOnSuccess : bool;
  runInTerminal : option bool
}.

(** [RunningEntry]: a task with its [vscode.TaskExecution] handle, or a
    silent child process. *)
Inductive RunningEntry := TaskEntry (execution : nat) | SilentEntry.

(** A [handleTaskEnd] call suspended in [resolveDiagnosticsStatus]. *)
Record TaskEnd := mkTaskEnd {
  end_moduleId : string;
  end_target : string;
  end_exitCode : option Z;
  end_modulePath : string;
  end_output : string
}.

(** [ExecResultWithExitCode] of [utils/exec.ts]. *)
Record ExecResultWithExitCode := mkExecResultWithExitCode {
  res_stdout : string;
  res_stderr : string;
  res_exitCode : option Z
}.

Record TargetRunner := mkRunner {
  maxParallel : Z;
  pending : list RunRequest;
  running : gmap string RunningEntry;
  taskNames : gmap string string;
  modulePaths : gmap string string;
  runStartedAt : gmap string Z;
  autoCloseFlags : gmap string bool;
  taskOutput : gmap string string;
  fired : list RunUpdate;
  starting : list (RunRequest * string);
  silentCalls : list (RunRequest * string);
  settling : list TaskEnd;
  terminated : list nat;
  closedTerminals : list string
}.

Definition on_pending (f : list RunRequest -> list RunRequest) (r : TargetRunner) : TargetRunner :=
  mkRunner (maxParallel r) (f (pending r)) (running r) (taskNames r) (modulePaths r) (runStartedAt r) (autoCloseFlags r) (taskOutput r) (fired r) (starting r) (silentCalls r) (settling r) (terminated r) (closedTerminals r).
Definition on_running (f : gmap string RunningEntry -> gmap string RunningEntry) (r : TargetRunner) : TargetRunner :=
  mkRunner (maxParallel r) (pending r) (f (running r)) (taskNames r) (modulePaths r) (runStartedAt r) (autoCloseFlags r) (taskOutput r) (fired r) (starting r) (silentCalls r) (settling r) (terminated r) (closedTerminals r).
Definition on_taskNames (f : gmap string string -> gmap string string) (r : TargetRunner) : TargetRunner :=
  mkRunner (maxParallel r) (pending r) (running r) (f (taskNames r)) (modulePaths r) (runStartedAt r) (autoCloseFlags r) (taskOutput r) (fired r) (starting r) (silentCalls r) (settling r) (terminated r) (closedTerminals r).
Definition on_modulePaths (f : gmap string string -> gmap string string) (r : TargetRunner) : TargetRunner :=
  mkRunner (maxParallel r) (pending r) (running r) (taskNames r) (f (modulePaths r)) (runStartedAt r) (autoCloseFlags r) (taskOutput r) (fired r) (starting r) (silentCalls r) (settling r) (terminated r) (closedTerminals r).
Definition on_runStartedAt (f : gmap string Z -> gmap string Z) (r : TargetRunner) : TargetRunner :=
  mkRunner (maxParallel r) (pending r) (running r) (taskNames r) (modulePaths r) (f (runStartedAt r)) (autoCloseFlags r) (taskOutput r) (fired r) (starting r) (silentCalls r) (settling r) (terminated r) (closedTerminals r).
Definition on_autoCloseFlags (f : gmap string bool -> gmap string bool) (r : TargetRunner) : TargetRunner :=
  mkRunner (maxParallel r) (pending r) (running r) (taskNames r) (modulePaths r) (runStartedAt r) (f (autoCloseFlags r)) (taskOutput r) (fired r) (starting r) (silentCalls r) (settling r) (terminated r) (closedTerminals r).
Definition on_taskOutput (f : gmap string string -> gmap string string) (r : TargetRunner) : TargetRunner :=
  mkRunner (maxParallel r) (pending r) (running r) (taskNames r) (modulePaths r) (runStartedAt r) (autoCloseFlags r) (f (taskOutput r)) (fired r) (starting r) (silentCalls r) (settling r) (terminated r) (closedTerminals r).
Definition on_fired (f : list RunUpdate -> list RunUpdate) (r : TargetRunner) : TargetRunner :=
  mkRunner (maxParallel r) (pending r) (running r) (taskNames r) (modulePaths r) (runStartedAt r) (autoCloseFlags r) (taskOutput r) (f (fired r)) (starting r) (silentCalls r) (settling r) (terminated r) (closedTerminals r).
Definition on_starting (f : list (RunRequest * string) -> list (RunRequest * string)) (r : TargetRunner) : TargetRunner :=
  mkRunner (maxParallel r) (pending r) (running r) (taskNames r) (modulePaths r) (runStartedAt r) (autoCloseFlags r) (taskOutput r) (fired r) (f (starting r)) (silentCalls r) (settling r) (terminated r) (closedTerminals r).
Definition on_silentCalls (f : list (RunRequest * string) -> list (RunRequest * string)) (r : TargetRunner) : TargetRunner :=
  mkRunner (maxParallel r) (pending r) (running r) (taskNames r) (modulePaths r) (runStartedAt r) (autoCloseFlags r) (taskOutput r) (fired r) (starting r) (f (silentCalls r)) (settling r) (terminated r) (closedTerminals r).
Definition on_settling (f : list TaskEnd -> list TaskEnd) (r : TargetRunner) : TargetRunner :=
  mkRunner (maxParallel r) (pending r) (running r) (taskNames r) (modulePaths r) (runStartedAt r) (autoCloseFlags r) (taskOutput r) (fired r) (starting r) (silentCalls r) (f (settling r)) (terminated r) (closedTerminals r).
Definition on_terminated (f : list nat -> list nat) (r : TargetRunner) : TargetRunner :=
  mkRunner (maxParallel r) (pending r) (running r) (taskNames r) (modulePaths r) (runStartedAt r) (autoCloseFlags r) (taskOutput r) (fired r) (starting r) (silentCalls r) (settling r) (f (terminated r)) (closedTerminals r).
Definition on_closedTerminals (f : list string -> list string) (r : TargetRunner) : TargetRunner :=
  mkRunner (maxParallel r) (pending r) (running r) (taskNames r) (modulePaths r) (runStartedAt r) (autoCloseFlags r) (taskOutput r) (fired r) (starting r) (silentCalls r) (settling r) (terminated r) (f (closedTerminals r)).

Record RunnerSettings := mkSettings {
  buildSystem : BuildSystem;
  settings_makeJobs : option Z;
  settings_maxParallel : Z
}.

(** What a synchronous turn reads from its host: the configuration
    ([getRunnerSettings]), [os.cpus().length], [Date.now()] and the names of
    the open terminals. *)
Record Env := mkEnv {
  settings : RunnerSettings;
  cpus : Z;
  now : Z;
  terminals : list string
}.

Record Dashboard := mkDashboard {
  stateStore : StateStore.t;
  runner : TargetRunner;
  configureTaskNames : gmap string string;
  runAllQueues : gmap string (list string);
  runAllActive : gmap string string;
  runModuleQueues : gmap string (list string);
  runModuleActive : gmap string string;
  published : list StateStore.t
}.

Definition on_stateStore (f : StateStore.t -> StateStore.t) (r : Dashboard) : Dashboard :=
  mkDashboard (f (stateStore r)) (runner r) (configureTaskNames r) (runAllQueues r) (runAllActive r) (runModuleQueues r) (runModuleActive r) (published r).
Definition on_runner (f : TargetRunner -> TargetRunner) (r : Dashboard) : Dashboard :=
  mkDashboard (stateStore r) (f (runner r)) (configureTaskNames r) (runAllQueues r) (runAllActive r) (runModuleQueues r) (runModuleActive r) (published r).
Definition on_configureTaskNames (f : gmap string string -> gmap string string) (r : Dashboard) : Dashboard :=
  mkDashboard (stateStore r) (runner r) (f (configureTaskNames r)) (runAllQueues r) (runAllActive r) (runModuleQueues r) (runModuleActive r) (published r).
Definition on_runAllQueues (f : gmap string (list string) -> gmap string (list string)) (r : Dashboard) : Dashboard :=
  mkDashboard (stateStore r) (runner r) (configureTaskNames r) (f (runAllQueues r)) (runAllActive r) (runModuleQueues r) (runModuleActive r) (published r).
Definition on_runAllActive (f : gmap string string -> gmap string string) (r : Dashboard) : Dashboard :=
  mkDashboard (stateStore r) (runner r) (configureTaskNames r) (runAllQueues r) (f (runAllActive r)) (runModuleQueues r) (runModuleActive r) (published r).
Definition on_runModuleQueues (f : gmap string (list string) -> gmap string (list string)) (r : Dashboard) : Dashboard :=
  mkDashboard (stateStore r) (runner r) (configureTaskNames r) (runAllQueues r) (runAllActive r) (f (runModuleQueues r)) (runModuleActive r) (published r).
Definition on_runModuleActive (f : gmap string string -> gmap string string) (r : Dashboard) : Dashboard :=
  mkDashboard (stateStore r) (runner r) (configureTaskNames r) (runAllQueues r) (runAllActive r) (runModuleQueues r) (f (runModuleActive r)) (published r).
Definition on_published (f : list StateStore.t -> list StateStore.t) (r : Dashboard) : Dashboard :=
  mkDashboard (stateStore r) (runner r) (configureTaskNames r) (runAllQueues r) (runAllActive r) (runModuleQueues r) (runModuleActive r) (f (published r)).


Definition newRunner (maxParallel : Z) : TargetRunner :=
  mkRunner maxParallel [] ∅ ∅ ∅ ∅ ∅ ∅ [] [] [] [] [] [].

Definition newDashboard (maxParallel : Z) : Dashboard :=
  mkDashboard StateStore.empty (newRunner maxParallel) ∅ ∅ ∅ ∅ ∅ [].

Definition getKey (moduleId target : string) : string :=
  String.append moduleId (String.append ":" target).

Definition getTaskName (moduleName target : string) : string :=
  String.append moduleName (String.append ":" target).

Definition requestKey (request : RunRequest) : string :=
  getKey (id (module request)) (target request).

(** [resolveOutputStatus]: the error pattern is
    [/(^|\s)(fatal\s+)?error\s*:/im], the warning pattern
    [/(^|\s)warning\s*:/im]. *)
Definition warningPattern (output : string) : bool :=
  Js.search (Js.bolOrSpace (Js.wordColon "warning")) None output.

Definition errorPattern (output : string) : bool :=
  Js.search
    (Js.bolOrSpace (fun s =>
       match Js.dropPrefixCi "fatal" s with
       | Some rest => Js.spaces1 (Js.wordColon "error") rest
       | None => false
       end
       || Js.wordColon "error" s))
    None output.

Definition resolveOutputStatus (exitCode : Z) (output : string) : TargetRunStatus :=
  if negb (exitCode =? 0) then StFailed
  else if Js.isEmpty output then StSuccess
  else if errorPattern output then StFailed
  else if warningPattern output then StWarning
  else StSuccess.

(** [resolveDiagnosticsStatus], from the counts of [getDiagnosticsCounts]
    read once the diagnostics have settled. *)
Definition resolveDiagnosticsStatus (errors warnings : Z) : TargetRunStatus :=
  if 0 <? errors then StFailed
  else if 0 <? warnings then StWarning
  else StSuccess.

Definition pushState (d : Dashboard) : Dashboard :=
  on_published (fun p => p ++ [stateStore d]) d.

Definition LF : string := String "010"%char EmptyString.

(** The listener of [onDidUpdate], branch [update.status === 'running'],
    run by [this.updates.fire] with a literal ['running'] status. *)
Definition fireRunning (e : Env) (moduleId target : string) (d : Dashboard) : Dashboard :=
  let d := on_runner (on_fired (fun l => l ++ [mkRunUpdate moduleId target StRunning None])) d in
  let d := on_stateStore
             (StateStore.updateRun moduleId target
                (mkRunPatch StRunning None (Some (Some (now e))) None)) d in
  pushState d.

(** [executeInTerminal] up to [await vscode.tasks.executeTask(task)]; the
    entry of [running] is only set when that promise resolves
    ([taskStarted] below). *)
Definition executeInTerminal (request : RunRequest) (key : string) (d : Dashboard) : Dashboard :=
  on_runner (fun r =>
    on_starting (fun l => l ++ [(request, key)])
      (on_taskOutput (insert key EmptyString) r)) d.

(** [execute] up to its first [await]. *)
Definition execute (e : Env) (request : RunRequest) (d : Dashboard) : Dashboard :=
  let key := requestKey request in
  let d := fireRunning e (id (module request)) (target request) d in
  let d := on_runner (fun r =>
             on_taskOutput (insert key EmptyString)
               (on_runStartedAt (insert key (now e))
                  (on_modulePaths (insert key (path (module request))) r))) d in
  match runInTerminal request with
  | Some false =>
      on_runner (fun r =>
        on_silentCalls (fun l => l ++ [(request, key)])
          (on_running (insert key SilentEntry) r)) d
  | _ => executeInTerminal request key d
  end.

(** [kick]: [queue] is the pending queue of [d]; [shift] removes its head. *)
Fixpoint kickLoop (e : Env) (queue : list RunRequest) (d : Dashboard) : Dashboard :=
  match queue with
  | [] => d
  | request :: rest =>
      if Z.of_nat (size (running (runner d))) <? maxParallel (runner d)
      then kickLoop e rest (execute e request (on_runner (on_pending (fun _ => rest)) d))
      else d
  end.

Definition kick (e : Env) (d : Dashboard) : Dashboard :=
  kickLoop e (pending (runner d)) d.


Definition isQueuedOrRunning (key : string) (r : TargetRunner) : bool :=
  bool_decide (is_Some (running r !! key))
  || existsb (fun item => String.eqb (requestKey item) key) (pending r).

Definition enqueue (e : Env) (request : RunRequest) (d : Dashboard) : Dashboard :=
  let key := requestKey request in
  if isQueuedOrRunning key (runner d) then d
  else
    kick e
      (on_runner (fun r =>
         on_pending (fun q => q ++ [request])
           (on_autoCloseFlags (insert key (autoCloseOnSuccess request))
              (on_taskNames (insert key (getTaskName (name (module request)) (target request))) r))) d).

Definition taskExecutions (m : gmap string RunningEntry) : list nat :=
  flat_map (fun kv => match snd kv with TaskEntry x => [x] | SilentEntry => [] end)
           (map_to_list m).

(** [TargetRunner.stopAll] *)
Definition runnerStopAll (d : Dashboard) : Dashboard :=
  on_runner (fun r =>
    on_pending (fun _ => [])
      (on_terminated (fun l => l ++ taskExecutions (running r)) r)) d.

(** The promise of [executeTask] resolves for the [i]-th suspended
    [executeInTerminal] call: [this.running.set(key, { kind: 'task', execution })]. *)
Definition taskStarted (i : nat) (execution : nat) (d : Dashboard) : Dashboard :=
  match starting (runner d) !! i with
  | Some (_, key) =>
      on_runner (fun r =>
        on_running (insert key (TaskEntry execution))
          (on_starting (fun l => take i l ++ drop (S i) l) r)) d
  | None => d
  end.

(** [handleTaskOutput] for an event of one of the runner's tasks. *)
Definition maxOutputSize : N := 200000.

Definition handleTaskOutput (moduleId target data : string) (d : Dashboard) : Dashboard :=
  if Js.isEmpty moduleId || Js.isEmpty target then d
  else
    let key := getKey moduleId target in
    let existing := default EmptyString (taskOutput (runner d) !! key) in
    let next := String.append existing data in
    let n := N.of_nat (String.length next) in
    let next := if (maxOutputSize <? n)%N
                then String.substring (N.to_nat (n - maxOutputSize)) (N.to_nat maxOutputSize) next
                else next in
    on_runner (on_taskOutput (insert key next)) d.

(** ** The controller's enqueue path *)

Definition enqueueRun (e : Env) (m : ModuleInfo) (target : string)
    (autoClose : option bool) (inTerminal : option bool) (d : Dashboard) : Dashboard :=
  match StateStore.getModuleState (id m) (stateStore d) with
  | None => d
  | Some moduleState =>
      if negb (StateStore.isAvailable moduleState target) then d
      else
        let useNinja :=
          match generator moduleState with
          | Some g => bool_decide (g = Ninja)
          | None => negb (bool_decide (buildSystem (settings e) = BsMake))
          end in
        let makeJobs :=
          match settings_makeJobs (settings e) with
          | None => cpus e
          | Some n => n
          end in
        enqueue e
          (mkRunRequest m target useNinja makeJobs
             (default false autoClose) (Some (default true inTerminal))) d
  end.

Definition enqueueRunById (e : Env) (moduleId target : string) (d : Dashboard) : Dashboard :=
  match StateStore.getModuleState moduleId (stateStore d) with
  | None => d
  | Some moduleState => enqueueRun e (ms_module moduleState) target None None d
  end.

(** The loop of [startNextRunAllTarget] and [startNextModuleTarget]:
    [shift] until a non-empty name of an available target comes out. *)
Fixpoint shiftAvailable (available : string -> bool) (queue : list string) : option (string * list string) :=
  match queue with
  | [] => None
  | t :: rest =>
      if negb (Js.isEmpty t) && available t then Some (t, rest)
      else shiftAvailable available rest
  end.

Definition startNextRunAllTarget (e : Env) (moduleId : string) (d : Dashboard) : Dashboard :=
  if bool_decide (is_Some (runAllActive d !! moduleId)) then d
  else
    match runAllQueues d !! moduleId with
    | None => d
    | Some queue =>
        match StateStore.getModuleState moduleId (stateStore d) with
        | None => on_runAllQueues (delete moduleId) d
        | Some moduleState =>
            match shiftAvailable (StateStore.isAvailable moduleState) queue with
            | Some (nextTarget, rest) =>
                let d := on_runAllQueues (insert moduleId rest) d in
                let d := on_runAllActive (insert moduleId nextTarget) d in
                enqueueRun e (ms_module moduleState) nextTarget (Some true) (Some false) d
            | None => on_runAllQueues (delete moduleId) d
            end
        end
    end.

Definition handleRunAllCompletion (e : Env) (moduleId target : string) (d : Dashboard) : Dashboard :=
  if bool_decide (runAllActive d !! moduleId = Some target)
  then startNextRunAllTarget e moduleId (on_runAllActive (delete moduleId) d)
  else d.

Definition startNextModuleTarget (e : Env) (m : ModuleInfo) (d : Dashboard) : Dashboard :=
  if bool_decide (is_Some (runModuleActive d !! id m)) then d
  else
    match runModuleQueues d !! id m with
    | None => d
    | Some queue =>
        let available t :=
          match StateStore.getModuleState (id m) (stateStore d) with
          | Some moduleState => StateStore.isAvailable moduleState t
          | None => false
          end in
        match shiftAvailable available queue with
        | Some (nextTarget, rest) =>
            let d := on_runModuleQueues (insert (id m) rest) d in
            let d := on_runModuleActive (insert (id m) nextTarget) d in
            enqueueRun e m nextTarget (Some true) (Some false) d
        | None => on_runModuleQueues (delete (id m)) d
        end
    end.

Definition handleRunModuleCompletion (e : Env) (moduleId target : string) (d : Dashboard) : Dashboard :=
  if bool_decide (runModuleActive d !! moduleId = Some target)
  then
    let d := on_runModuleActive (delete moduleId) d in
    match StateStore.getModuleState moduleId (stateStore d) with
    | None => on_runModuleQueues (delete moduleId) d
    | Some moduleState => startNextModuleTarget e (ms_module moduleState) d
    end
  else d.

(** The listener of [onDidUpdate], branch of the final statuses. *)
Definition fireCompleted (e : Env) (u : RunUpdate) (d : Dashboard) : Dashboard :=
  let d := on_runner (on_fired (fun l => l ++ [u])) d in
  let d := on_stateStore
             (StateStore.updateRun (moduleId u) (upd_target u)
                (mkRunPatch (upd_status u) (Some (upd_exitCode u)) None (Some (Some (now e))))) d in
  let d := handleRunAllCompletion e (moduleId u) (upd_target u) d in
  let d := handleRunModuleCompletion e (moduleId u) (upd_target u) d in
  pushState d.

(** ** Completion of a run *)

Definition closeTaskTerminal (e : Env) (key : string) (d : Dashboard) : Dashboard :=
  match taskNames (runner d) !! key with
  | Some taskName =>
      if Js.isEmpty taskName then d
      else if existsb (String.eqb taskName) (terminals e)
           then on_runner (on_closedTerminals (fun l => l ++ [taskName])) d
           else d
  | None => d
  end.

(** [executeSilently] after [await runCommandWithExitCode(...)]. *)
Definition executeSilentlyResumed (e : Env) (request : RunRequest) (key : string)
    (result : ExecResultWithExitCode) (d : Dashboard) : Dashboard :=
  let output := Js.trim (String.append (res_stdout result) (String.append LF (res_stderr result))) in
  let status := resolveOutputStatus (default 1 (res_exitCode result)) output in
  if bool_decide (status = StSuccess) then
    let d := on_runner (on_running (delete key)) d in
    let d := fireCompleted e
               (mkRunUpdate (id (module request)) (target request) status
                  (Some (default 0 (res_exitCode result)))) d in
    let d := on_runner (fun r =>
               on_autoCloseFlags (delete key)
                 (on_runStartedAt (delete key)
                    (on_modulePaths (delete key) r))) d in
    kick e d
  else
    let d := on_runner (fun r =>
               on_runStartedAt (insert key (now e))
                 (on_autoCloseFlags (insert key false)
                    (on_running (delete key) r))) d in
    let d := fireRunning e (id (module request)) (target request) d in
    executeInTerminal
      (mkRunRequest (module request) (target request) (useNinja request) (makeJobs request)
         (autoCloseOnSuccess request) (Some true))
      key d.

(** The [i]-th suspended silent call returns [result]. *)
Definition silentFinished (e : Env) (i : nat) (result : ExecResultWithExitCode) (d : Dashboard) : Dashboard :=
  match silentCalls (runner d) !! i with
  | Some (request, key) =>
      executeSilentlyResumed e request key result
        (on_runner (on_silentCalls (fun l => take i l ++ drop (S i) l)) d)
  | None => d
  end.

(** [handleTaskEnd] from the point where the status of the process and
    of the diagnostics is known. *)
Definition handleTaskEndFinish (e : Env) (t : TaskEnd) (status : TargetRunStatus) (d : Dashboard) : Dashboard :=
  let key := getKey (end_moduleId t) (end_target t) in
  let status :=
    if bool_decide (status = StSuccess) && negb (Js.isEmpty (end_output t))
    then resolveOutputStatus 0 (end_output t)
    else status in
  let d :=
    if bool_decide (status = StSuccess) && default false (autoCloseFlags (runner d) !! key)
    then closeTaskTerminal e key d
    else d in
  let d := fireCompleted e (mkRunUpdate (end_moduleId t) (end_target t) status (end_exitCode t)) d in
  let d := on_runner (fun r =>
             on_taskOutput (delete key)
               (on_autoCloseFlags (delete key)
                  (on_runStartedAt (delete key)
                     (on_modulePaths (delete key) r)))) d in
  kick e d.

(** [handleTaskEnd] for an end-of-process event of one of the runner's
    tasks, up to [await this.resolveDiagnosticsStatus(...)]. *)
Definition handleTaskEnd (e : Env) (moduleId target : string) (exitCode : option Z) (d : Dashboard) : Dashboard :=
  if Js.isEmpty moduleId || Js.isEmpty target then d
  else
    let key := getKey moduleId target in
    let d := on_runner (on_running (delete key)) d in
    let modulePath := default EmptyString (modulePaths (runner d) !! key) in
    let output := default EmptyString (taskOutput (runner d) !! key) in
    let t := mkTaskEnd moduleId target exitCode modulePath output in
    if bool_decide (exitCode = Some 0) then
      if negb (Js.isEmpty modulePath)
      then on_runner (on_settling (fun l => l ++ [t])) d
      else handleTaskEndFinish e t StSuccess d
    else handleTaskEndFinish e t StFailed d.

(** The diagnostics of the [i]-th suspended [handleTaskEnd] have settled
    with the given counts. *)
Definition diagnosticsSettled (e : Env) (i : nat) (errors warnings : Z) (d : Dashboard) : Dashboard :=
  match settling (runner d) !! i with
  | Some t =>
      handleTaskEndFinish e t (resolveDiagnosticsStatus errors warnings)
        (on_runner (on_settling (fun l => take i l ++ drop (S i) l)) d)
  | None => d
  end.

(** ** The bulk operations of the controller *)

Definition clearQueues (d : Dashboard) : Dashboard :=
  on_runModuleActive (fun _ => ∅)
    (on_runModuleQueues (fun _ => ∅)
       (on_runAllActive (fun _ => ∅)
          (on_runAllQueues (fun _ => ∅) d))).

Definition stopAll (d : Dashboard) : Dashboard :=
  clearQueues (runnerStopAll d).

Definition rerunFailed (e : Env) (d : Dashboard) : Dashboard :=
  fold_left (fun d request => enqueueRun e (fst request) (snd request) None None d)
            (StateStore.getFailedTargets (stateStore d)) d.

Definition availableTargets (m : ModuleState) (ts : list TargetDefinition) : list string :=
  map target_name (filter (fun t => StateStore.isAvailable m (target_name t) = true) ts).

(** The keys of a [Map] filled by [set] in this order: every key once, at
    the place of its first [set]. *)
Fixpoint insertionOrder (keys : list string) (seen : list string) : list string :=
  match keys with
  | [] => []
  | k :: rest =>
      if existsb (String.eqb k) seen then insertionOrder rest seen
      else k :: insertionOrder rest (k :: seen)
  end.

Definition runAll (e : Env) (d : Dashboard) : Dashboard :=
  let d := on_runAllActive (fun _ => ∅) (on_runAllQueues (fun _ => ∅) d) in
  let withTargets :=
    filter (fun m => availableTargets m (StateStore.targets (stateStore d)) ≠ [])
           (StateStore.modules (stateStore d)) in
  let d := fold_left (fun d m =>
             on_runAllQueues
               (insert (id (ms_module m)) (availableTargets m (StateStore.targets (stateStore d)))) d)
             withTargets d in
  fold_left (fun d moduleId => startNextRunAllTarget e moduleId d)
            (insertionOrder (map (fun m => id (ms_module m)) withTargets) []) d.

Definition runTargetForModule (e : Env) (moduleId : string) (d : Dashboard) : Dashboard :=
  match StateStore.getModuleState moduleId (stateStore d) with
  | None => d
  | Some moduleState =>
      let available := availableTargets moduleState (StateStore.targets (stateStore d)) in
      match available with
      | [] => d
      | _ =>
          let d := fold_left (fun d target =>
                     on_stateStore
                       (StateStore.updateRun moduleId target
                          (mkRunPatch StRunning None (Some (Some (now e))) None)) d)
                     available d in
          let d := pushState d in
          let d := on_runModuleQueues (insert moduleId available) d in
          let d := on_runModuleActive (delete moduleId) d in
          startNextModuleTarget e (ms_module moduleState) d
      end
  end.

Definition runTargetForAllModules (e : Env) (target : string) (d : Dashboard) : Dashboard :=
  fold_left (fun d moduleState =>
               if StateStore.isAvailable moduleState target
               then enqueueRun e (ms_module moduleState) target (Some true) (Some false) d
               else d)
            (StateStore.modules (stateStore d)) d.

Definition revealOrRerunTarget (e : Env) (moduleId target : string) (d : Dashboard) : Dashboard :=
  match StateStore.getModuleState moduleId (stateStore d) with
  | None => d
  | Some moduleState =>
      if existsb (String.eqb (getTaskName (name (ms_module moduleState)) target)) (terminals e)
      then d
      else enqueueRun e (ms_module moduleState) target (Some false) None d
  end.

(** ** The host: file system and child processes

    The calls into [fs/promises] and [child_process] are answered by a
    [Host]; every call is also recorded, in order, in the trace of the
    computation.  A rejected promise is a thrown [JsError]. *)

Inductive FileKind := KindFile | KindDirectory | KindOther.

Global Instance FileKind_eq_dec : EqDecision FileKind.
Proof. solve_decision. Defined.

Record Dirent := mkDirent { dirent_name : string; dirent_kind : FileKind }.

Global Instance Dirent_eq_dec : EqDecision Dirent.
Proof. solve_decision. Defined.

(** [ExecResult] of [utils/exec.ts]. *)
Record ExecResult := mkExecResult { stdout : string; stderr : string }.

Inductive JsError :=
| ChildProcessError (message code out err : string)
| PlainError (message : string).

Inductive IoCall :=
| CallStat (p : string)
| CallReadFile (p : string)
| CallReaddir (p : string)
| CallMkdir (p : string)
| CallExecFile (command : string) (args : list string) (cwd : option string)
| CallExecuteTask (taskName : string).

Record Host := mkHost {
  fs_stat : string -> JsError + FileKind;
  fs_readFile : string -> JsError + string;
  fs_readdir : string -> JsError + list Dirent;
  fs_mkdir : string -> JsError + unit;
  execFile : string -> list string -> option string -> JsError + ExecResult;
  configureTaskExit : string -> option Z;
  localeCompare : string -> string -> Z
}.

Definition IO (A : Type) : Type := list IoCall * (JsError + A).

Definition ret {A} (a : A) : IO A := ([], inr a).

Definition bind {A B} (m : IO A) (f : A -> IO B) : IO B :=
  match m with
  | (t, inl err) => (t, inl err)
  | (t, inr a) => let '(t', r) := f a in (t ++ t', r)
  end.

(** [try { m } catch { return fallback }] *)
Definition catch {A} (m : IO A) (fallback : A) : IO A :=
  match m with
  | (t, inl _) => (t, inr fallback)
  | (t, inr a) => (t, inr a)
  end.

Definition call {A} (c : IoCall) (answer : JsError + A) : IO A := ([c], answer).

Definition throw {A} (err : JsError) : IO A := ([], inl err).

Notation "x <- m ;; f" := (bind m (fun x => f))
  (at level 100, m at next level, right associativity).

Definition trace {A} (m : IO A) : list IoCall := fst m.
Definition outcome {A} (m : IO A) : JsError + A := snd m.

(** ** [path.join] (POSIX)

    The non-empty arguments are joined with [/] and the result is
    normalised: empty segments and [.] are dropped, [..] removes the
    segment before it (and is kept at the front of a relative path, dropped
    at the root), a trailing [/] is kept, and the empty path is [.]. *)
Definition isSlash (c : ascii) : bool := (Js.code c =? 47)%N.

(** The segments between the slashes, the last one first. *)
Fixpoint segments_aux (s : string) (cur : string) (done : list string) : list string :=
  match s with
  | EmptyString => Js.rev cur :: done
  | String c s' =>
      if isSlash c then segments_aux s' EmptyString (Js.rev cur :: done)
      else segments_aux s' (String c cur) done
  end.

Definition segments (s : string) : list string := List.rev (segments_aux s EmptyString []).

(** [normalizeString]: [kept] holds the segments kept so far, the last
    one first. *)
Definition normalizeStep (allowAboveRoot : bool) (kept : list string) (segment : string) : list string :=
  if Js.isEmpty segment || String.eqb segment "." then kept
  else if String.eqb segment ".." then
    match kept with
    | last :: before =>
        if String.eqb last ".." then segment :: kept else before
    | [] => if allowAboveRoot then [segment] else []
    end
  else segment :: kept.

Definition joinWith (separator : string) (parts : list string) : string :=
  match parts with
  | [] => EmptyString
  | first :: others =>
      fold_left (fun acc part => String.append acc (String.append separator part)) others first
  end.

Definition endsWithSlash (p : string) : bool :=
  match Js.rev p with
  | String c _ => isSlash c
  | EmptyString => false
  end.

Definition normalize (p : string) : string :=
  match p with
  | EmptyString => "."
  | String first _ =>
      let isAbsolute := isSlash first in
      let trailingSeparator := endsWithSlash p in
      let kept := fold_left (normalizeStep (negb isAbsolute)) (segments p) [] in
      let body := joinWith "/" (List.rev kept) in
      if Js.isEmpty body then
        if isAbsolute then "/" else if trailingSeparator then "./" else "."
      else
        let body := if trailingSeparator then String.append body "/" else body in
        if isAbsolute then String.append "/" body else body
  end.

Definition pathJoinAll (parts : list string) : string :=
  match List.filter (fun part => negb (Js.isEmpty part)) parts with
  | [] => "."
  | nonEmptyParts => normalize (joinWith "/" nonEmptyParts)
  end.

(** [path.join(a, b)] and [path.join(a, b, c)]. *)
Definition pathJoin (a b : string) : string := pathJoinAll [a; b].
Definition pathJoin3 (a b c : string) : string := pathJoinAll [a; b; c].

(** [utils/exec.ts] *)
Definition runCommand (h : Host) (command : string) (args : list string) (cwd : string) : IO ExecResult :=
  call (CallExecFile command args (Some cwd)) (execFile h command args (Some cwd)).

Definition commandExists (h : Host) (command : string) : IO bool :=
  catch (_ <- call (CallExecFile command ["--version"%string] None)
                   (execFile h command ["--version"%string] None) ;; ret true)
        false.

(** ** Generator selection ([cmake/generator.ts]) *)

Definition CACHE_FILE : string := "CMakeCache.txt".

(** [contents.match(/^CMAKE_GENERATOR:INTERNAL=(.+)$/m)]: the first line
    that starts with the key and goes on with at least one character; the
    capture is the rest of that line. *)
Definition matchGeneratorLine (contents : string) : option string :=
  let rests := omap (Js.dropPrefix "CMAKE_GENERATOR:INTERNAL=") (Js.regexLines contents) in
  head (filter (fun rest => Js.isEmpty rest = false) rests).

Definition detectExistingGenerator (h : Host) (outDir : string) : IO (option CMakeGenerator) :=
  let cachePath := pathJoin outDir CACHE_FILE in
  catch
    (contents <- call (CallReadFile cachePath) (fs_readFile h cachePath) ;;
     match matchGeneratorLine contents with
     | Some captured =>
         let value := Js.trim captured in
         if String.eqb value "Ninja" then ret (Some Ninja)
         else if String.eqb value "Unix Makefiles" then ret (Some UnixMakefiles)
         else ret None
     | None => ret None
     end)
    None.

Definition selectGenerator (h : Host) (buildSystem : BuildSystem) (outDir : string) : IO CMakeGenerator :=
  match buildSystem with
  | BsNinja => ret Ninja
  | BsMake => ret UnixMakefiles
  | BsAuto =>
      existing <- detectExistingGenerator h outDir ;;
      match existing with
      | Some g => ret g
      | None =>
          hasNinja <- commandExists h "ninja" ;;
          if hasNinja then ret Ninja else ret UnixMakefiles
      end
  end.

Definition generatorName (g : CMakeGenerator) : string :=
  match g with Ninja => "Ninja" | UnixMakefiles => "Unix Makefiles" end.

(** ** Target detection ([cmake/targets.ts]) *)

(** The character class [[A-Za-z0-9_.:+-]]. *)
Definition isTargetChar (c : ascii) : bool :=
  Js.isWord c
  || (Js.code c =? 46)%N || (Js.code c =? 58)%N || (Js.code c =? 43)%N || (Js.code c =? 45)%N.

Definition nextIsWord (s : string) : bool :=
  match s with String c _ => Js.isWord c | EmptyString => false end.

(** [([A-Za-z0-9_.:+-]+)\b] at the start of [s]: the longest non-empty
    run of class characters that ends at a word boundary. *)
Fixpoint captureTarget (s : string) : option string :=
  match s with
  | EmptyString => None
  | String c s' =>
      if isTargetChar c then
        match captureTarget s' with
        | Some longer => Some (String c longer)
        | None =>
            if xorb (Js.isWord c) (nextIsWord s') then Some (String c EmptyString) else None
        end
      else None
  end.

(** [line.match(/^\s*\.\.\.\s+([A-Za-z0-9_.:+-]+)\b/)], the capture. *)
Definition matchHelpLine (line : string) : option string :=
  match Js.dropPrefix "..." (Js.skipSpaces line) with
  | Some (String c rest) =>
      if Js.isSpace c then captureTarget (Js.skipSpaces rest) else None
  | _ => None
  end.

Definition isColon (c : ascii) : bool := (Js.code c =? 58)%N.

Definition collectHelpLine (targets : gset string) (line : string) : gset string :=
  match matchHelpLine line with
  | Some captured => {[captured]} ∪ targets
  | None =>
      let trimmed := Js.trim line in
      if Js.isEmpty trimmed || Js.startsWith (Js.toLowerCase trimmed) "the following"
      then targets
      else
        let token := Js.takeUntil Js.isSpace trimmed in
        if Js.isEmpty token then targets
        else
          let cleaned := if Js.includes isColon token then Js.takeUntil isColon token else token in
          if Js.isEmpty cleaned then targets else {[cleaned]} ∪ targets
  end.

Definition collectTargetsFromLines (output : string) (targets : gset string) : gset string :=
  fold_left collectHelpLine (Js.splitLines output) targets.

Definition collectNinjaLine (targets : gset string) (line : string) : gset string :=
  let trimmed := Js.trim line in
  if Js.isEmpty trimmed then targets
  else
    let targetName := Js.takeUntil (fun c => isColon c || Js.isSpace c) trimmed in
    if Js.isEmpty targetName then targets else {[targetName]} ∪ targets.

Definition collectNinjaTargets (output : string) (targets : gset string) : gset string :=
  fold_left collectNinjaLine (Js.splitLines output) targets.

(** The template literal [`${result.stdout}\n${result.stderr}`]. *)
Definition bothStreams (r : ExecResult) : string :=
  String.append (stdout r) (String.append LF (stderr r)).

Definition buildHelp : list string := ["--build"; "out"; "--target"; "help"]%string.

Definition detectTargets (h : Host) (modulePath : string) (generator : CMakeGenerator) : IO (gset string) :=
  let outDir := pathJoin modulePath "out" in
  match generator with
  | Ninja =>
      result <- runCommand h "ninja" ["-C"; "out"; "-t"; "targets"]%string modulePath ;;
      let targets := collectNinjaTargets (bothStreams result) ∅ in
      allResult <- runCommand h "ninja" ["-C"; "out"; "-t"; "targets"; "all"]%string modulePath ;;
      let targets := collectNinjaTargets (bothStreams allResult) targets in
      if bool_decide (size targets = 0%nat) then
        fallback <- runCommand h "cmake" buildHelp modulePath ;;
        ret (collectTargetsFromLines (bothStreams fallback) targets)
      else ret targets
  | UnixMakefiles =>
      result <- runCommand h "cmake" buildHelp modulePath ;;
      let targets := collectTargetsFromLines (bothStreams result) ∅ in
      if bool_decide (size targets = 0%nat) then
        fallback <- runCommand h "make" ["-C"%string; outDir; "help"%string] modulePath ;;
        ret (collectTargetsFromLines (bothStreams fallback) targets)
      else ret targets
  end.

(** [parts.filter(Boolean).join('\n')] *)
Definition joinNonEmpty (parts : list string) : string :=
  match filter (fun s => Js.isEmpty s = false) parts with
  | [] => EmptyString
  | first :: others =>
      fold_left (fun acc s => String.append acc (String.append LF s)) others first
  end.

(** ** Configure runner ([cmake/configure.ts]) *)

Module Configure.

Record ConfigureResult := mk {
  configured : bool;
  generator : CMakeGenerator;
  output : string
}.

Definition skipped : string := "Skipped configure (existing CMake cache).".

Definition hasCMakeCache (h : Host) (modulePath : string) : IO bool :=
  let cachePath := pathJoin3 modulePath "out" "CMakeCache.txt" in
  catch (kind <- call (CallStat cachePath) (fs_stat h cachePath) ;;
         ret (bool_decide (kind = KindFile)))
        false.

Definition configureArgs (g : CMakeGenerator) : list string :=
  ["-S"%string; "./"%string; "-B"%string; "out"%string; "-G"%string; generatorName g].

Definition ensureConfigured (h : Host) (modulePath : string) (buildSystem : BuildSystem) : IO ConfigureResult :=
  let outDir := pathJoin modulePath "out" in
  exists_ <- catch (kind <- call (CallStat outDir) (fs_stat h outDir) ;;
                    ret (bool_decide (kind = KindDirectory)))
                   false ;;
  generator <- selectGenerator h buildSystem outDir ;;
  cached <- (if exists_ then hasCMakeCache h modulePath else ret false) ;;
  if exists_ && cached then ret (mk false generator skipped)
  else
    _ <- call (CallMkdir outDir) (fs_mkdir h outDir) ;;
    result <- runCommand h "cmake" (configureArgs generator) modulePath ;;
    ret (mk true generator (joinNonEmpty [stdout result; stderr result])).

End Configure.

(** ** Module discovery ([discovery/modules.ts]) *)

Definition CMAKE_LISTS : string := "CMakeLists.txt".
Definition CUSTOM_TARGETS : string := "custom_targets.cmake".

Definition isMarker (entry : Dirent) : bool :=
  bool_decide (dirent_kind entry = KindFile)
  && (String.eqb (dirent_name entry) CMAKE_LISTS || String.eqb (dirent_name entry) CUSTOM_TARGETS).

Definition isModuleDirectory (h : Host) (dirPath : string) : IO bool :=
  catch (entries <- call (CallReaddir dirPath) (fs_readdir h dirPath) ;;
         ret (existsb isMarker entries))
        false.

(** [Array.prototype.sort] with a comparator: a stable sort; an element
    goes before the first one that the comparator puts after it. *)
Fixpoint sortInsert {A} (compare : A -> A -> Z) (x : A) (sorted : list A) : list A :=
  match sorted with
  | [] => [x]
  | y :: rest =>
      if compare x y <? 0 then x :: y :: rest
      else y :: sortInsert compare x rest
  end.

Definition sortBy {A} (compare : A -> A -> Z) (l : list A) : list A :=
  fold_left (fun sorted x => sortInsert compare x sorted) l [].

Definition moduleOf (workspaceFolder modulesRoot rootPath entryName : string) : ModuleInfo :=
  mkModuleInfo
    (String.append workspaceFolder
       (String.append ":" (String.append modulesRoot (String.append ":" entryName))))
    entryName (pathJoin rootPath entryName) workspaceFolder.

Fixpoint scanEntries (h : Host) (workspaceFolder modulesRoot rootPath : string)
    (excludedModules : gset string) (entries : list Dirent) : IO (list ModuleInfo) :=
  match entries with
  | [] => ret []
  | entry :: rest =>
      if negb (bool_decide (dirent_kind entry = KindDirectory))
      then scanEntries h workspaceFolder modulesRoot rootPath excludedModules rest
      else if bool_decide (dirent_name entry ∈ excludedModules)
      then scanEntries h workspaceFolder modulesRoot rootPath excludedModules rest
      else
        found <- isModuleDirectory h (pathJoin rootPath (dirent_name entry)) ;;
        others <- scanEntries h workspaceFolder modulesRoot rootPath excludedModules rest ;;
        ret (if found
             then moduleOf workspaceFolder modulesRoot rootPath (dirent_name entry) :: others
             else others)
  end.

Definition discoverModules (h : Host) (workspaceFolder modulesRoot : string)
    (excludedModules : gset string) : IO (list ModuleInfo) :=
  let rootPath := pathJoin workspaceFolder modulesRoot in
  listing <- catch (entries <- call (CallReaddir rootPath) (fs_readdir h rootPath) ;;
                    ret (Some entries))
                   None ;;
  match listing with
  | None => ret []
  | Some entries =>
      modules <- scanEntries h workspaceFolder modulesRoot rootPath excludedModules entries ;;
      ret (sortBy (fun a b => localeCompare h (name a) (name b)) modules)
  end.

(** [String.prototype.localeCompare] of a host with the default (root)
    collation, on names made of ASCII letters and digits: the strings are
    compared letter by letter without regard to case, and among strings
    that differ in case only the one with a lower-case letter at the first
    difference comes first. *)
Definition caseKey (c : ascii) : ascii :=
  if Js.isUpper c then "1"%char else "0"%char.

Fixpoint caseKeys (s : string) : string :=
  match s with
  | EmptyString => EmptyString
  | String c s' => String (caseKey c) (caseKeys s')
  end.

Definition signOf (c : comparison) : Z :=
  match c with Lt => -1 | Eq => 0 | Gt => 1 end.

Definition rootLocaleCompare (a b : string) : Z :=
  match String.compare (Js.toLowerCase a) (Js.toLowerCase b) with
  | Eq => signOf (String.compare (caseKeys a) (caseKeys b))
  | c => signOf c
  end.

(** ** Refresh and configure in the controller

    The awaited calls of [configureAndDetect] and [refreshModule] are
    answered by the host at once; a result is the trace of the calls, the
    error that the method throws (if any) and the dashboard it leaves. *)

Definition formatConfigureError (error : JsError) : string :=
  match error with
  | ChildProcessError message code out err =>
      joinNonEmpty [message; String.append "Exit code: " code; out; err]
  | PlainError message => message
  end.

Definition markUnavailable (moduleId : string) (d : Dashboard) : Dashboard :=
  fold_left (fun d t => on_stateStore (StateStore.setAvailability moduleId (target_name t) false) d)
            (StateStore.targets (stateStore d)) d.

Definition showExitCode (exitCode : option Z) : string :=
  match exitCode with
  | None => "unknown"
  | Some n => DecimalString.NilZero.string_of_int (Z.to_int n)
  end.

(** The [try] block of [configureAndDetect] up to the configure output. *)
Definition configureStep (h : Host) (m : ModuleInfo) (bs : BuildSystem)
    (skipConfigure inTask : bool) : IO (CMakeGenerator * string) :=
  generator <- selectGenerator h bs (pathJoin (path m) "out") ;;
  if skipConfigure then ret (generator, Configure.skipped)
  else if inTask then
    let taskName := String.append (name m) ":configure" in
    _ <- call (CallExecuteTask taskName) (inr tt) ;;
    let exitCode := configureTaskExit h (id m) in
    if bool_decide (exitCode = Some 0)
    then ret (generator, String.append "See terminal: " taskName)
    else throw (PlainError (String.append "Configure failed with exit code "
                              (String.append (showExitCode exitCode) ".")))
  else
    configureResult <- Configure.ensureConfigured h (path m) bs ;;
    ret (generator, Configure.output configureResult).

(** The [catch] block of [configureAndDetect]. *)
Definition configureFailed (e : Env) (m : ModuleInfo) (updateStatus : bool) (error : JsError)
    (d : Dashboard) : option JsError * Dashboard :=
  let d := if updateStatus
           then pushState (on_stateStore
                  (StateStore.updateConfigure (id m)
                     (mkConfigurePatch CfgFailed (Some (Some (formatConfigureError error)))
                        (Some (Some (now e))))) d)
           else d in
  let d := on_stateStore (StateStore.setNeedsConfigure (id m) true) d in
  let d := markUnavailable (id m) d in
  (if updateStatus then None else Some error, d).

Definition configureAndDetect (h : Host) (e : Env) (m : ModuleInfo) (bs : BuildSystem)
    (skipConfigure updateStatus runInTerminal : bool) (d : Dashboard)
    : list IoCall * (option JsError * Dashboard) :=
  let d := if updateStatus
           then pushState (on_stateStore
                  (StateStore.updateConfigure (id m)
                     (mkConfigurePatch CfgRunning None (Some (Some (now e))))) d)
           else d in
  let inTask := updateStatus && runInTerminal in
  let d := if negb skipConfigure && inTask
           then on_configureTaskNames (insert (id m) (String.append (name m) ":configure")) d
           else d in
  match configureStep h m bs skipConfigure inTask with
  | (t1, inl error) => (t1, configureFailed e m updateStatus error d)
  | (t1, inr (generator, configureOutput)) =>
      let d := on_stateStore (StateStore.setModuleGenerator (id m) generator) d in
      let d := on_stateStore (StateStore.setNeedsConfigure (id m) false) d in
      let d := if updateStatus
               then pushState (on_stateStore
                      (StateStore.updateConfigure (id m)
                         (mkConfigurePatch CfgSuccess (Some (Some configureOutput))
                            (Some (Some (now e))))) d)
               else d in
      match detectTargets h (path m) generator with
      | (t2, inl error) => (t1 ++ t2, configureFailed e m updateStatus error d)
      | (t2, inr targets) =>
          (t1 ++ t2,
           (None,
            fold_left (fun d t =>
                         on_stateStore
                           (StateStore.setAvailability (id m) (target_name t)
                              (bool_decide (target_name t ∈ targets))) d)
                      (StateStore.targets (stateStore d)) d))
      end
  end.

Definition refreshModule (h : Host) (e : Env) (m : ModuleInfo) (d : Dashboard)
    : list IoCall * Dashboard :=
  let failed (error : JsError) (d : Dashboard) :=
    let d := on_stateStore (StateStore.setNeedsConfigure (id m) true) d in
    let d := on_stateStore
               (StateStore.updateConfigure (id m)
                  (mkConfigurePatch CfgFailed (Some (Some (formatConfigureError error)))
                     (Some (Some (now e))))) d in
    markUnavailable (id m) d in
  match Configure.hasCMakeCache h (path m) with
  | (t0, inl error) => (t0, failed error d)
  | (t0, inr false) =>
      let d := on_stateStore (StateStore.setNeedsConfigure (id m) true) d in
      let d := on_stateStore
                 (StateStore.updateConfigure (id m)
                    (mkConfigurePatch CfgIdle
                       (Some (Some "Configure required (missing CMake cache)."%string))
                       (Some (Some (now e))))) d in
      (t0, markUnavailable (id m) d)
  | (t0, inr true) =>
      match configureAndDetect h e m (buildSystem (settings e)) true false true d with
      | (t1, (Some error, d)) => (t0 ++ t1, failed error d)
      | (t1, (None, d)) => (t0 ++ t1, d)
      end
  end.

(** ** Notions used in the statements *)

Definition targetNames (ts : list TargetDefinition) : list string := map target_name ts.

(** A name that [Object.prototype] does not define. *)
Definition ordinaryName (name : string) : Prop :=
  name <> "__proto__"%string /\ name ∉ Obj.prototypeMembers.

(** [runs[name]] of a module state is a run object. *)
Definition hasRunEntry (m : ModuleState) (name : string) : Prop :=
  exists o, getRun (runs m) name = Some (VObject o).

(** Every module state of the store has a run entry for every target of
    the current target list. *)
Definition covered (s : StateStore.t) : Prop :=
  Forall (fun m => forall tn, tn ∈ targetNames (StateStore.targets s) -> hasRunEntry m tn)
         (StateStore.modules s).

(** A [runs] object whose prototype is untouched and whose own properties
    are run objects without extra properties. *)
Definition plainRuns (r : Runs) : Prop :=
  proto r = None
  /\ forall name value, own r !! name = Some value -> exists result, value = VObject (mkRunObject result EmptyString).

Definition plainStore (s : StateStore.t) : Prop :=
  Forall (fun m => plainRuns (runs m)) (StateStore.modules s).

(** The mutators of the state store. *)
Inductive StoreCall :=
| SetTargets (ts : list TargetDefinition)
| SetModules (ms : list ModuleInfo)
| SetModuleGenerator (moduleId : string) (g : CMakeGenerator)
| SetNeedsConfigure (moduleId : string) (b : bool)
| SetAvailability (moduleId targetName : string) (available : bool)
| UpdateRun (moduleId targetName : string) (u : RunPatch)
| UpdateConfigure (moduleId : string) (u : ConfigurePatch).

Definition storeCall (s : StateStore.t) (c : StoreCall) : StateStore.t :=
  match c with
  | SetTargets ts => StateStore.setTargets ts s
  | SetModules ms => StateStore.setModules ms s
  | SetModuleGenerator moduleId g => StateStore.setModuleGenerator moduleId g s
  | SetNeedsConfigure moduleId b => StateStore.setNeedsConfigure moduleId b s
  | SetAvailability moduleId targetName available =>
      StateStore.setAvailability moduleId targetName available s
  | UpdateRun moduleId targetName u => StateStore.updateRun moduleId targetName u s
  | UpdateConfigure moduleId u => StateStore.updateConfigure moduleId u s
  end.

(** Calls whose target names are all ordinary. *)
Definition ordinaryCall (c : StoreCall) : Prop :=
  match c with
  | SetTargets ts => Forall ordinaryName (targetNames ts)
  | UpdateRun _ targetName _ => ordinaryName targetName
  | _ => True
  end.

(** The own run entry of a name, when it is a plain run object. *)
Definition ownRun (m : ModuleState) (name : string) : option RunResult :=
  match own (runs m) !! name with
  | Some (VObject o) => Some (run_result o)
  | _ => None
  end.

(** What [setTargets] does to one module state. *)
Definition backfilled (ts : list TargetDefinition) (before after : ModuleState) : Prop :=
  ms_module after = ms_module before
  /\ availability after = availability before
  /\ generator after = generator before
  /\ needsConfigure after = needsConfigure before
  /\ configure after = configure before
  /\ plainRuns (runs after)
  /\ forall k,
       ownRun after k =
         match ownRun before k with
         | Some result => Some result
         | None => if decide (k ∈ targetNames ts) then Some idleRun else None
         end.

(** A module state with fresh defaults and idle runs for [ts]. *)
Definition freshFor (ts : list TargetDefinition) (m : ModuleInfo) (after : ModuleState) : Prop :=
  ms_module after = m
  /\ availability after = ∅
  /\ generator after = None
  /\ needsConfigure after = false
  /\ configure after = idleConfigure
  /\ plainRuns (runs after)
  /\ forall k, ownRun after k = if decide (k ∈ targetNames ts) then Some idleRun else None.

(** The probe of [commandExists('ninja')] as the host answers it. *)
Definition ninjaAvailable (h : Host) : bool :=
  match execFile h "ninja" ["--version"%string] None with
  | inr _ => true
  | inl _ => false
  end.

Definition cachePathOf (outDir : string) : string := pathJoin outDir CACHE_FILE.

Definition isFsCall (c : IoCall) : bool :=
  match c with
  | CallStat _ | CallReadFile _ | CallReaddir _ | CallMkdir _ => true
  | _ => false
  end.

(** Calls that run the configure command, and calls that create a
    directory. *)
Definition runsConfigure (c : IoCall) : bool :=
  match c with
  | CallExecFile command _ _ => String.eqb command "cmake"
  | _ => false
  end.

Definition createsDirectory (c : IoCall) : bool :=
  match c with CallMkdir _ => true | _ => false end.

Definition quiet (c : IoCall) : Prop :=
  runsConfigure c = false /\ createsDirectory c = false.

(** Sample hosts: one on which every call fails, and variations of it. *)
Definition notFound : JsError := PlainError "ENOENT".

Definition offlineHost : Host :=
  mkHost (fun _ => inl notFound) (fun _ => inl notFound) (fun _ => inl notFound)
         (fun _ => inl notFound) (fun _ _ _ => inl notFound) (fun _ => None)
         rootLocaleCompare.

Definition withFile (p contents : string) (h : Host) : Host :=
  mkHost (fun q => if String.eqb q p then inr KindFile else fs_stat h q)
         (fun q => if String.eqb q p then inr contents else fs_readFile h q)
         (fs_readdir h) (fs_mkdir h) (execFile h) (configureTaskExit h) (localeCompare h).

Definition withDirectory (p : string) (entries : list Dirent) (h : Host) : Host :=
  mkHost (fun q => if String.eqb q p then inr KindDirectory else fs_stat h q)
         (fs_readFile h)
         (fun q => if String.eqb q p then inr entries else fs_readdir h q)
         (fun q => if String.eqb q p then inr tt else fs_mkdir h q)
         (execFile h) (configureTaskExit h) (localeCompare h).

Definition withCommand (command : string) (answer : list string -> JsError + ExecResult) (h : Host) : Host :=
  mkHost (fs_stat h) (fs_readFile h) (fs_readdir h) (fs_mkdir h)
         (fun c args cwd => if String.eqb c command then answer args else execFile h c args cwd)
         (configureTaskExit h) (localeCompare h).

Definition withMkdir (h : Host) : Host :=
  mkHost (fs_stat h) (fs_readFile h) (fs_readdir h) (fun _ => inr tt)
         (execFile h) (configureTaskExit h) (localeCompare h).

Definition sampleCache : string :=
  String.append "# This is the CMakeCache file."
    (String.append LF
       (String.append "CMAKE_BUILD_TYPE:STRING=Debug"
          (String.append LF
             (String.append "CMAKE_GENERATOR:INTERNAL=Unix Makefiles"
                (String.append LF "CMAKE_HOME_DIRECTORY:INTERNAL=/ws/m"))))).

Definition cachedHost : Host :=
  withFile "/ws/m/out/CMakeCache.txt" sampleCache (withDirectory "/ws/m/out" [] offlineHost).

(** ** Cache files and configure output, as the statements describe them *)

(** Lines joined by line feeds. *)
Fixpoint unlines (lines : list string) : string :=
  match lines with
  | [] => EmptyString
  | line :: rest =>
      match rest with
      | [] => line
      | _ => String.append line (String.append LF (unlines rest))
      end
  end.

(** A text without line terminators. *)
Definition singleLine (line : string) : Prop := Js.includes Js.isLineTerminator line = false.

(** The cache line that names the generator [value]. *)
Definition generatorLine (value : string) : string :=
  String.append "CMAKE_GENERATOR:INTERNAL=" value.

(** A line that does not start with the generator key. *)
Definition otherLine (line : string) : Prop :=
  singleLine line /\ Js.startsWith line "CMAKE_GENERATOR:INTERNAL=" = false.

(** The name under which [cmake -G] knows a generator. *)
Inductive named : CMakeGenerator -> string -> Prop :=
| named_ninja : named Ninja "Ninja"
| named_makefiles : named UnixMakefiles "Unix Makefiles".

(** The configure command line for a generator name. *)
Definition cmakeConfigure (generatorText : string) : list string :=
  ["-S"; "./"; "-B"; "out"; "-G"; generatorText]%string.

(** Standard output and standard error combined: both when both are
    non-empty, with a line feed in between, and else the non-empty one. *)
Definition combinedOutput (out err : string) : string :=
  if Js.isEmpty out then err
  else if Js.isEmpty err then out
  else String.append out (String.append LF err).

(** The host answers one command line of a command and rejects its other
    command lines. *)
Definition withCommandLine (command : string) (line : list string) (answer : ExecResult)
    (h : Host) : Host :=
  mkHost (fs_stat h) (fs_readFile h) (fs_readdir h) (fs_mkdir h)
         (fun c args cwd =>
            if String.eqb c command
            then if bool_decide (args = line) then inr answer
                 else inl (PlainError "unknown arguments")
            else execFile h c args cwd)
         (configureTaskExit h) (localeCompare h).

Definition noisyLog : ExecResult :=
  mkExecResult "-- Configuring done" "CMake Warning: unused variable".

(** [mkdir] works and [cmake] accepts exactly the configure command line
    for Ninja. *)
Definition strictHost : Host :=
  withCommandLine "cmake" ["-S"; "./"; "-B"; "out"; "-G"; "Ninja"]%string noisyLog
    (withMkdir offlineHost).

Definition ninjaCache : string :=
  String.append "# This is the CMakeCache file."
    (String.append LF
       (String.append "CMAKE_GENERATOR:INTERNAL=Ninja"
          (String.append LF "CMAKE_GENERATOR_INSTANCE:INTERNAL="))).

(** [availability[target]] of a module of the store, read as a condition;
    false when the store has no module with this id. *)
Definition availableFor (s : StateStore.t) (moduleId target : string) : bool :=
  match StateStore.getModuleState moduleId s with
  | Some moduleState => StateStore.isAvailable moduleState target
  | None => false
  end.

Definition ninjaList : list string := ["-C"; "out"; "-t"; "targets"]%string.
Definition ninjaListAll : list string := ["-C"; "out"; "-t"; "targets"; "all"]%string.

(** All the calls of [detectTargets] when nothing is collected. *)
Definition allCommands (modulePath : string) (g : CMakeGenerator) : list IoCall :=
  match g with
  | Ninja =>
      [CallExecFile "ninja" ninjaList (Some modulePath);
       CallExecFile "ninja" ninjaListAll (Some modulePath);
       CallExecFile "cmake" buildHelp (Some modulePath)]
  | UnixMakefiles =>
      [CallExecFile "cmake" buildHelp (Some modulePath);
       CallExecFile "make" ["-C"%string; pathJoin modulePath "out"; "help"%string] (Some modulePath)]
  end.

Definition ninjaError : JsError :=
  ChildProcessError "Command failed: ninja -C out -t targets" "1" ""
    "ninja: error: loading 'build.ninja': No such file or directory".

Definition helpText : ExecResult :=
  mkExecResult
    (String.append "The following are some of the valid targets for this Makefile:"
       (String.append LF
          (String.append "... all (the default if no target is provided)"
             (String.append LF "... flash"))))
    "".

(** [ninja] exits with code 1, [cmake --build out --target help] works. *)
Definition brokenNinjaHost : Host :=
  withCommand "ninja" (fun _ => inl ninjaError)
    (withCommand "cmake" (fun _ => inr helpText) offlineHost).

(** The answer of the host to a call that runs a command. *)
Definition answerOf (h : Host) (c : IoCall) : option (JsError + ExecResult) :=
  match c with
  | CallExecFile command args cwd => Some (execFile h command args cwd)
  | _ => None
  end.

Definition succeedsOn (h : Host) (c : IoCall) : Prop :=
  forall err, answerOf h c <> Some (inl err).

Definition failsWith (h : Host) (c : IoCall) (err : JsError) : Prop :=
  answerOf h c = Some (inl err).

Definition cmakeHelpError : JsError :=
  ChildProcessError "Command failed: cmake --build out --target help" "1" ""
    "Error: could not load cache".

(** Both listings of [ninja] print nothing and the fallback
    [cmake --build out --target help] exits with code 1. *)
Definition brokenFallbackHost : Host :=
  withCommand "cmake" (fun _ => inl cmakeHelpError)
    (withCommand "ninja" (fun _ => inr (mkExecResult "" "")) offlineHost).

(** Every command succeeds and prints nothing. *)
Definition silentHost : Host :=
  mkHost (fun _ => inl notFound) (fun _ => inl notFound) (fun _ => inl notFound)
         (fun _ => inl notFound) (fun _ _ _ => inr (mkExecResult "" "")) (fun _ => None)
         rootLocaleCompare.

Definition sampleModule : ModuleInfo :=
  mkModuleInfo "/ws:modules:m" "m" "/ws/modules/m" "/ws".

Definition sampleEnv : Env :=
  mkEnv (mkSettings BsAuto None 4) 8 1000 [].

Definition sampleTargets : list TargetDefinition := [mkTarget "all"; mkTarget "flash"].

(** A dashboard with one module on which both targets are available. *)
Definition sampleDashboard (maxParallel : Z) : Dashboard :=
  on_stateStore
    (fun s =>
       StateStore.setAvailability (id sampleModule) "flash" true
         (StateStore.setAvailability (id sampleModule) "all" true
            (StateStore.setModules [sampleModule] (StateStore.setTargets sampleTargets s))))
    (newDashboard maxParallel).

(** A directory that can be listed and holds a regular file named
    [CMakeLists.txt] or [custom_targets.cmake]. *)
Definition hasMarker (h : Host) (dirPath : string) : bool :=
  match fs_readdir h dirPath with
  | inr entries =>
      bool_decide (mkDirent "CMakeLists.txt" KindFile ∈ entries)
      || bool_decide (mkDirent "custom_targets.cmake" KindFile ∈ entries)
  | inl _ => false
  end.

(** The entries that [discoverModules] keeps. *)
Definition qualifies (h : Host) (rootPath : string) (excludedModules : gset string)
    (entry : Dirent) : bool :=
  bool_decide (dirent_kind entry = KindDirectory)
  && negb (bool_decide (dirent_name entry ∈ excludedModules))
  && hasMarker h (pathJoin rootPath (dirent_name entry)).

(** Ascending order of names under the comparison of the host. *)
Definition localeLe (h : Host) (a b : ModuleInfo) : Prop :=
  localeCompare h (name a) (name b) <= 0.

(** A comparison function that orders consistently. *)
Definition consistentCompare (compare : string -> string -> Z) : Prop :=
  (forall a b, 0 < compare b a -> compare a b < 0)
  /\ (forall a b c, compare a b <= 0 -> compare b c <= 0 -> compare a c <= 0).

(** Ascending order of code units. *)
Definition codePointLe (a b : string) : Prop := String.compare a b <> Gt.

Definition manifest : list Dirent := [mkDirent CMAKE_LISTS KindFile].

(** A root with the module directories [B] and [a], an empty directory
    [b], an excluded module [c], a plain file, a directory [docs] with
    other files only, a directory [e] in which [CMakeLists.txt] is itself a
    directory, and a directory [locked] that cannot be listed. *)
Definition twoModulesHost : Host :=
  withDirectory "/ws/modules"
    [mkDirent "B" KindDirectory; mkDirent "b" KindDirectory; mkDirent "a" KindDirectory;
     mkDirent "c" KindDirectory; mkDirent "README.md" KindFile;
     mkDirent "docs" KindDirectory; mkDirent "e" KindDirectory; mkDirent "locked" KindDirectory;
     mkDirent "CMakeLists.txt" KindFile]
    (withDirectory "/ws/modules/B" manifest
       (withDirectory "/ws/modules/a" [mkDirent CUSTOM_TARGETS KindFile]
          (withDirectory "/ws/modules/b" []
             (withDirectory "/ws/modules/c" manifest
                (withDirectory "/ws/modules/docs"
                   [mkDirent "index.md" KindFile; mkDirent "cmakelists.txt" KindFile]
                   (withDirectory "/ws/modules/e" [mkDirent "CMakeLists.txt" KindDirectory]
                      offlineHost)))))).

(** The requests that the scheduler holds: queued, or dispatched and
    waiting for their task or child process. *)
Definition requestsOf (d : Dashboard) : list RunRequest :=
  pending (runner d) ++ map fst (starting (runner d)) ++ map fst (silentCalls (runner d)).

Definition requestAvailable (s : StateStore.t) (request : RunRequest) : bool :=
  availableFor s (id (module request)) (target request).

(** [admits d d']: from [d] to [d'] no availability flag has changed and
    every request that the scheduler has taken in was available. *)
Definition admits (d d' : Dashboard) : Prop :=
  (forall moduleId target,
     availableFor (stateStore d') moduleId target = availableFor (stateStore d) moduleId target)
  /\ (forall request,
        request ∈ requestsOf d' ->
        request ∈ requestsOf d \/ requestAvailable (stateStore d) request = true).

(** The commands of the presentation layer that start runs, and the two
    completion handlers that release the next target of a queue. *)
Inductive RunCommand :=
| CmdRunTarget (moduleId target : string)
| CmdRunAll
| CmdRerunFailed
| CmdRunTargetForModule (moduleId : string)
| CmdRunTargetForAllModules (target : string)
| CmdReveal (moduleId target : string)
| CmdRunAllCompletion (moduleId target : string)
| CmdRunModuleCompletion (moduleId target : string).

Definition perform (e : Env) (c : RunCommand) (d : Dashboard) : Dashboard :=
  match c with
  | CmdRunTarget moduleId target => enqueueRunById e moduleId target d
  | CmdRunAll => runAll e d
  | CmdRerunFailed => rerunFailed e d
  | CmdRunTargetForModule moduleId => runTargetForModule e moduleId d
  | CmdRunTargetForAllModules target => runTargetForAllModules e target d
  | CmdReveal moduleId target => revealOrRerunTarget e moduleId target d
  | CmdRunAllCompletion moduleId target => handleRunAllCompletion e moduleId target d
  | CmdRunModuleCompletion moduleId target => handleRunModuleCompletion e moduleId target d
  end.

(** The status that the silent mode computes from a result. *)
Definition silentStatus (result : ExecResultWithExitCode) : TargetRunStatus :=
  resolveOutputStatus (default 1 (res_exitCode result))
    (Js.trim (String.append (res_stdout result) (String.append LF (res_stderr result)))).

(** The same request with [runInTerminal: true]. *)
Definition inTerminal (request : RunRequest) : RunRequest :=
  mkRunRequest (module request) (target request) (useNinja request) (makeJobs request)
    (autoCloseOnSuccess request) (Some true).

Definition isRunningUpdate (u : RunUpdate) : Prop := upd_status u = StRunning.

(** From [d] to [d'] the scheduler has fired only [running] updates. *)
Definition announces (d d' : Dashboard) : Prop :=
  exists later,
    fired (runner d') = fired (runner d) ++ later /\ Forall isRunningUpdate later.

Definition silentRequest (target : string) : RunRequest :=
  mkRunRequest sampleModule target true 8 true (Some false).

Definition terminalRequest (target : string) : RunRequest :=
  mkRunRequest sampleModule target true 8 false (Some true).

Definition failedBuild : ExecResultWithExitCode :=
  mkExecResultWithExitCode "" "make: *** [all] Error 2" (Some 2).

Definition warningBuild : ExecResultWithExitCode :=
  mkExecResultWithExitCode "main.c:3:7: warning: unused variable" "" (Some 0).

Definition cleanBuild : ExecResultWithExitCode :=
  mkExecResultWithExitCode "[100%] Built target all" "" (Some 0).

(** The sample dashboard with a silent run of [all] in flight. *)
Definition silentInFlight : Dashboard :=
  enqueue sampleEnv (silentRequest "all") (sampleDashboard 4).

(** The number of entries of the in-flight map, [this.running.size]. *)
Definition inFlight (d : Dashboard) : Z := Z.of_nat (size (running (runner d))).



(** The keys of the requests that the scheduler holds in its queue, and
    of the executions it has begun. *)
Definition pendingKeys (d : Dashboard) : list string := map requestKey (pending (runner d)).
Definition startingKeys (d : Dashboard) : list string := map snd (starting (runner d)).

(** The run-target command for [all] on the sample dashboard, cap one. *)
Definition clickedOnce : Dashboard :=
  enqueueRunById sampleEnv (id sampleModule) "all" (sampleDashboard 1).

Definition clickedTwice : Dashboard :=
  enqueueRunById sampleEnv (id sampleModule) "all" clickedOnce.

(** The run-target command for [all] and then for [flash], in one burst,
    on the sample dashboard under a cap of one; and the state when the two
    tasks have started. *)
Definition twoClicks : Dashboard :=
  enqueueRunById sampleEnv (id sampleModule) "flash" clickedOnce.

Definition twoTasksStarted : Dashboard :=
  taskStarted 0 8 (taskStarted 0 7 twoClicks).

(** After the first click: [flash] is started silently for all modules,
    [all] is asked for again, and then the task of the first click
    starts. *)
Definition queuedAndRunning : Dashboard :=
  taskStarted 0 7
    (enqueueRunById sampleEnv (id sampleModule) "all"
       (runTargetForAllModules sampleEnv "flash" clickedOnce)).

(** The two object literals that the listener of [onDidUpdate] passes to
    [updateRun]. *)
Definition runningPatch (startedAt : Z) : RunPatch :=
  mkRunPatch StRunning None (Some (Some startedAt)) None.

Definition completedPatch (status : TargetRunStatus) (exitCode : option Z) (finishedAt : Z) : RunPatch :=
  mkRunPatch status (Some exitCode) None (Some (Some finishedAt)).

(** The result that [runs[target]] shows in the first module state with
    the id, when it is a run object. *)
Definition runOf (s : StateStore.t) (moduleId target : string) : option RunResult :=
  StateStore.getModuleState moduleId s ≫= fun m => StateStore.spreadResult (getRun (runs m) target).

(** A flag that reads as true in a condition: the object has it with the
    value [true], or does not have it while [Object.prototype] defines the
    name. *)
Definition readsTrue (flags : gmap string bool) (name : string) : Prop :=
  name = "__proto__"%string
  \/ flags !! name = Some true
  \/ (flags !! name = None /\ name ∈ Obj.prototypeMembers).

(** The [running] update that [execute] fires for a request. *)
Definition runningUpdateOf (request : RunRequest) : RunUpdate :=
  mkRunUpdate (id (module request)) (target request) StRunning None.

(** The sample dashboard with one terminal run of [all] waiting in the
    queue under a cap of zero. *)
Definition allQueued : Dashboard :=
  enqueue sampleEnv (terminalRequest "all") (sampleDashboard 0).

(** The status that [handleTaskEnd] reports, from the status of the
    process and diagnostics and the captured output. *)
Definition reportedStatus (status : TargetRunStatus) (output : string) : TargetRunStatus :=
  if bool_decide (status = StSuccess) && negb (Js.isEmpty output)
  then resolveOutputStatus 0 output
  else status.

(** A terminal run of [all] whose task has started, with captured output
    that holds an error line. *)
Definition taskRunning : Dashboard :=
  handleTaskOutput (id sampleModule) "all" "main.c:1:1: error: expected ';'"
    (taskStarted 0 7 clickedOnce).

(** The sample dashboard under a cap of one: [all] runs silently and the
    run-target command has queued [flash] behind it. *)
Definition flashQueued : Dashboard :=
  enqueueRunById sampleEnv (id sampleModule) "flash"
    (enqueue sampleEnv (silentRequest "all") (sampleDashboard 1)).

(** Then a refresh finds that [flash] is no longer a target of the
    module. *)
Definition flashWithdrawn : Dashboard :=
  on_stateStore (StateStore.setAvailability (id sampleModule) "flash" false) flashQueued.

(** The four queue maps of the controller are the same in [d] and [d']. *)
Definition sameQueues (d d' : Dashboard) : Prop :=
  runAllQueues d' = runAllQueues d
  /\ runAllActive d' = runAllActive d
  /\ runModuleQueues d' = runModuleQueues d
  /\ runModuleActive d' = runModuleActive d.

(** The sample dashboard in the middle of a run-all sequence: the queue of
    the module holds an unknown target, an empty name and the two known
    targets. *)
Definition runAllWaiting : Dashboard :=
  on_runAllQueues (insert (id sampleModule) ["lint"; ""; "flash"; "all"]%string)
    (sampleDashboard 4).

Definition sampleModuleState : ModuleState :=
  default (StateStore.freshModule [] sampleModule)
    (StateStore.getModuleState (id sampleModule) (stateStore (sampleDashboard 4))).

(** The store shows the target of the module as running. *)
Definition isRunningIn (s : StateStore.t) (moduleId target : string) : Prop :=
  exists result, runOf s moduleId target = Some result /\ status result = StRunning.

(** Whatever the store shows as running in [d] it shows as running in
    [d']. *)
Definition keepsRunningStatus (d d' : Dashboard) : Prop :=
  forall moduleId target,
    isRunningIn (stateStore d) moduleId target -> isRunningIn (stateStore d') moduleId target.

(** The first module state with the id satisfies [P]. *)
Definition moduleHas (s : StateStore.t) (moduleId : string) (P : ModuleState -> Prop) : Prop :=
  exists moduleState, StateStore.getModuleState moduleId s = Some moduleState /\ P moduleState.

(** A host on which the build directory of the sample module holds a
    cache that names Ninja, and [ninja -t targets] lists [all] and
    [flash]. *)
Definition ninjaTargetsText : ExecResult :=
  mkExecResult (String.append "all: phony" (String.append LF "flash: CUSTOM_COMMAND")) "".

Definition configuredHost : Host :=
  withFile "/ws/modules/m/out/CMakeCache.txt" "CMAKE_GENERATOR:INTERNAL=Ninja"
    (withCommand "ninja" (fun _ => inr ninjaTargetsText) offlineHost).

(** The sample module before any detection: known, nothing available. *)
Definition undetectedDashboard : Dashboard :=
  on_stateStore
    (fun s => StateStore.setModules [sampleModule]
                (StateStore.setTargets [mkTarget "all"; mkTarget "lint"] s))
    (newDashboard 4).

(** A usable target name: not empty and free of white space. *)
Definition properName (s : string) : Prop :=
  s <> EmptyString /\ Js.includes Js.isSpace s = false.

Definition cmakeError : JsError :=
  ChildProcessError "Command failed: cmake -S ./ -B out -G Ninja" "1" ""
    "CMake Error: The source directory does not appear to contain CMakeLists.txt.".

(** [mkdir] works and [cmake] exits with code 1. *)
Definition failingCmakeHost : Host :=
  withCommand "cmake" (fun _ => inl cmakeError) (withMkdir offlineHost).

(** ** Silent execution of a command ([utils/exec.ts], [runCommandWithExitCode])

    What the promise of [execFileAsync] can be rejected with: an object
    with the keys [stdout] and [stderr] (and perhaps [code]), or anything
    else. *)
Inductive StreamValue :=
| TextValue (s : string)
| BufferValue (decoded : string)
| OtherValue.

Inductive CodeValue :=
| CodeNumber (n : Z)
| CodeText (s : string)
| CodeOther
| CodeAbsent.

Inductive Rejection :=
| WithStreams (out err : StreamValue) (code : CodeValue)
| WithoutStreams.

Definition streamText (v : StreamValue) : string :=
  match v with
  | TextValue s => s
  | BufferValue decoded => decoded
  | OtherValue => EmptyString
  end.

Definition MAXBUFFER : string := "ERR_CHILD_PROCESS_STDIO_MAXBUFFER".

Definition exitCodeOf (code : CodeValue) : option Z :=
  match code with
  | CodeNumber n => Some n
  | CodeText s => if String.eqb s MAXBUFFER then Some 0 else None
  | CodeOther | CodeAbsent => None
  end.

Definition runCommandWithExitCode
    (exec : string -> list string -> string -> Rejection + ExecResult)
    (command : string) (args : list string) (cwd : string) : ExecResultWithExitCode :=
  match exec command args cwd with
  | inr result => mkExecResultWithExitCode (stdout result) (stderr result) (Some 0)
  | inl (WithStreams out err code) =>
      mkExecResultWithExitCode (streamText out) (streamText err) (exitCodeOf code)
  | inl WithoutStreams => mkExecResultWithExitCode EmptyString EmptyString None
  end.

(** ** The registry of task names ([tasks/taskRegistry.ts])

    [registeredTaskNames] is the state; the terminals of the window are
    given by their names.  The result says what is left of the registry,
    whether the [closeAll] command has been run and which terminals have
    been disposed one by one. *)
Definition registerTaskName (taskName : string) (registered : gset string) : gset string :=
  {[taskName]} ∪ registered.

Record Cleared := mkCleared {
  registeredAfter : gset string;
  closedAll : bool;
  disposed : list string
}.

Definition isRegistered (registered : gset string) (terminal : string) : bool :=
  bool_decide (terminal ∈ registered).

Definition clearRegisteredTaskTerminals (closeAllTerminals : bool) (registered : gset string)
    (terminals : list string) : Cleared :=
  if closeAllTerminals then mkCleared ∅ true []
  else if bool_decide (size registered = 0%nat) then mkCleared registered false []
  else if existsb (fun terminal => negb (isRegistered registered terminal)) terminals
       then mkCleared ∅ false (List.filter (isRegistered registered) terminals)
       else mkCleared ∅ true [].

(** The terminals that are gone afterwards. *)
Definition closedTerminalsOf (c : Cleared) (terminals : list string) : list string :=
  if closedAll c then terminals else disposed c.

(** ** Dashboards from the configuration ([extension.ts])

    A configured value is taken as the code tests it: a module-roots
    setting is a string, an array (whose entries may fail to be strings) or
    something else; a name may fail to be a string and the two lists may
    fail to be arrays. *)
Definition isComma (c : ascii) : bool := (Js.code c =? 44)%N.

(** [s.split(',')] *)
Fixpoint splitComma_aux (s : string) (cur : string) : list string :=
  match s with
  | EmptyString => [Js.rev cur]
  | String c s' =>
      if isComma c then Js.rev cur :: splitComma_aux s' EmptyString
      else splitComma_aux s' (String c cur)
  end.
Definition splitComma (s : string) : list string := splitComma_aux s EmptyString.

Definition nonEmpty (s : string) : bool := negb (Js.isEmpty s).

(** [root.split(',').map((entry) => entry.trim()).filter(Boolean)] *)
Definition rootsOfText (s : string) : list string :=
  List.filter nonEmpty (map Js.trim (splitComma s)).

Inductive RootsSetting :=
| RootsText (s : string)
| RootsArray (entries : list (option string))
| RootsMissing.

Definition normalizeModuleRoots (moduleRoots : RootsSetting) : list string :=
  match moduleRoots with
  | RootsText s => rootsOfText s
  | RootsArray entries =>
      List.filter nonEmpty
        (flat_map (fun root => match root with Some s => rootsOfText s | None => [] end) entries)
  | RootsMissing => []
  end.

(** An entry of a configured list: a string, or some other value, which
    [filter(Boolean)] keeps when it is truthy. *)
Inductive ListEntry :=
| EntryText (s : string)
| EntryOther (truthy : bool).

Definition keptEntry (entry : ListEntry) : bool :=
  match entry with
  | EntryText s => nonEmpty s
  | EntryOther truthy => truthy
  end.

Record DashboardDefinition := mkDashboardDefinition {
  dash_name : string;
  dash_moduleRoots : list string;
  dash_excludedModules : list ListEntry;
  dash_targets : list ListEntry
}.

(** The properties that the code reads of an entry of the configured
    array: a name may fail to be a string ([None]) and the two lists may
    fail to be arrays ([None]). *)
Record ConfiguredDashboard := mkConfiguredDashboard {
  conf_name : option string;
  conf_moduleRoots : RootsSetting;
  conf_excludedModules : option (list ListEntry);
  conf_targets : option (list ListEntry)
}.

(** An entry of the configured array: [null] (or [undefined]), of which no
    property can be read, or any other value with the properties it
    shows. *)
Inductive ConfiguredEntry :=
| NullEntry
| ObjectEntry (dashboard : ConfiguredDashboard).

(** The configured value of [targetsManager.dashboards]: an array, or a
    value that has no [filter] method. *)
Inductive ConfiguredValue :=
| NotAnArray
| ArrayOf (entries : list ConfiguredEntry).

Definition DEFAULT_ALL_TEST_TARGETS : list string :=
  ["format"; "format_test"; "all"; "run"; "cppcheck"; "ccm"; "ccc"; "ccmr"; "ccr"; "ccca"; "ccra"]%string.

Definition DEFAULT_DASHBOARDS : list DashboardDefinition :=
  [mkDashboardDefinition "Targets Dashboard" ["test"%string]
     (map EntryText ["unity"; "cmock"; "CMock"; "Cmock"; "Unity"; "template"]%string)
     (map EntryText DEFAULT_ALL_TEST_TARGETS)].

Definition hasName (dashboard : ConfiguredDashboard) : bool :=
  match conf_name dashboard with
  | Some n => nonEmpty (Js.trim n)
  | None => false
  end.

Definition normalizeDashboard (dashboard : ConfiguredDashboard) : DashboardDefinition :=
  mkDashboardDefinition
    (Js.trim (default EmptyString (conf_name dashboard)))
    (normalizeModuleRoots (conf_moduleRoots dashboard))
    (match conf_excludedModules dashboard with
     | Some l => List.filter keptEntry l
     | None => match DEFAULT_DASHBOARDS with
               | first :: _ => dash_excludedModules first
               | [] => []
               end
     end)
    (match conf_targets dashboard with
     | Some l => List.filter keptEntry l
     | None => []
     end).

Definition typeError : JsError := PlainError "TypeError".

(** The first [filter] reads [dashboard.name] of every entry, in order. *)
Fixpoint namedEntries (entries : list ConfiguredEntry) : JsError + list ConfiguredDashboard :=
  match entries with
  | [] => inr []
  | NullEntry :: _ => inl typeError
  | ObjectEntry dashboard :: rest =>
      match namedEntries rest with
      | inl err => inl err
      | inr named => inr (if hasName dashboard then dashboard :: named else named)
      end
  end.

Definition normalizeDashboards (dashboards : ConfiguredValue) : JsError + list DashboardDefinition :=
  match dashboards with
  | NotAnArray => inl typeError
  | ArrayOf entries =>
      match namedEntries entries with
      | inl err => inl err
      | inr named =>
          inr (List.filter (fun dashboard => negb (Nat.eqb (length (dash_moduleRoots dashboard)) 0))
                 (map normalizeDashboard named))
      end
  end.

(** [getDashboards], from the configured value of [targetsManager.dashboards]. *)
Definition getDashboards (configured : ConfiguredValue) : JsError + list DashboardDefinition :=
  match normalizeDashboards configured with
  | inl err => inl err
  | inr [] => inr DEFAULT_DASHBOARDS
  | inr normalized => inr normalized
  end.

(** A module root as the controller can use it. *)
Definition properRoot (root : string) : Prop :=
  root <> EmptyString /\ Js.includes isComma root = false.

(** An entry that is neither the empty string nor another falsy value. *)
Definition truthyEntry (entry : ListEntry) : Prop :=
  entry <> EntryText EmptyString /\ entry <> EntryOther false.

Definition properDashboard (dashboard : DashboardDefinition) : Prop :=
  dash_name dashboard <> EmptyString
  /\ dash_moduleRoots dashboard <> []
  /\ Forall properRoot (dash_moduleRoots dashboard)
  /\ Forall truthyEntry (dash_excludedModules dashboard)
  /\ Forall truthyEntry (dash_targets dashboard).

(** A configured dashboard with a padded name, roots given as one text
    and lists that hold an empty string and a number. *)
Definition sampleConfigured : ConfiguredDashboard :=
  mkConfiguredDashboard (Some " HW ") (RootsText "hw, ./boards ,")
    (Some [EntryText "template"; EntryText ""; EntryOther true])
    (Some [EntryText "all"; EntryOther false; EntryText "flash"]).

Definition sampleNormalized : DashboardDefinition :=
  mkDashboardDefinition "HW" ["hw"; "./boards"]%string
    [EntryText "template"; EntryOther true]
    [EntryText "all"; EntryText "flash"].

(** A string with no white space at its start, and one with none at its
    end. *)
Definition headOk (s : string) : Prop :=
  match s with
  | EmptyString => True
  | String c _ => Js.isSpace c = false
  end.

Fixpoint lastOk (s : string) : Prop :=
  match s with
  | EmptyString => True
  | String c EmptyString => Js.isSpace c = false
  | String _ s' => lastOk s'
  end.

(** A proper module root that [trim] leaves as it is. *)
Definition trimmedRoot (root : string) : Prop :=
  properRoot root /\ Js.trim root = root.

(** * Theorems *)

(** ** Strings *)

Lemma rev_onto_rev_onto (s acc t : string) :
  Js.rev_onto (Js.rev_onto s acc) t = Js.rev_onto acc (s ++ t)%string.
Proof.
  revert acc t. induction s as [|c s IH]; intros acc t; simpl.
  - reflexivity.
  - rewrite IH. reflexivity.
Qed.

Lemma append_empty_r (s : string) : (s ++ EmptyString)%string = s.
Proof.
  induction s as [|c s IH]; [reflexivity|].
  change (String c (s ++ EmptyString)%string = String c s). now rewrite IH.
Qed.

Lemma rev_involutive (s : string) : Js.rev (Js.rev s) = s.
Proof.
  unfold Js.rev. rewrite rev_onto_rev_onto. simpl. apply append_empty_r.
Qed.

Lemma append_cons (c : ascii) (s t : string) :
  String.append (String c s) t = String c (String.append s t).
Proof. reflexivity. Qed.

Lemma includes_append (p : ascii -> bool) (s t : string) :
  Js.includes p (String.append s t) = Js.includes p s || Js.includes p t.
Proof.
  induction s as [| c s IH]; [reflexivity |].
  rewrite append_cons. simpl. rewrite IH. apply orb_assoc.
Qed.

Lemma dropPrefix_append (p s : string) : Js.dropPrefix p (String.append p s) = Some s.
Proof.
  induction p as [| c p IH]; [destruct s; reflexivity |].
  rewrite append_cons. simpl. rewrite Ascii.eqb_refl. exact IH.
Qed.

(** ** Status classification *)

Lemma resolveOutputStatus_nonzero (exitCode : Z) (output : string) :
  exitCode <> 0 -> resolveOutputStatus exitCode output = StFailed.
Proof.
  intros Hne. unfold resolveOutputStatus.
  destruct (Z.eqb_spec exitCode 0) as [Heq | _]; [contradiction | reflexivity].
Qed.

Lemma errorPattern_nonempty (output : string) :
  errorPattern output = true -> Js.isEmpty output = false.
Proof. destruct output; [discriminate | reflexivity]. Qed.

(** C3: a non-zero exit code, or an unknown one (which the silent mode
    reads as 1 and the task mode as "not 0"), gives [failed] whatever the
    output; with exit code 0 the two literal outputs of the table give
    [warning] and [failed]; a match of the error pattern gives [failed] also
    when the warning pattern matches; empty output without diagnostics gives
    [success]. *)
Theorem C3_classification_table :
  (forall exitCode output, exitCode <> 0 -> resolveOutputStatus exitCode output = StFailed)
  /\ (forall output, resolveOutputStatus (default 1 None) output = StFailed)
  /\ resolveOutputStatus 0 "file.c:10: warning: unused variable" = StWarning
  /\ resolveOutputStatus 0 "file.c:10: error: undefined reference" = StFailed
  /\ (forall output, errorPattern output = true -> resolveOutputStatus 0 output = StFailed)
  /\ resolveOutputStatus 0 "" = StSuccess
  /\ resolveDiagnosticsStatus 0 0 = StSuccess.
Proof.
  split; [exact resolveOutputStatus_nonzero |].
  split; [intros output; apply resolveOutputStatus_nonzero; discriminate |].
  split; [vm_compute; reflexivity |].
  split; [vm_compute; reflexivity |].
  split; [| split; reflexivity].
  intros output Herr. unfold resolveOutputStatus. simpl.
  rewrite (errorPattern_nonempty _ Herr), Herr. reflexivity.
Qed.

Lemma C3_classification_table_witness :
  resolveOutputStatus 1 "warning: x" = StFailed
  /\ resolveOutputStatus 0 "a.c:1: error: e  b.c:2: warning: w" = StFailed.
Proof.
  split.
  - apply (proj1 C3_classification_table 1 "warning: x"%string). lia.
  - apply (proj1 (proj2 (proj2 (proj2 (proj2 C3_classification_table))))).
    vm_compute. reflexivity.
Defined.

(** ** The state store *)

Lemma isProto_spec (name : string) : Obj.isProto name = true <-> name = "__proto__"%string.
Proof. unfold Obj.isProto, Obj.PROTO. apply String.eqb_eq. Qed.

Lemma isProto_false (name : string) : name <> "__proto__"%string -> Obj.isProto name = false.
Proof.
  intros Hne. destruct (Obj.isProto name) eqn:E; [| reflexivity].
  apply isProto_spec in E. contradiction.
Qed.

Lemma isMember_spec (name : string) : Obj.isMember name = true <-> name ∈ Obj.prototypeMembers.
Proof.
  unfold Obj.isMember. rewrite existsb_exists. split.
  - intros [x [Hin Heq]]. apply String.eqb_eq in Heq. subst x. apply list_elem_of_In, Hin.
  - intros Hin. exists name. split; [apply list_elem_of_In, Hin | apply String.eqb_refl].
Qed.

Lemma isMember_false (name : string) : name ∉ Obj.prototypeMembers -> Obj.isMember name = false.
Proof.
  intros Hne. destruct (Obj.isMember name) eqn:E; [| reflexivity].
  apply isMember_spec in E. contradiction.
Qed.

Lemma truthy_spec (flags : gmap string bool) (name : string) :
  Obj.truthy flags name = true <-> readsTrue flags name.
Proof.
  unfold Obj.truthy, readsTrue.
  destruct (Obj.isProto name) eqn:Hp.
  - apply isProto_spec in Hp. split; [intros _; left; exact Hp | reflexivity].
  - assert (Hne : name <> "__proto__"%string).
    { intros Heq. apply isProto_spec in Heq. congruence. }
    destruct (flags !! name) as [[|] |].
    + split; [intros _; right; left; reflexivity | reflexivity].
    + split; [discriminate |]. intros [H | [H | [H _]]]; [contradiction | discriminate | discriminate].
    + rewrite isMember_spec. split.
      * intros H. right. right. split; [reflexivity | exact H].
      * intros [H | [H | [_ H]]]; [contradiction | discriminate | exact H].
Qed.

Section StoreFacts.

Import StateStore.

Lemma getRun_plain (r : Runs) (name : string) :
  proto r = None -> ordinaryName name -> getRun r name = own r !! name.
Proof.
  intros Hproto [Hp Hm]. unfold getRun. rewrite (isProto_false _ Hp), Hproto.
  destruct (own r !! name); [reflexivity |]. simpl.
  rewrite (isMember_false _ Hm). reflexivity.
Qed.

Lemma plainRuns_empty : plainRuns (mkRuns ∅ None).
Proof. split; [reflexivity |]. intros name value H. simpl in H. rewrite lookup_empty in H. discriminate. Qed.

Lemma plainRuns_insert (r : Runs) (name : string) (result : RunResult) :
  plainRuns r -> plainRuns (mkRuns (<[name := VObject (mkRunObject result EmptyString)]> (own r)) (proto r)).
Proof.
  intros [Hproto Hown]. split; [exact Hproto |]. intros k value. simpl.
  destruct (decide (name = k)) as [-> | Hne].
  - rewrite lookup_insert_eq. intros [= <-]. eexists. reflexivity.
  - rewrite lookup_insert_ne by exact Hne. apply Hown.
Qed.

Lemma ownValue_plain (r : Runs) (name : string) :
  plainRuns r ->
  exists result,
    default (VObject idleObject) (own r !! name) = VObject (mkRunObject result EmptyString)
    /\ result = default idleRun (match own r !! name with
                                 | Some (VObject o) => Some (run_result o)
                                 | _ => None
                                 end).
Proof.
  intros [_ Hown]. destruct (own r !! name) as [value |] eqn:E.
  - destruct (Hown name value E) as [result ->]. exists result. split; reflexivity.
  - exists idleRun. split; reflexivity.
Qed.

Lemma backfillEntry_plain (r : Runs) (name : string) :
  plainRuns r -> ordinaryName name ->
  plainRuns (backfillEntry r name)
  /\ forall k,
       own (backfillEntry r name) !! k
         = if decide (k = name)
           then Some (default (VObject idleObject) (own r !! name))
           else own r !! k.
Proof.
  intros Hplain Hname. unfold backfillEntry.
  rewrite (isProto_false _ (proj1 Hname)).
  rewrite (getRun_plain r name (proj1 Hplain) Hname).
  destruct (ownValue_plain r name Hplain) as (result & Hvalue & _). rewrite Hvalue.
  split; [apply plainRuns_insert, Hplain |].
  intros k. simpl. destruct (decide (k = name)) as [-> | Hne].
  - apply lookup_insert_eq.
  - apply lookup_insert_ne. congruence.
Qed.

Lemma backfill_plain (ts : list TargetDefinition) (r : Runs) :
  plainRuns r -> Forall ordinaryName (targetNames ts) ->
  plainRuns (backfill ts r)
  /\ forall k,
       own (backfill ts r) !! k
         = match own r !! k with
           | Some value => Some value
           | None => if decide (k ∈ targetNames ts) then Some (VObject idleObject) else None
           end.
Proof.
  unfold backfill, targetNames. revert r.
  induction ts as [| t ts IH]; intros r Hplain Hnames; cbn [fold_left map].
  - split; [exact Hplain |]. intros k. destruct (own r !! k); [reflexivity |].
    case_decide as Hin; [| reflexivity]. exfalso. eapply not_elem_of_nil, Hin.
  - cbn [map] in Hnames. apply Forall_cons in Hnames as [Hname Hnames].
    destruct (backfillEntry_plain r (target_name t) Hplain Hname) as [Hplain' Hown'].
    destruct (IH _ Hplain' Hnames) as [Hplain'' Hown'']. clear IH.
    split; [exact Hplain'' |]. intros k. rewrite Hown'', Hown'.
    destruct (decide (k = target_name t)) as [-> | Hne].
    + destruct (own r !! target_name t) as [value |]; cbn [default]; [reflexivity |].
      case_decide as Hin; [reflexivity |]. exfalso. apply Hin. left.
    + destruct (own r !! k) as [value |]; [reflexivity |].
      repeat case_decide; try reflexivity; exfalso; set_solver.
Qed.

Lemma assignRun_plain (r : Runs) (name : string) (result : RunResult) :
  plainRuns r -> ordinaryName name ->
  plainRuns (assignRun name (mkRunObject result EmptyString) r)
  /\ forall k,
       own (assignRun name (mkRunObject result EmptyString) r) !! k
         = if decide (k = name) then Some (VObject (mkRunObject result EmptyString)) else own r !! k.
Proof.
  intros Hplain [Hp _]. unfold assignRun. rewrite (isProto_false _ Hp).
  split; [apply plainRuns_insert, Hplain |].
  intros k. simpl. destruct (decide (k = name)) as [-> | Hne].
  - apply lookup_insert_eq.
  - apply lookup_insert_ne. congruence.
Qed.

Lemma freshRuns_plain_from (ts : list TargetDefinition) (r : Runs) :
  plainRuns r -> Forall ordinaryName (targetNames ts) ->
  plainRuns (fold_left (fun r t => assignRun (target_name t) idleObject r) ts r)
  /\ forall k,
       own (fold_left (fun r t => assignRun (target_name t) idleObject r) ts r) !! k
         = if decide (k ∈ targetNames ts) then Some (VObject idleObject) else own r !! k.
Proof.
  unfold targetNames. revert r.
  induction ts as [| t ts IH]; intros r Hplain Hnames; cbn [fold_left map].
  - split; [exact Hplain |]. intros k.
    case_decide as Hin; [| reflexivity]. exfalso. eapply not_elem_of_nil, Hin.
  - cbn [map] in Hnames. apply Forall_cons in Hnames as [Hname Hnames].
    destruct (assignRun_plain r (target_name t) idleRun Hplain Hname) as [Hplain' Hown'].
    destruct (IH _ Hplain' Hnames) as [Hplain'' Hown'']. clear IH.
    split; [exact Hplain'' |]. intros k. unfold idleObject in *. rewrite Hown'', Hown'.
    repeat case_decide; try reflexivity; exfalso; set_solver.
Qed.

Lemma freshRuns_plain (ts : list TargetDefinition) :
  Forall ordinaryName (targetNames ts) ->
  plainRuns (freshRuns ts)
  /\ forall k,
       own (freshRuns ts) !! k
         = if decide (k ∈ targetNames ts) then Some (VObject idleObject) else None.
Proof.
  intros Hnames. unfold freshRuns.
  destruct (freshRuns_plain_from ts (mkRuns ∅ None) plainRuns_empty Hnames) as [Hplain Hown].
  split; [exact Hplain |]. intros k. rewrite Hown.
  case_decide; [reflexivity | apply lookup_empty].
Qed.

Lemma updateEntry_plain (r : Runs) (name : string) (u : RunPatch) :
  plainRuns r -> ordinaryName name ->
  plainRuns (updateEntry name u r)
  /\ is_Some (own (updateEntry name u r) !! name)
  /\ forall k, is_Some (own r !! k) -> is_Some (own (updateEntry name u r) !! k).
Proof.
  intros Hplain Hname. unfold updateEntry.
  rewrite (getRun_plain r name (proj1 Hplain) Hname).
  assert (Hchars : spreadChars (own r !! name) = EmptyString).
  { destruct (own r !! name) as [value |] eqn:E; [| reflexivity].
    destruct (proj2 Hplain name value E) as [result ->]. reflexivity. }
  rewrite Hchars.
  destruct (assignRun_plain r name (mergeRun (spreadResult (own r !! name)) u) Hplain Hname)
    as [Hplain' Hown'].
  split; [exact Hplain' |]. split.
  - rewrite Hown'. destruct (decide (name = name)); [eauto | contradiction].
  - intros k Hk. rewrite Hown'. destruct (decide (k = name)); [eauto | exact Hk].
Qed.

End StoreFacts.

(** The invariant of a store that has only seen ordinary names. *)
Definition tidy (s : StateStore.t) : Prop :=
  Forall ordinaryName (targetNames (StateStore.targets s))
  /\ Forall (fun m =>
               plainRuns (runs m)
               /\ forall tn, tn ∈ targetNames (StateStore.targets s) -> is_Some (own (runs m) !! tn))
            (StateStore.modules s).

Lemma tidy_covered (s : StateStore.t) : tidy s -> covered s.
Proof.
  intros [Hnames Hmods]. unfold covered. eapply Forall_impl; [exact Hmods |].
  intros m [Hplain Hown] tn Htn. unfold hasRunEntry.
  rewrite Forall_forall in Hnames.
  rewrite (getRun_plain _ _ (proj1 Hplain) (Hnames tn Htn)).
  destruct (Hown tn Htn) as [value Hvalue]. rewrite Hvalue.
  destruct (proj2 Hplain tn value Hvalue) as [result ->]. eexists. reflexivity.
Qed.

Lemma tidy_onModule (moduleId : string) (f : ModuleState -> ModuleState) (s : StateStore.t) :
  (forall m, plainRuns (runs m) ->
             plainRuns (runs (f m))
             /\ forall tn, is_Some (own (runs m) !! tn) -> is_Some (own (runs (f m)) !! tn)) ->
  tidy s -> tidy (StateStore.onModule moduleId f s).
Proof.
  intros Hf [Hnames Hmods]. split; [exact Hnames |]. simpl.
  revert Hmods. generalize (targetNames (StateStore.targets s)) as names. intros names.
  induction (StateStore.modules s) as [| m l IH]; intros Hmods; simpl; [constructor |].
  apply Forall_cons in Hmods as [[Hplain Hown] Hl].
  destruct (StateStore.hasId moduleId m).
  - constructor; [| exact Hl]. destruct (Hf m Hplain) as [Hplain' Hkeep].
    split; [exact Hplain' |]. intros tn Htn. apply Hkeep, Hown, Htn.
  - constructor; [split; assumption | apply IH, Hl].
Qed.

Lemma tidy_storeCall (c : StoreCall) (s : StateStore.t) :
  ordinaryCall c -> tidy s -> tidy (storeCall s c).
Proof.
  intros Hc Htidy. destruct c; simpl in *.
  - destruct Htidy as [_ Hmods]. split; [exact Hc |]. simpl.
    apply Forall_forall. intros m' Hin.
    apply list_elem_of_In, in_map_iff in Hin as [m [<- Hin]].
    rewrite Forall_forall in Hmods.
    destruct (Hmods m (proj2 (list_elem_of_In _ _) Hin)) as [Hplain _].
    destruct (backfill_plain ts (runs m) Hplain Hc) as [Hplain' Hown'].
    split; [exact Hplain' |]. intros tn Htn. simpl. rewrite Hown'.
    destruct (own (runs m) !! tn); [eauto |].
    destruct (decide (tn ∈ targetNames ts)); [eauto | contradiction].
  - destruct Htidy as [Hnames _]. split; [exact Hnames |]. simpl.
    apply Forall_forall. intros m' Hin.
    apply list_elem_of_In, in_map_iff in Hin as [m [<- _]]. simpl.
    destruct (freshRuns_plain _ Hnames) as [Hplain Hown].
    split; [exact Hplain |]. intros tn Htn. rewrite Hown.
    destruct (decide (tn ∈ targetNames (StateStore.targets s))); [eauto | contradiction].
  - apply tidy_onModule; [| exact Htidy]. intros m H. split; [exact H | auto].
  - apply tidy_onModule; [| exact Htidy]. intros m H. split; [exact H | auto].
  - apply tidy_onModule; [| exact Htidy]. intros m H. split; [exact H | auto].
  - apply tidy_onModule; [| exact Htidy]. intros m H. simpl.
    destruct (updateEntry_plain (runs m) targetName u H Hc) as (H1 & _ & H3).
    split; assumption.
  - apply tidy_onModule; [| exact Htidy]. intros m H. split; [exact H | auto].
Qed.

Lemma tidy_calls (calls : list StoreCall) (s : StateStore.t) :
  Forall ordinaryCall calls -> tidy s -> tidy (fold_left storeCall calls s).
Proof.
  revert s. induction calls as [| c calls IH]; intros s Hcalls Htidy; simpl; [exact Htidy |].
  apply Forall_cons in Hcalls as [Hc Hcalls].
  apply IH; [exact Hcalls | apply tidy_storeCall; assumption].
Qed.

Lemma tidy_empty : tidy StateStore.empty.
Proof. split; constructor. Qed.

Lemma ownRun_value (m : ModuleState) (k : string) :
  plainRuns (runs m) ->
  own (runs m) !! k = (fun result => VObject (mkRunObject result EmptyString)) <$> ownRun m k.
Proof.
  intros [_ Hown]. unfold ownRun. destruct (own (runs m) !! k) as [value |] eqn:E; [| reflexivity].
  destruct (Hown k value E) as [result ->]. reflexivity.
Qed.

Lemma setTargets_backfilled (ts : list TargetDefinition) (s : StateStore.t) :
  plainStore s -> Forall ordinaryName (targetNames ts) ->
  Forall2 (backfilled ts) (StateStore.modules s)
          (StateStore.modules (StateStore.setTargets ts s)).
Proof.
  intros Hplain Hnames. unfold plainStore in Hplain. simpl.
  induction (StateStore.modules s) as [| m l IH]; simpl; constructor.
  - apply Forall_cons in Hplain as [Hm _].
    destruct (backfill_plain ts (runs m) Hm Hnames) as [Hplain' Hown'].
    repeat split; [exact (proj1 Hplain') | exact (proj2 Hplain') |].
    intros k. unfold ownRun at 1. simpl. rewrite Hown'.
    rewrite (ownRun_value m k Hm). destruct (ownRun m k); simpl; [reflexivity |].
    case_decide; reflexivity.
  - apply IH. apply Forall_cons in Hplain as [_ Hl]. exact Hl.
Qed.

Lemma setModules_fresh (ms : list ModuleInfo) (s : StateStore.t) :
  Forall ordinaryName (targetNames (StateStore.targets s)) ->
  Forall2 (freshFor (StateStore.targets s)) ms
          (StateStore.modules (StateStore.setModules ms s)).
Proof.
  intros Hnames. simpl.
  destruct (freshRuns_plain _ Hnames) as [Hplain Hown].
  induction ms as [| m l IH]; simpl; constructor; [| exact IH].
  repeat split; [exact (proj1 Hplain) | exact (proj2 Hplain) |].
  intros k. unfold ownRun. simpl. rewrite Hown. case_decide; reflexivity.
Qed.

Lemma member_is_not_proto (name : string) :
  name ∈ Obj.prototypeMembers -> Obj.isProto name = false.
Proof.
  intros Hin. apply isProto_false. intros ->.
  apply isMember_spec in Hin. vm_compute in Hin. discriminate Hin.
Qed.

Lemma backfillEntry_member (name : string) :
  name ∈ Obj.prototypeMembers ->
  getRun (StateStore.backfillEntry (mkRuns ∅ None) name) name = Some (VMember name).
Proof.
  intros Hin. unfold StateStore.backfillEntry, getRun.
  rewrite (member_is_not_proto name Hin). simpl.
  rewrite lookup_insert_eq, lookup_empty, (proj2 (isMember_spec name) Hin). reflexivity.
Qed.

(** C4 on the code: [setTargets] does not back-fill an idle run entry for
    a target whose name [Object.prototype] defines.  For such a name
    [runs[name] ?? { status: 'idle' }] finds the inherited function, so
    what is stored under the name is that function and no run object; and
    for the name [__proto__] nothing is stored at all.  Whatever the store
    held before, after [setModules] and [setTargets] no module has a run
    entry for the one listed target. *)
Theorem C4_no_idle_entry_for_inherited_names :
  Forall (fun name =>
            forall ms before,
              let s := StateStore.setTargets [mkTarget name]
                         (StateStore.setModules ms (StateStore.setTargets [] before)) in
              StateStore.targets s = [mkTarget name]
              /\ length (StateStore.modules s) = length ms
              /\ Forall (fun m => getRun (runs m) name = Some (VMember name)
                                  /\ ~ hasRunEntry m name)
                        (StateStore.modules s))
         Obj.prototypeMembers
  /\ (forall ms before,
        let s := StateStore.setTargets [mkTarget "__proto__"]
                   (StateStore.setModules ms (StateStore.setTargets [] before)) in
        StateStore.targets s = [mkTarget "__proto__"]
        /\ Forall (fun m => own (runs m) = ∅
                            /\ getRun (runs m) "__proto__" = Some VPrototype
                            /\ ~ hasRunEntry m "__proto__")
                  (StateStore.modules s))
  /\ ~ covered (StateStore.setTargets [mkTarget "constructor"]
                  (StateStore.setModules [sampleModule] StateStore.empty)).
Proof.
  split; [| split].
  - apply Forall_forall. intros name Hname ms before.
    split; [reflexivity |].
    split; [simpl; rewrite !length_map; reflexivity |].
    unfold StateStore.setTargets, StateStore.setModules. cbn [StateStore.modules].
    apply Forall_forall. intros m' Hin.
    apply list_elem_of_In, in_map_iff in Hin as [m [<- Hin]].
    apply in_map_iff in Hin as [info [<- _]].
    pose proof (backfillEntry_member name Hname) as Hrun.
    split; [exact Hrun |]. intros [o Ho].
    pose proof (eq_trans (eq_sym Hrun) Ho) as Hbad. discriminate Hbad.
  - intros ms before. split; [reflexivity |].
    unfold StateStore.setTargets, StateStore.setModules. cbn [StateStore.modules].
    apply Forall_forall. intros m' Hin.
    apply list_elem_of_In, in_map_iff in Hin as [m [<- Hin]].
    apply in_map_iff in Hin as [info [<- _]].
    split; [reflexivity |]. split; [reflexivity |].
    intros [o Ho]. vm_compute in Ho. discriminate Ho.
  - intros Hcov. unfold covered in Hcov. simpl in Hcov.
    apply Forall_cons in Hcov as [Hm _].
    destruct (Hm "constructor"%string) as [o Ho]; [left |].
    vm_compute in Ho. discriminate Ho.
Qed.

(** ** Generator selection *)

Lemma commandExists_ninja (h : Host) :
  commandExists h "ninja" =
    ([CallExecFile "ninja" ["--version"%string] None], inr (ninjaAvailable h)).
Proof.
  unfold commandExists, ninjaAvailable, call, bind, catch, ret.
  destruct (execFile h "ninja" ["--version"%string] None); reflexivity.
Qed.

Lemma detectExistingGenerator_total (h : Host) (outDir : string) :
  exists existing,
    detectExistingGenerator h outDir = ([CallReadFile (cachePathOf outDir)], inr existing).
Proof.
  unfold detectExistingGenerator, cachePathOf, call, bind, catch, ret.
  destruct (fs_readFile h (pathJoin outDir CACHE_FILE)) as [err | contents].
  - exists None. reflexivity.
  - destruct (matchGeneratorLine contents) as [captured |]; [| exists None; reflexivity].
    destruct (String.eqb (Js.trim captured) "Ninja"); [exists (Some Ninja); reflexivity |].
    destruct (String.eqb (Js.trim captured) "Unix Makefiles");
      [exists (Some UnixMakefiles) | exists None]; reflexivity.
Qed.

Lemma selectGenerator_auto (h : Host) (outDir : string) (existing : option CMakeGenerator) :
  outcome (detectExistingGenerator h outDir) = inr existing ->
  outcome (selectGenerator h BsAuto outDir) =
    inr (match existing with
         | Some g => g
         | None => if ninjaAvailable h then Ninja else UnixMakefiles
         end).
Proof.
  intros Hex. unfold selectGenerator.
  destruct (detectExistingGenerator_total h outDir) as [existing' Heq].
  rewrite Heq in Hex |- *. simpl in Hex. injection Hex as ->.
  destruct existing as [g |]; [reflexivity |].
  unfold bind at 1. rewrite commandExists_ninja.
  destruct (ninjaAvailable h); reflexivity.
Qed.

Lemma selectGenerator_total (h : Host) (bs : BuildSystem) (outDir : string) :
  exists g, outcome (selectGenerator h bs outDir) = inr g.
Proof.
  destruct bs; [| exists Ninja; reflexivity | exists UnixMakefiles; reflexivity].
  destruct (detectExistingGenerator_total h outDir) as [existing Heq].
  eexists. apply (selectGenerator_auto h outDir existing). rewrite Heq. reflexivity.
Qed.

(** The lines that the pattern sees are the lines of the text. *)
Lemma regexLines_aux_line (line rest cur : string) :
  singleLine line ->
  Js.regexLines_aux (String.append line rest) cur = Js.regexLines_aux rest (Js.rev_onto line cur).
Proof.
  unfold singleLine. revert cur. induction line as [| c line IH]; intros cur Hline.
  - reflexivity.
  - simpl in Hline. apply orb_false_iff in Hline as [Hc Hline].
    rewrite append_cons. simpl. rewrite Hc. apply IH, Hline.
Qed.

Lemma regexLines_unlines (line : string) (rest : list string) :
  Forall singleLine (line :: rest) ->
  Js.regexLines (unlines (line :: rest)) = line :: rest.
Proof.
  revert line. induction rest as [| next rest IH]; intros line Hlines.
  - apply Forall_cons in Hlines as [Hline _]. unfold Js.regexLines. simpl.
    rewrite <- (append_empty_r line) at 1.
    rewrite (regexLines_aux_line line EmptyString EmptyString Hline). simpl.
    f_equal. apply rev_involutive.
  - apply Forall_cons in Hlines as [Hline Hrest].
    change (unlines (line :: next :: rest))
      with (String.append line (String.append LF (unlines (next :: rest)))).
    unfold Js.regexLines.
    rewrite (regexLines_aux_line line _ EmptyString Hline).
    change (String.append LF (unlines (next :: rest)))
      with (String "010"%char (unlines (next :: rest))).
    cbn [Js.regexLines_aux].
    change (Js.isLineTerminator "010"%char) with true. cbn iota.
    f_equal; [apply rev_involutive |]. apply (IH next Hrest).
Qed.

Lemma otherLines_skipped (lines : list string) :
  Forall otherLine lines -> omap (Js.dropPrefix "CMAKE_GENERATOR:INTERNAL=") lines = [].
Proof.
  induction 1 as [| line lines [_ Hline] _ IH]; [reflexivity |].
  cbn [omap list_omap]. unfold Js.startsWith in Hline.
  destruct (Js.dropPrefix "CMAKE_GENERATOR:INTERNAL=" line); [discriminate | exact IH].
Qed.

Lemma singleLine_generatorLine (value : string) : singleLine value -> singleLine (generatorLine value).
Proof.
  unfold singleLine, generatorLine. intros H. rewrite includes_append, H. reflexivity.
Qed.

Lemma otherLine_single (lines : list string) : Forall otherLine lines -> Forall singleLine lines.
Proof. intros H. eapply Forall_impl; [exact H |]. intros line [Hline _]. exact Hline. Qed.

(** The first generator line of a cache file gives the capture. *)
Lemma matchGeneratorLine_found (before after : list string) (value : string) :
  Forall otherLine before -> singleLine value -> value <> EmptyString -> Forall singleLine after ->
  matchGeneratorLine (unlines (before ++ generatorLine value :: after)) = Some value.
Proof.
  intros Hbefore Hvalue Hne Hafter. unfold matchGeneratorLine.
  assert (Hlines : Forall singleLine (before ++ generatorLine value :: after)).
  { apply Forall_app. split; [apply otherLine_single, Hbefore |].
    constructor; [apply singleLine_generatorLine, Hvalue | exact Hafter]. }
  assert (Hsplit : Js.regexLines (unlines (before ++ generatorLine value :: after))
                   = before ++ generatorLine value :: after).
  { destruct (before ++ generatorLine value :: after) as [| line rest] eqn:E.
    - destruct before; discriminate E.
    - apply regexLines_unlines, Hlines. }
  rewrite Hsplit, omap_app, (otherLines_skipped before Hbefore).
  cbn [app omap list_omap]. unfold generatorLine at 1. rewrite dropPrefix_append.
  rewrite filter_cons_True; [reflexivity |].
  destruct value; [contradiction | reflexivity].
Qed.

Lemma matchGeneratorLine_none (lines : list string) :
  Forall otherLine lines -> matchGeneratorLine (unlines lines) = None.
Proof.
  intros Hlines. unfold matchGeneratorLine.
  destruct lines as [| line rest]; [reflexivity |].
  rewrite (regexLines_unlines line rest (otherLine_single _ Hlines)).
  rewrite (otherLines_skipped _ Hlines). reflexivity.
Qed.

Lemma selectGenerator_cache (h : Host) (outDir contents : string) :
  fs_readFile h (pathJoin outDir "CMakeCache.txt") = inr contents ->
  selectGenerator h BsAuto outDir
    = match matchGeneratorLine contents with
      | Some captured =>
          if String.eqb (Js.trim captured) "Ninja"
          then ([CallReadFile (pathJoin outDir "CMakeCache.txt")], inr Ninja)
          else if String.eqb (Js.trim captured) "Unix Makefiles"
          then ([CallReadFile (pathJoin outDir "CMakeCache.txt")], inr UnixMakefiles)
          else ([CallReadFile (pathJoin outDir "CMakeCache.txt");
                 CallExecFile "ninja" ["--version"%string] None],
                inr (if ninjaAvailable h then Ninja else UnixMakefiles))
      | None =>
          ([CallReadFile (pathJoin outDir "CMakeCache.txt");
            CallExecFile "ninja" ["--version"%string] None],
           inr (if ninjaAvailable h then Ninja else UnixMakefiles))
      end.
Proof.
  intros Hread. unfold selectGenerator, detectExistingGenerator, call, catch, ret.
  change CACHE_FILE with "CMakeCache.txt"%string. unfold bind at 2. rewrite Hread.
  destruct (matchGeneratorLine contents) as [captured |].
  - destruct (String.eqb (Js.trim captured) "Ninja"); [reflexivity |].
    destruct (String.eqb (Js.trim captured) "Unix Makefiles"); [reflexivity |].
    unfold bind. rewrite commandExists_ninja. destruct (ninjaAvailable h); reflexivity.
  - unfold bind. rewrite commandExists_ninja. destruct (ninjaAvailable h); reflexivity.
Qed.

(** C7: an explicit preference is answered without any call to the host.
    With [auto], when the cache file [outDir/CMakeCache.txt] can be read
    and the first of its lines that starts with [CMAKE_GENERATOR:INTERNAL=]
    goes on with the name of a known generator (white space around it
    apart), that generator is returned and no tool is probed; when that
    line names something else, when no line starts with the key, and when
    the file cannot be read, the answer is Ninja if the probe
    [ninja --version] succeeds and Unix Makefiles otherwise.  The selection
    never fails. *)
Theorem C7_selectGenerator :
  (forall h outDir, selectGenerator h BsNinja outDir = ([], inr Ninja))
  /\ (forall h outDir, selectGenerator h BsMake outDir = ([], inr UnixMakefiles))
  /\ (forall h outDir before value after,
        Forall otherLine before -> singleLine value -> value <> EmptyString ->
        Forall singleLine after ->
        fs_readFile h (pathJoin outDir "CMakeCache.txt")
          = inr (unlines (before ++ generatorLine value :: after)) ->
        (Js.trim value = "Ninja"%string ->
         selectGenerator h BsAuto outDir
           = ([CallReadFile (pathJoin outDir "CMakeCache.txt")], inr Ninja))
        /\ (Js.trim value = "Unix Makefiles"%string ->
            selectGenerator h BsAuto outDir
              = ([CallReadFile (pathJoin outDir "CMakeCache.txt")], inr UnixMakefiles))
        /\ (Js.trim value <> "Ninja"%string -> Js.trim value <> "Unix Makefiles"%string ->
            outcome (selectGenerator h BsAuto outDir)
              = inr (if ninjaAvailable h then Ninja else UnixMakefiles)))
  /\ (forall h outDir lines,
        Forall otherLine lines ->
        fs_readFile h (pathJoin outDir "CMakeCache.txt") = inr (unlines lines) ->
        outcome (selectGenerator h BsAuto outDir)
          = inr (if ninjaAvailable h then Ninja else UnixMakefiles))
  /\ (forall h outDir err,
        fs_readFile h (pathJoin outDir "CMakeCache.txt") = inl err ->
        outcome (selectGenerator h BsAuto outDir)
          = inr (if ninjaAvailable h then Ninja else UnixMakefiles))
  /\ (forall h bs outDir, exists g, outcome (selectGenerator h bs outDir) = inr g).
Proof.
  split; [reflexivity |]. split; [reflexivity |].
  split.
  { intros h outDir before value after Hbefore Hvalue Hne Hafter Hread.
    rewrite (selectGenerator_cache h outDir _ Hread).
    rewrite (matchGeneratorLine_found before after value Hbefore Hvalue Hne Hafter).
    split; [| split].
    - intros ->. reflexivity.
    - intros ->. reflexivity.
    - intros Hn Hm. apply String.eqb_neq in Hn, Hm. rewrite Hn, Hm. reflexivity. }
  split.
  { intros h outDir lines Hlines Hread.
    rewrite (selectGenerator_cache h outDir _ Hread).
    rewrite (matchGeneratorLine_none lines Hlines). reflexivity. }
  split; [| exact selectGenerator_total].
  intros h outDir err Hread. apply (selectGenerator_auto h outDir None).
  unfold detectExistingGenerator, call, bind, catch, ret.
  change CACHE_FILE with "CMakeCache.txt"%string. rewrite Hread. reflexivity.
Qed.

Lemma C7_selectGenerator_witness :
  selectGenerator (withFile "/ws/m/out/CMakeCache.txt" ninjaCache offlineHost) BsAuto "/ws/m/out"
    = ([CallReadFile "/ws/m/out/CMakeCache.txt"%string], inr Ninja)
  /\ selectGenerator (withFile "/ws/m/out/CMakeCache.txt" sampleCache offlineHost) BsAuto "/ws/m/out"
       = ([CallReadFile "/ws/m/out/CMakeCache.txt"%string], inr UnixMakefiles)
  /\ outcome (selectGenerator
                (withFile "/ws/m/out/CMakeCache.txt" "CMAKE_GENERATOR:INTERNAL=Green Hills MULTI"
                   (withCommand "ninja" (fun _ => inr (mkExecResult "1.11.1" "")) offlineHost))
                BsAuto "/ws/m/out") = inr Ninja
  /\ outcome (selectGenerator
                (withFile "/ws/m/out/CMakeCache.txt" "CMAKE_BUILD_TYPE:STRING=Debug" offlineHost)
                BsAuto "/ws/m/out") = inr UnixMakefiles
  /\ outcome (selectGenerator offlineHost BsAuto "/ws/m/out") = inr UnixMakefiles.
Proof.
  destruct C7_selectGenerator as (_ & _ & Hfound & Hnone & Herr & _).
  split; [| split; [| split; [| split]]].
  - refine (proj1 (Hfound (withFile "/ws/m/out/CMakeCache.txt" ninjaCache offlineHost)
                     "/ws/m/out"%string ["# This is the CMakeCache file."%string] "Ninja"%string
                     ["CMAKE_GENERATOR_INSTANCE:INTERNAL="%string] _ _ _ _ _) _).
    + repeat constructor.
    + reflexivity.
    + discriminate.
    + repeat constructor.
    + reflexivity.
    + reflexivity.
  - refine (proj1 (proj2 (Hfound (withFile "/ws/m/out/CMakeCache.txt" sampleCache offlineHost)
                     "/ws/m/out"%string
                     ["# This is the CMakeCache file."; "CMAKE_BUILD_TYPE:STRING=Debug"]%string
                     "Unix Makefiles"%string
                     ["CMAKE_HOME_DIRECTORY:INTERNAL=/ws/m"%string] _ _ _ _ _)) _).
    + repeat constructor.
    + reflexivity.
    + discriminate.
    + repeat constructor.
    + reflexivity.
    + reflexivity.
  - refine (eq_trans
              (proj2 (proj2 (Hfound
                 (withFile "/ws/m/out/CMakeCache.txt" "CMAKE_GENERATOR:INTERNAL=Green Hills MULTI"
                    (withCommand "ninja" (fun _ => inr (mkExecResult "1.11.1" "")) offlineHost))
                 "/ws/m/out"%string [] "Green Hills MULTI"%string [] _ _ _ _ _)) _ _) _).
    + constructor.
    + reflexivity.
    + discriminate.
    + constructor.
    + reflexivity.
    + vm_compute. discriminate.
    + vm_compute. discriminate.
    + reflexivity.
  - refine (eq_trans
              (Hnone (withFile "/ws/m/out/CMakeCache.txt" "CMAKE_BUILD_TYPE:STRING=Debug" offlineHost)
                 "/ws/m/out"%string ["CMAKE_BUILD_TYPE:STRING=Debug"%string] _ _) _).
    + repeat constructor.
    + reflexivity.
    + reflexivity.
  - refine (eq_trans (Herr offlineHost "/ws/m/out"%string notFound _) _); reflexivity.
Defined.

(** ** The configure runner *)

Lemma selectGenerator_quiet (h : Host) (bs : BuildSystem) (outDir : string) :
  exists t g, selectGenerator h bs outDir = (t, inr g) /\ Forall quiet t.
Proof.
  destruct bs.
  - unfold selectGenerator.
    destruct (detectExistingGenerator_total h outDir) as [existing Heq]. rewrite Heq.
    destruct existing as [g |].
    + exists [CallReadFile (cachePathOf outDir)], g. split; [reflexivity |].
      repeat constructor.
    + unfold bind at 1. rewrite commandExists_ninja.
      exists [CallReadFile (cachePathOf outDir); CallExecFile "ninja" ["--version"%string] None].
      exists (if ninjaAvailable h then Ninja else UnixMakefiles).
      split; [destruct (ninjaAvailable h); reflexivity | repeat constructor].
  - exists [], Ninja. split; [reflexivity | constructor].
  - exists [], UnixMakefiles. split; [reflexivity | constructor].
Qed.

Lemma hasCMakeCache_spec (h : Host) (modulePath : string) :
  exists cached,
    Configure.hasCMakeCache h modulePath
      = ([CallStat (pathJoin3 modulePath "out" "CMakeCache.txt")], inr cached)
    /\ (cached = true <-> fs_stat h (pathJoin3 modulePath "out" "CMakeCache.txt") = inr KindFile).
Proof.
  unfold Configure.hasCMakeCache, call, bind, catch, ret.
  destruct (fs_stat h (pathJoin3 modulePath "out" "CMakeCache.txt")) as [err | kind].
  - exists false. split; [reflexivity |]. split; discriminate.
  - exists (bool_decide (kind = KindFile)). split; [reflexivity |].
    rewrite bool_decide_eq_true. split; [intros ->; reflexivity | intros [=]; assumption].
Qed.

Lemma joinNonEmpty_pair (out err : string) :
  joinNonEmpty [out; err] = combinedOutput out err.
Proof. destruct out, err; reflexivity. Qed.

Lemma configureArgs_named (g : CMakeGenerator) (text : string) :
  named g text -> Configure.configureArgs g = cmakeConfigure text.
Proof. intros []; reflexivity. Qed.

(** C9: when the output directory exists and holds a cache file,
    [ensureConfigured] answers [configured = false] with the selected
    generator, and neither creates a directory nor runs [cmake]; otherwise
    it creates the output directory and runs
    [cmake -S ./ -B out -G <name of the selected generator>] in the module
    directory, and when both succeed it answers [configured = true] with
    the standard output and the standard error of the command combined.
    [hasCMakeCache] is true exactly when [out/CMakeCache.txt] is a regular
    file. *)
Theorem C9_ensureConfigured (h : Host) (modulePath : string) (bs : BuildSystem) :
  let outDir := pathJoin modulePath "out" in
  let cachePath := pathJoin3 modulePath "out" "CMakeCache.txt" in
  (fs_stat h outDir = inr KindDirectory ->
   fs_stat h cachePath = inr KindFile ->
   exists g,
     outcome (selectGenerator h bs outDir) = inr g
     /\ outcome (Configure.ensureConfigured h modulePath bs)
          = inr (Configure.mk false g "Skipped configure (existing CMake cache).")
     /\ Forall quiet (trace (Configure.ensureConfigured h modulePath bs)))
  /\ (fs_stat h outDir <> inr KindDirectory \/ fs_stat h cachePath <> inr KindFile ->
      forall g text result,
        outcome (selectGenerator h bs outDir) = inr g ->
        named g text ->
        fs_mkdir h outDir = inr tt ->
        execFile h "cmake" ["-S"; "./"; "-B"; "out"; "-G"; text]%string (Some modulePath)
          = inr result ->
        outcome (Configure.ensureConfigured h modulePath bs)
          = inr (Configure.mk true g (combinedOutput (stdout result) (stderr result)))
        /\ exists before,
             Forall quiet before
             /\ trace (Configure.ensureConfigured h modulePath bs)
                  = before ++ [CallMkdir outDir;
                               CallExecFile "cmake" ["-S"; "./"; "-B"; "out"; "-G"; text]%string
                                 (Some modulePath)])
  /\ (outcome (Configure.hasCMakeCache h modulePath) = inr true
      <-> fs_stat h cachePath = inr KindFile).
Proof.
  intros outDir cachePath.
  destruct (selectGenerator_quiet h bs outDir) as (ts & gs & Hsel & Hquiet).
  destruct (hasCMakeCache_spec h modulePath) as (cached & Hcache & Hiff).
  fold cachePath in Hcache, Hiff.
  split; [| split].
  - intros Hdir Hfile. exists gs. split; [rewrite Hsel; reflexivity |].
    unfold Configure.ensureConfigured. fold outDir.
    unfold call at 1. unfold bind at 2. rewrite Hdir.
    unfold catch, ret at 1, bind at 1. simpl bool_decide. cbn iota.
    rewrite Hsel. unfold bind at 1. rewrite Hcache.
    apply Hiff in Hfile. subst cached. simpl. split; [reflexivity |].
    constructor; [split; reflexivity |].
    apply Forall_app. split; [exact Hquiet | repeat constructor].
  - intros Hnot g text result Hg Hnamed Hmk Hrun.
    rewrite Hsel in Hg. simpl in Hg. injection Hg as ->.
    change (["-S"; "./"; "-B"; "out"; "-G"; text]%string) with (cmakeConfigure text) in Hrun |- *.
    rewrite <- (configureArgs_named g text Hnamed) in Hrun |- *.
    rewrite <- joinNonEmpty_pair.
    unfold Configure.ensureConfigured. fold outDir.
    unfold runCommand, call, bind, catch, ret.
    destruct (fs_stat h outDir) as [err | kind] eqn:Hstat.
    + rewrite Hsel, Hmk, Hrun. simpl. split; [reflexivity |].
      exists (CallStat outDir :: ts). split; [constructor; [split; reflexivity | exact Hquiet] |].
      simpl. rewrite <- ?app_assoc. reflexivity.
    + destruct (decide (kind = KindDirectory)) as [-> | Hk].
      * simpl bool_decide. cbn iota. rewrite Hsel.
        unfold Configure.hasCMakeCache, call, bind, catch, ret in Hcache.
        unfold Configure.hasCMakeCache, call, bind, catch, ret.
        fold cachePath. fold cachePath in Hcache.
        assert (Hc : cached = false).
        { destruct cached; [| reflexivity]. exfalso.
          destruct Hnot as [Hnot | Hnot]; [apply Hnot; reflexivity |].
          apply Hnot, Hiff. reflexivity. }
        subst cached.
        destruct (fs_stat h cachePath) as [err | kind] eqn:Hstat2.
        -- rewrite Hmk, Hrun. simpl. split; [reflexivity |].
           exists (CallStat outDir :: ts ++ [CallStat cachePath]).
           split.
           ++ constructor; [split; reflexivity |]. apply Forall_app.
              split; [exact Hquiet | repeat constructor].
           ++ simpl. rewrite <- ?app_assoc. reflexivity.
        -- injection Hcache as Hb. rewrite Hb. rewrite Hmk, Hrun. simpl. split; [reflexivity |].
           exists (CallStat outDir :: ts ++ [CallStat cachePath]).
           split.
           ++ constructor; [split; reflexivity |]. apply Forall_app.
              split; [exact Hquiet | repeat constructor].
           ++ simpl. rewrite <- ?app_assoc. reflexivity.
      * rewrite bool_decide_eq_false_2 by exact Hk. cbn iota.
        rewrite Hsel, Hmk, Hrun. simpl. split; [reflexivity |].
        exists (CallStat outDir :: ts). split; [constructor; [split; reflexivity | exact Hquiet] |].
        simpl. rewrite <- ?app_assoc. reflexivity.
  - rewrite Hcache. simpl. rewrite <- Hiff. split; [intros [=]; assumption | intros ->; reflexivity].
Qed.

Lemma C9_ensureConfigured_witness :
  (exists g,
     outcome (selectGenerator cachedHost BsAuto "/ws/m/out") = inr g
     /\ outcome (Configure.ensureConfigured cachedHost "/ws/m" BsAuto)
          = inr (Configure.mk false g "Skipped configure (existing CMake cache).")
     /\ Forall quiet (trace (Configure.ensureConfigured cachedHost "/ws/m" BsAuto)))
  /\ outcome (Configure.ensureConfigured strictHost "/ws/m" BsNinja)
       = inr (Configure.mk true Ninja
                (String.append "-- Configuring done"
                   (String.append LF "CMake Warning: unused variable"))).
Proof.
  split.
  - apply (proj1 (C9_ensureConfigured cachedHost "/ws/m" BsAuto)); vm_compute; reflexivity.
  - refine (proj1 (proj1 (proj2 (C9_ensureConfigured strictHost "/ws/m" BsNinja))
             (or_introl _) Ninja "Ninja"%string noisyLog _ _ _ _)).
    + vm_compute. discriminate.
    + vm_compute. reflexivity.
    + constructor.
    + vm_compute. reflexivity.
    + vm_compute. reflexivity.
Defined.

(** ** Lookups in the state store *)

Lemma find_updateFirst (moduleId moduleId' : string) (f : ModuleState -> ModuleState)
    (l : list ModuleState) :
  (forall m, ms_module (f m) = ms_module m) ->
  find (StateStore.hasId moduleId') (StateStore.updateFirst moduleId f l)
    = (if String.eqb moduleId moduleId' then f else fun m => m)
        <$> find (StateStore.hasId moduleId') l.
Proof.
  intros Hf. induction l as [| m l IH]; simpl; [reflexivity |].
  destruct (StateStore.hasId moduleId m) eqn:Hm; simpl.
  - unfold StateStore.hasId in *. rewrite Hf.
    apply String.eqb_eq in Hm. rewrite Hm.
    destruct (String.eqb moduleId moduleId'); [reflexivity |].
    destruct (find _ l); reflexivity.
  - destruct (StateStore.hasId moduleId' m) eqn:Hm'; [| exact IH].
    unfold StateStore.hasId in *. apply String.eqb_eq in Hm'. rewrite Hm' in Hm.
    rewrite String.eqb_sym in Hm. rewrite Hm. reflexivity.
Qed.

Lemma getModuleState_onModule (moduleId moduleId' : string) (f : ModuleState -> ModuleState)
    (s : StateStore.t) :
  (forall m, ms_module (f m) = ms_module m) ->
  StateStore.getModuleState moduleId' (StateStore.onModule moduleId f s)
    = (if String.eqb moduleId moduleId' then f else fun m => m)
        <$> StateStore.getModuleState moduleId' s.
Proof. intros Hf. apply find_updateFirst, Hf. Qed.

Lemma availableFor_updateRun (moduleId target : string) (u : RunPatch) (s : StateStore.t)
    (moduleId' target' : string) :
  availableFor (StateStore.updateRun moduleId target u s) moduleId' target'
    = availableFor s moduleId' target'.
Proof.
  unfold availableFor, StateStore.updateRun.
  rewrite getModuleState_onModule by reflexivity.
  destruct (StateStore.getModuleState moduleId' s) as [m |]; simpl; [| reflexivity].
  destruct (String.eqb moduleId moduleId'); reflexivity.
Qed.

Lemma truthy_assignFlag (flags : gmap string bool) (target target' : string) (b : bool) :
  Obj.truthy (Obj.assignFlag target b flags) target'
    = if decide (target = target' /\ target <> "__proto__"%string) then b
      else Obj.truthy flags target'.
Proof.
  unfold Obj.truthy, Obj.assignFlag.
  destruct (Obj.isProto target) eqn:Hp.
  - apply isProto_spec in Hp. case_decide as H; [destruct H; contradiction | reflexivity].
  - assert (Hne : target <> "__proto__"%string).
    { intros Heq. apply isProto_spec in Heq. congruence. }
    destruct (decide (target = target')) as [<- | Hdiff].
    + rewrite Hp, lookup_insert_eq. case_decide as H; [reflexivity |].
      exfalso. apply H. split; [reflexivity | exact Hne].
    + rewrite lookup_insert_ne by exact Hdiff.
      case_decide as H; [destruct H; contradiction | reflexivity].
Qed.

Lemma availableFor_setAvailability (moduleId target : string) (b : bool) (s : StateStore.t)
    (target' : string) :
  availableFor (StateStore.setAvailability moduleId target b s) moduleId target'
    = match StateStore.getModuleState moduleId s with
      | None => false
      | Some m =>
          if decide (target = target' /\ target <> "__proto__"%string) then b
          else StateStore.isAvailable m target'
      end.
Proof.
  unfold availableFor, StateStore.setAvailability.
  rewrite getModuleState_onModule by reflexivity.
  rewrite String.eqb_refl.
  destruct (StateStore.getModuleState moduleId s) as [m |]; simpl; [| reflexivity].
  unfold StateStore.isAvailable. simpl. apply truthy_assignFlag.
Qed.

Lemma setAvailability_false_keeps (moduleId target target' : string) (s : StateStore.t) :
  availableFor s moduleId target' = false ->
  availableFor (StateStore.setAvailability moduleId target false s) moduleId target' = false.
Proof.
  intros H. rewrite availableFor_setAvailability. unfold availableFor in H.
  destruct (StateStore.getModuleState moduleId s); [| reflexivity].
  case_decide; [reflexivity | exact H].
Qed.

Lemma setAvailability_false_sets (moduleId target : string) (s : StateStore.t) :
  target <> "__proto__"%string ->
  availableFor (StateStore.setAvailability moduleId target false s) moduleId target = false.
Proof.
  intros Hne. rewrite availableFor_setAvailability.
  destruct (StateStore.getModuleState moduleId s); [| reflexivity].
  case_decide as H; [reflexivity |]. exfalso. apply H. split; [reflexivity | exact Hne].
Qed.

(** Setting a flag that is false for every listed target leaves every
    listed target unavailable, the name [__proto__] apart. *)
Lemma unavailable_after_fold (moduleId : string) (flag : string -> bool)
    (ts : list TargetDefinition) (d : Dashboard) (tn : string) :
  (forall t, t ∈ ts -> flag (target_name t) = false) ->
  ((tn ∈ targetNames ts /\ tn <> "__proto__"%string)
   \/ availableFor (stateStore d) moduleId tn = false) ->
  availableFor
    (stateStore
       (fold_left (fun d t =>
                     on_stateStore
                       (StateStore.setAvailability moduleId (target_name t) (flag (target_name t))) d)
                  ts d))
    moduleId tn = false.
Proof.
  revert d. induction ts as [| t ts IH]; intros d Hflag Hin; simpl.
  - destruct Hin as [[Hin _] | Hd]; [inversion Hin | exact Hd].
  - apply IH; [intros t' Ht'; apply Hflag; right; exact Ht' |].
    rewrite (Hflag t) by left. simpl.
    destruct Hin as [[Hin Hne] | Hd].
    + simpl in Hin. apply elem_of_cons in Hin as [-> | Hin]; [| left; split; assumption].
      right. apply setAvailability_false_sets, Hne.
    + right. apply setAvailability_false_keeps, Hd.
Qed.

Lemma markUnavailable_all (moduleId : string) (d : Dashboard) (tn : string) :
  tn ∈ targetNames (StateStore.targets (stateStore d)) ->
  tn <> "__proto__"%string ->
  availableFor (stateStore (markUnavailable moduleId d)) moduleId tn = false.
Proof.
  intros Hin Hne. unfold markUnavailable.
  apply (unavailable_after_fold moduleId (fun _ => false)); [reflexivity | left; split; assumption].
Qed.

(** ** Target detection *)

Lemma detectTargets_blank (h : Host) (modulePath : string) (g : CMakeGenerator) :
  (forall command args, execFile h command args (Some modulePath) = inr (mkExecResult "" "")) ->
  detectTargets h modulePath g = (allCommands modulePath g, inr ∅).
Proof.
  intros Hblank. destruct g; unfold detectTargets, runCommand, call, bind, ret;
    rewrite !Hblank; reflexivity.
Qed.

(** The three ways in which [detectTargets] ends. *)
Lemma detectTargets_cases (h : Host) (modulePath : string) (g : CMakeGenerator) :
  let result := detectTargets h modulePath g in
  (exists rest, allCommands modulePath g = trace result ++ rest)
  /\ ((exists targets, outcome result = inr targets /\ Forall (succeedsOn h) (trace result))
      \/ (exists before c err,
            trace result = before ++ [c]
            /\ Forall (succeedsOn h) before
            /\ failsWith h c err
            /\ outcome result = inl err)).
Proof.
  assert (Hok : forall command args cwd r,
             execFile h command args cwd = inr r ->
             succeedsOn h (CallExecFile command args cwd)).
  { intros command args cwd r Hr err Herr. simpl in Herr. congruence. }
  destruct g; unfold detectTargets, runCommand, call, bind, ret, allCommands; simpl.
  - fold ninjaList. fold ninjaListAll.
    destruct (execFile h "ninja" ninjaList (Some modulePath)) as [e1 | r1] eqn:H1.
    { split; [eexists; reflexivity |]. right.
      exists [], (CallExecFile "ninja" ninjaList (Some modulePath)), e1.
      repeat split; [constructor | unfold failsWith; simpl; rewrite H1; reflexivity]. }
    destruct (execFile h "ninja" ninjaListAll (Some modulePath)) as [e2 | r2] eqn:H2.
    { split; [eexists; reflexivity |]. right.
      exists [CallExecFile "ninja" ninjaList (Some modulePath)],
             (CallExecFile "ninja" ninjaListAll (Some modulePath)), e2.
      repeat split; [repeat constructor; eapply Hok, H1
                    | unfold failsWith; simpl; rewrite H2; reflexivity]. }
    destruct (bool_decide _).
    + destruct (execFile h "cmake" buildHelp (Some modulePath)) as [e3 | r3] eqn:H3.
      { split; [exists []; reflexivity |]. right.
        exists [CallExecFile "ninja" ninjaList (Some modulePath);
                CallExecFile "ninja" ninjaListAll (Some modulePath)],
               (CallExecFile "cmake" buildHelp (Some modulePath)), e3.
        repeat split; [repeat constructor; eapply Hok; eassumption
                      | unfold failsWith; simpl; rewrite H3; reflexivity]. }
      split; [exists []; reflexivity |]. left. eexists. split; [reflexivity |].
      repeat constructor; eapply Hok; eassumption.
    + split; [eexists; reflexivity |]. left. eexists. split; [reflexivity |].
      repeat constructor; eapply Hok; eassumption.
  - destruct (execFile h "cmake" buildHelp (Some modulePath)) as [e1 | r1] eqn:H1.
    { split; [eexists; reflexivity |]. right.
      exists [], (CallExecFile "cmake" buildHelp (Some modulePath)), e1.
      repeat split; [constructor | unfold failsWith; simpl; rewrite H1; reflexivity]. }
    destruct (bool_decide _).
    + destruct (execFile h "make" ["-C"%string; pathJoin modulePath "out"; "help"%string]
                  (Some modulePath)) as [e2 | r2] eqn:H2.
      { split; [exists []; reflexivity |]. right.
        exists [CallExecFile "cmake" buildHelp (Some modulePath)],
               (CallExecFile "make" ["-C"%string; pathJoin modulePath "out"; "help"%string]
                  (Some modulePath)), e2.
        repeat split; [repeat constructor; eapply Hok; eassumption
                      | unfold failsWith; simpl; rewrite H2; reflexivity]. }
      split; [exists []; reflexivity |]. left. eexists. split; [reflexivity |].
      repeat constructor; eapply Hok; eassumption.
    + split; [eexists; reflexivity |]. left. eexists. split; [reflexivity |].
      repeat constructor; eapply Hok; eassumption.
Qed.

Lemma bind_call_nonempty {A B} (c : IoCall) (answer : JsError + A) (f : A -> IO B) :
  trace (bind (call c answer) f) <> [].
Proof.
  unfold trace, bind, call. destruct answer as [err | a]; [discriminate |].
  destruct (f a). discriminate.
Qed.

Lemma failing_call_is_last (h : Host) (before : list IoCall) (c c' : IoCall) (err err' : JsError) :
  Forall (succeedsOn h) before -> failsWith h c err ->
  c' ∈ before ++ [c] -> failsWith h c' err' ->
  c' = c /\ err' = err.
Proof.
  intros Hbefore Hc Hin Hc'. apply elem_of_app in Hin as [Hin | Hin].
  - rewrite Forall_forall in Hbefore. exfalso. apply (Hbefore c' Hin err'). exact Hc'.
  - apply list_elem_of_singleton in Hin. subst c'. split; [reflexivity |].
    unfold failsWith in *. congruence.
Qed.

Lemma configureFailed_unavailable (e : Env) (m : ModuleInfo) (upd : bool) (err : JsError)
    (d : Dashboard) (tn : string) :
  tn ∈ targetNames (StateStore.targets (stateStore d)) ->
  tn <> "__proto__"%string ->
  availableFor (stateStore (snd (configureFailed e m upd err d))) (id m) tn = false
  /\ fst (configureFailed e m upd err d) = (if upd then None else Some err).
Proof.
  intros Hin Hne. unfold configureFailed. simpl. split; [| reflexivity].
  apply markUnavailable_all; [destruct upd; exact Hin | exact Hne].
Qed.

Lemma configureAndDetect_unavailable (h : Host) (e : Env) (m : ModuleInfo) (bs : BuildSystem)
    (skip upd rt : bool) (d : Dashboard) (g : CMakeGenerator) (out tn : string) :
  outcome (configureStep h m bs skip (upd && rt)) = inr (g, out) ->
  (exists err, outcome (detectTargets h (path m) g) = inl err)
  \/ outcome (detectTargets h (path m) g) = inr ∅ ->
  tn ∈ targetNames (StateStore.targets (stateStore d)) ->
  tn <> "__proto__"%string ->
  availableFor (stateStore (snd (snd (configureAndDetect h e m bs skip upd rt d)))) (id m) tn = false.
Proof.
  intros Hstep Hdetect Hin Hne. unfold configureAndDetect.
  destruct (configureStep h m bs skip (upd && rt)) as [t1 [err | [g' out']]];
    simpl in Hstep; [discriminate |]. injection Hstep as -> ->.
  destruct (detectTargets h (path m) g) as [t2 [err | targets]]; simpl in Hdetect.
  - simpl. apply configureFailed_unavailable; [| exact Hne].
    destruct upd, skip, rt; exact Hin.
  - destruct Hdetect as [[err Herr] | Hempty]; [discriminate |].
    injection Hempty as ->. simpl.
    pose (flag := fun name : string => bool_decide (name ∈ (∅ : gset string))).
    apply (unavailable_after_fold (id m) flag).
    + intros t _. apply bool_decide_eq_false_2. apply not_elem_of_empty.
    + left. split; [destruct upd, skip, rt; exact Hin | exact Hne].
Qed.

(** C6, as the code has it: [detectTargets] runs its introspection
    commands in their fixed order and returns a set when every command it
    runs succeeds, the empty set, after its fallback, when they print
    nothing; when any command it runs fails (the first one, the second
    listing of [ninja], or the fallback) it fails with the error of that
    command, which is then the last command run.  In both cases, failure
    and empty set, [configureAndDetect] leaves every target of the
    dashboard unavailable for the module (a target named [__proto__]
    apart, whose flag the store cannot set). *)
Theorem C6_detectTargets_degrades :
  (forall h modulePath g,
     (exists rest, allCommands modulePath g = trace (detectTargets h modulePath g) ++ rest)
     /\ trace (detectTargets h modulePath g) <> [])
  /\ (forall h modulePath g,
        Forall (succeedsOn h) (trace (detectTargets h modulePath g)) ->
        exists targets, outcome (detectTargets h modulePath g) = inr targets)
  /\ (forall h modulePath g,
        (forall command args, execFile h command args (Some modulePath) = inr (mkExecResult "" "")) ->
        detectTargets h modulePath g = (allCommands modulePath g, inr ∅))
  /\ (forall h modulePath g c err,
        c ∈ trace (detectTargets h modulePath g) ->
        failsWith h c err ->
        outcome (detectTargets h modulePath g) = inl err
        /\ last (trace (detectTargets h modulePath g)) = Some c)
  /\ (forall h e m bs skip upd rt d g out tn,
        outcome (configureStep h m bs skip (upd && rt)) = inr (g, out) ->
        (exists err, outcome (detectTargets h (path m) g) = inl err)
        \/ outcome (detectTargets h (path m) g) = inr ∅ ->
        tn ∈ targetNames (StateStore.targets (stateStore d)) ->
        tn <> "__proto__"%string ->
        availableFor (stateStore (snd (snd (configureAndDetect h e m bs skip upd rt d)))) (id m) tn
          = false).
Proof.
  split; [| split; [| split; [exact detectTargets_blank | split]]].
  - intros h modulePath g.
    destruct (detectTargets_cases h modulePath g) as [Hprefix _].
    split; [exact Hprefix |].
    destruct g; apply bind_call_nonempty.
  - intros h modulePath g Hall.
    destruct (detectTargets_cases h modulePath g)
      as [_ [(targets & Hout & _) | (before & c & err & Htrace & _ & Hfail & _)]].
    + exists targets. exact Hout.
    + exfalso. rewrite Htrace in Hall. apply Forall_app in Hall as [_ Hc].
      apply Forall_cons in Hc as [Hc _]. apply (Hc err). exact Hfail.
  - intros h modulePath g c err Hin Hfail.
    destruct (detectTargets_cases h modulePath g)
      as [_ [(targets & _ & Hall) | (before & c' & err' & Htrace & Hbefore & Hfail' & Hout)]].
    + exfalso. rewrite Forall_forall in Hall. apply (Hall c Hin err). exact Hfail.
    + rewrite Htrace in Hin |- *.
      destruct (failing_call_is_last h before c' c err' err Hbefore Hfail' Hin Hfail) as [-> ->].
      split; [exact Hout | apply last_snoc].
  - exact configureAndDetect_unavailable.
Qed.

(** C6, as the claim states it, fails: on a host where [ninja] exits with
    code 1, [detectTargets] raises the error of the command instead of
    returning the empty set, and the working fallback is not tried. *)
Lemma C6_detectTargets_raises :
  detectTargets brokenNinjaHost (path sampleModule) Ninja
    = ([CallExecFile "ninja" ninjaList (Some (path sampleModule))], inl ninjaError)
  /\ ~ (exists targets, outcome (detectTargets brokenNinjaHost (path sampleModule) Ninja) = inr targets)
  /\ outcome (detectTargets brokenNinjaHost (path sampleModule) UnixMakefiles)
       = inr ({["all"%string; "flash"%string]} : gset string).
Proof.
  split; [reflexivity |].
  split; [intros [targets Hout]; discriminate Hout |].
  vm_compute. reflexivity.
Qed.

Lemma C6_detectTargets_degrades_witness :
  (exists targets, outcome (detectTargets silentHost "/ws/modules/m" UnixMakefiles) = inr targets)
  /\ detectTargets silentHost "/ws/modules/m" Ninja = (allCommands "/ws/modules/m" Ninja, inr ∅)
  /\ (outcome (detectTargets brokenFallbackHost "/ws/modules/m" Ninja) = inl cmakeHelpError
      /\ last (trace (detectTargets brokenFallbackHost "/ws/modules/m" Ninja))
           = Some (CallExecFile "cmake" buildHelp (Some "/ws/modules/m"%string)))
  /\ availableFor (stateStore (sampleDashboard 4)) (id sampleModule) "flash" = true
  /\ availableFor
       (stateStore
          (snd (snd (configureAndDetect brokenNinjaHost sampleEnv sampleModule BsNinja
                       true false true (sampleDashboard 4)))))
       (id sampleModule) "flash" = false.
Proof.
  destruct C6_detectTargets_degrades as (_ & Hok & Hblank & Hfail & Hdown).
  split; [| split; [| split; [| split]]].
  - apply (Hok silentHost "/ws/modules/m"%string UnixMakefiles).
    vm_compute. repeat constructor; intros err Herr; discriminate Herr.
  - apply (Hblank silentHost "/ws/modules/m"%string Ninja).
    intros command args. reflexivity.
  - apply (Hfail brokenFallbackHost "/ws/modules/m"%string Ninja
             (CallExecFile "cmake" buildHelp (Some "/ws/modules/m"%string)) cmakeHelpError).
    + vm_compute. right. right. left.
    + reflexivity.
  - vm_compute. reflexivity.
  - apply (Hdown brokenNinjaHost sampleEnv sampleModule BsNinja true false true (sampleDashboard 4)
             Ninja Configure.skipped "flash"%string).
    + reflexivity.
    + left. exists ninjaError. reflexivity.
    + vm_compute. right. left.
    + discriminate.
Defined.

(** ** Module discovery *)

Lemma existsb_isMarker (entries : list Dirent) :
  existsb isMarker entries
    = bool_decide (mkDirent "CMakeLists.txt" KindFile ∈ entries)
      || bool_decide (mkDirent "custom_targets.cmake" KindFile ∈ entries).
Proof.
  apply eq_true_iff_eq. rewrite existsb_exists, orb_true_iff, !bool_decide_eq_true.
  unfold isMarker, CMAKE_LISTS, CUSTOM_TARGETS. split.
  - intros [[entryName kind] [Hin Hmark]]. apply list_elem_of_In in Hin.
    apply andb_true_iff in Hmark as [Hkind Hname]. simpl in Hkind, Hname.
    apply bool_decide_eq_true in Hkind. subst kind.
    apply orb_true_iff in Hname as [Hname | Hname]; apply String.eqb_eq in Hname; subst entryName;
      [left | right]; exact Hin.
  - intros [Hin | Hin]; eexists; (split; [apply list_elem_of_In, Hin | reflexivity]).
Qed.

Lemma isModuleDirectory_spec (h : Host) (dirPath : string) :
  isModuleDirectory h dirPath = ([CallReaddir dirPath], inr (hasMarker h dirPath)).
Proof.
  unfold isModuleDirectory, hasMarker, call, bind, catch, ret.
  destruct (fs_readdir h dirPath) as [err | entries]; [reflexivity |].
  rewrite existsb_isMarker. reflexivity.
Qed.

Lemma scanEntries_spec (h : Host) (ws root rootPath : string) (excluded : gset string)
    (entries : list Dirent) :
  outcome (scanEntries h ws root rootPath excluded entries)
    = inr (map (fun entry => moduleOf ws root rootPath (dirent_name entry))
               (List.filter (qualifies h rootPath excluded) entries)).
Proof.
  induction entries as [| entry rest IH]; [reflexivity |].
  cbn [scanEntries List.filter]. unfold qualifies at 1.
  destruct (bool_decide (dirent_kind entry = KindDirectory)); cbn [negb andb]; [| exact IH].
  destruct (bool_decide (dirent_name entry ∈ excluded)); cbn [negb andb]; [exact IH |].
  rewrite isModuleDirectory_spec. unfold bind at 1.
  destruct (scanEntries h ws root rootPath excluded rest) as [t [err | others]];
    simpl in IH; [discriminate |].
  injection IH as ->. unfold bind, ret, outcome. simpl.
  destruct (hasMarker h (pathJoin rootPath (dirent_name entry))); reflexivity.
Qed.

Section Sorting.

Context {A : Type} (compare : A -> A -> Z).

Lemma sortInsert_perm (x : A) (l : list A) : Permutation (sortInsert compare x l) (x :: l).
Proof.
  induction l as [| y l IH]; simpl; [reflexivity |].
  destruct (compare x y <? 0); [reflexivity |].
  rewrite IH. apply perm_swap.
Qed.

Lemma sortBy_perm (l : list A) : Permutation (sortBy compare l) l.
Proof.
  unfold sortBy.
  assert (Hgen : forall acc,
             Permutation (fold_left (fun sorted x => sortInsert compare x sorted) l acc)
                         (acc ++ l)).
  { induction l as [| x l IH]; intros acc; simpl; [rewrite app_nil_r; reflexivity |].
    rewrite IH, sortInsert_perm. apply Permutation_middle. }
  apply (Hgen []).
Qed.

Hypothesis antisymmetric : forall a b, 0 < compare b a -> compare a b < 0.
Hypothesis transitive : forall a b c, compare a b <= 0 -> compare b c <= 0 -> compare a c <= 0.

Lemma sortInsert_sorted (x : A) (l : list A) :
  StronglySorted (fun a b => compare a b <= 0) l ->
  StronglySorted (fun a b => compare a b <= 0) (sortInsert compare x l).
Proof.
  induction l as [| y l IH]; intros Hs; simpl.
  - constructor; constructor.
  - inversion Hs as [| ? ? Hl Hy]; subst.
    destruct (Z.ltb_spec (compare x y) 0) as [Hlt | Hge].
    + constructor; [exact Hs |]. constructor; [lia |].
      apply Forall_forall. intros z Hz. rewrite Forall_forall in Hy.
      apply (transitive x y z); [lia | apply Hy, Hz].
    + constructor; [apply IH, Hl |].
      assert (Hyx : compare y x <= 0).
      { destruct (Z.leb_spec (compare y x) 0) as [H | H]; [exact H |].
        apply antisymmetric in H. lia. }
      apply Forall_forall. intros z Hz.
      apply list_elem_of_In in Hz.
      apply (Permutation_in _ (sortInsert_perm x l)) in Hz.
      destruct Hz as [<- | Hz]; [exact Hyx |].
      rewrite Forall_forall in Hy. apply Hy, list_elem_of_In, Hz.
Qed.

Lemma sortBy_sorted (l : list A) :
  StronglySorted (fun a b => compare a b <= 0) (sortBy compare l).
Proof.
  unfold sortBy.
  assert (Hgen : forall acc,
             StronglySorted (fun a b => compare a b <= 0) acc ->
             StronglySorted (fun a b => compare a b <= 0)
               (fold_left (fun sorted x => sortInsert compare x sorted) l acc)).
  { induction l as [| x l IH]; intros acc Hacc; simpl; [exact Hacc |].
    apply IH, sortInsert_sorted, Hacc. }
  apply Hgen. constructor.
Qed.

End Sorting.

(** C8, as the code has it: [discoverModules] lists the directory
    [path.join(workspace folder, root)] and returns one module for each of
    its entries that is a directory, is not excluded and holds a regular
    file named [CMakeLists.txt] or [custom_targets.cmake], with the id
    [folder:root:name], the name of the entry and the path
    [path.join(root path, name)]; the modules are in ascending order of
    their names under the host's [localeCompare] (a locale collation, not
    the order of code units); a root that cannot be read gives the empty
    list. *)
Theorem C8_discoverModules (h : Host) (ws root : string) (excluded : gset string) :
  let rootPath := pathJoin ws root in
  (forall err,
     fs_readdir h rootPath = inl err ->
     discoverModules h ws root excluded = ([CallReaddir rootPath], inr []))
  /\ (forall entries,
        fs_readdir h rootPath = inr entries ->
        exists modules,
          outcome (discoverModules h ws root excluded) = inr modules
          /\ Permutation modules
               (map (fun entry =>
                       mkModuleInfo
                         (String.append ws
                            (String.append ":"
                               (String.append root (String.append ":" (dirent_name entry)))))
                         (dirent_name entry)
                         (pathJoin rootPath (dirent_name entry))
                         ws)
                    (List.filter (qualifies h rootPath excluded) entries))
          /\ (consistentCompare (localeCompare h) -> StronglySorted (localeLe h) modules)).
Proof.
  intros rootPath. split.
  - intros err Hread. unfold discoverModules, call, bind, catch, ret.
    fold rootPath. rewrite Hread. reflexivity.
  - intros entries Hread.
    pose proof (scanEntries_spec h ws root rootPath excluded entries) as Hscan.
    unfold discoverModules, call, bind, catch, ret. fold rootPath. rewrite Hread.
    destruct (scanEntries h ws root rootPath excluded entries) as [t [err | found]];
      simpl in Hscan; [discriminate |].
    injection Hscan as ->. eexists. split; [reflexivity |]. split.
    + apply sortBy_perm.
    + intros [Hanti Htrans].
      apply (sortBy_sorted (fun a b => localeCompare h (name a) (name b))).
      * intros a b. apply Hanti.
      * intros a b c. apply Htrans.
Qed.

(** The sample collation orders consistently. *)
Lemma compare_le_trans (a b c : string) :
  String.compare a b <> Gt -> String.compare b c <> Gt -> String.compare a c <> Gt.
Proof.
  intros Hab Hbc.
  destruct (String.compare a b) eqn:Eab; [| | contradiction].
  - apply OrderedTypeEx.String_as_OT.cmp_eq in Eab. subst b. exact Hbc.
  - destruct (String.compare b c) eqn:Ebc; [| | contradiction].
    + apply OrderedTypeEx.String_as_OT.cmp_eq in Ebc. subst c. rewrite Eab. discriminate.
    + apply OrderedTypeEx.String_as_OT.cmp_lt in Eab, Ebc.
      pose proof (OrderedTypeEx.String_as_OT.lt_trans _ _ _ Eab Ebc) as Hac.
      apply OrderedTypeEx.String_as_OT.cmp_lt in Hac.
      unfold OrderedTypeEx.String_as_OT.cmp in Hac. rewrite Hac. discriminate.
Qed.

Lemma rootLocaleCompare_le (a b : string) :
  rootLocaleCompare a b <= 0 <->
    (String.compare (Js.toLowerCase a) (Js.toLowerCase b) = Lt
     \/ (Js.toLowerCase a = Js.toLowerCase b
         /\ String.compare (caseKeys a) (caseKeys b) <> Gt)).
Proof.
  unfold rootLocaleCompare.
  destruct (String.compare (Js.toLowerCase a) (Js.toLowerCase b)) eqn:E.
  - apply OrderedTypeEx.String_as_OT.cmp_eq in E.
    destruct (String.compare (caseKeys a) (caseKeys b)); simpl; split;
      try (intros _; right; split; [exact E | discriminate]);
      try lia; intros [H | [_ H]]; try discriminate; contradiction.
  - simpl. split; [intros _; left; reflexivity | lia].
  - simpl. split; [lia |]. intros [H | [H _]]; [discriminate |].
    apply OrderedTypeEx.String_as_OT.cmp_eq in H.
    unfold OrderedTypeEx.String_as_OT.cmp in H. rewrite H in E. discriminate.
Qed.

Lemma rootLocaleCompare_consistent : consistentCompare rootLocaleCompare.
Proof.
  split.
  - intros a b. unfold rootLocaleCompare.
    rewrite (String.compare_antisym (Js.toLowerCase a) (Js.toLowerCase b)).
    rewrite (String.compare_antisym (caseKeys a) (caseKeys b)).
    destruct (String.compare (Js.toLowerCase b) (Js.toLowerCase a));
      destruct (String.compare (caseKeys b) (caseKeys a)); simpl; lia.
  - intros a b c Hab Hbc. apply rootLocaleCompare_le in Hab, Hbc. apply rootLocaleCompare_le.
    destruct Hab as [Hab | [Hab Hab']], Hbc as [Hbc | [Hbc Hbc']].
    + left. apply OrderedTypeEx.String_as_OT.cmp_lt.
      apply OrderedTypeEx.String_as_OT.cmp_lt in Hab, Hbc.
      exact (OrderedTypeEx.String_as_OT.lt_trans _ _ _ Hab Hbc).
    + left. rewrite <- Hbc. exact Hab.
    + left. rewrite Hab. exact Hbc.
    + right. split; [congruence |]. exact (compare_le_trans _ _ _ Hab' Hbc').
Qed.

Lemma C8_discoverModules_witness :
  discoverModules offlineHost "/ws" "modules" ∅ = ([CallReaddir "/ws/modules"%string], inr [])
  /\ exists modules,
       outcome (discoverModules twoModulesHost "/ws" "modules" {["c"%string]}) = inr modules
       /\ Permutation modules
            [mkModuleInfo "/ws:modules:B" "B" "/ws/modules/B" "/ws";
             mkModuleInfo "/ws:modules:a" "a" "/ws/modules/a" "/ws"]
       /\ StronglySorted (localeLe twoModulesHost) modules.
Proof.
  split.
  - apply (proj1 (C8_discoverModules offlineHost "/ws" "modules" ∅) notFound). reflexivity.
  - destruct (proj2 (C8_discoverModules twoModulesHost "/ws" "modules" {["c"%string]})
                _ eq_refl) as (modules & Hout & Hperm & Hsorted).
    exists modules. split; [exact Hout |]. split; [exact Hperm |].
    apply Hsorted. exact rootLocaleCompare_consistent.
Defined.

(** C8, as the claim states it, fails: with the module directories [B]
    and [a] the result is [a] before [B], which is not ascending in the
    order of code units ("B" is 66, "a" is 97). *)
Lemma C8_not_code_point_order :
  outcome (discoverModules twoModulesHost "/ws" "modules" {["c"%string]})
    = inr [mkModuleInfo "/ws:modules:a" "a" "/ws/modules/a" "/ws";
           mkModuleInfo "/ws:modules:B" "B" "/ws/modules/B" "/ws"]
  /\ ~ StronglySorted codePointLe ["a"; "B"]%string.
Proof.
  split; [vm_compute; reflexivity |].
  intros Hs. inversion Hs as [| ? ? _ Hhd]; subst.
  inversion Hhd as [| ? ? Hle _]; subst. apply Hle. reflexivity.
Qed.

(** ** The enqueue path of the controller *)

Lemma admits_refl (d : Dashboard) : admits d d.
Proof. split; [reflexivity | intros request Hin; left; exact Hin]. Qed.

Lemma admits_trans (d1 d2 d3 : Dashboard) : admits d1 d2 -> admits d2 d3 -> admits d1 d3.
Proof.
  intros [Ha12 Hr12] [Ha23 Hr23]. split.
  - intros moduleId target. rewrite Ha23. apply Ha12.
  - intros request Hin. destruct (Hr23 request Hin) as [Hin2 | Hav].
    + apply Hr12, Hin2.
    + right. unfold requestAvailable in *. rewrite <- Ha12. exact Hav.
Qed.

Lemma admits_fold {X} (f : Dashboard -> X -> Dashboard) (l : list X) (d : Dashboard) :
  (forall d x, admits d (f d x)) -> admits d (fold_left f l d).
Proof.
  intros Hf. revert d. induction l as [| x l IH]; intros d; simpl; [apply admits_refl |].
  eapply admits_trans; [apply Hf | apply IH].
Qed.

(** Changes that touch neither the availability flags nor the requests. *)
Lemma admits_same (d d' : Dashboard) :
  (forall moduleId target,
     availableFor (stateStore d') moduleId target = availableFor (stateStore d) moduleId target) ->
  requestsOf d' = requestsOf d ->
  admits d d'.
Proof.
  intros Hav Hreq. split; [exact Hav |]. intros request Hin. left. rewrite <- Hreq. exact Hin.
Qed.

Lemma admits_fireRunning (e : Env) (moduleId target : string) (d : Dashboard) :
  admits d (fireRunning e moduleId target d).
Proof.
  apply admits_same; [| reflexivity].
  intros moduleId' target'. apply availableFor_updateRun.
Qed.

Lemma elem_of_requestsOf (d : Dashboard) (request : RunRequest) :
  request ∈ requestsOf d <->
    request ∈ pending (runner d)
    \/ request ∈ map fst (starting (runner d))
    \/ request ∈ map fst (silentCalls (runner d)).
Proof. unfold requestsOf. rewrite !elem_of_app. reflexivity. Qed.

(** [execute] takes the request out of nowhere: it is admitted when it
    comes from the head of the pending queue. *)
Lemma execute_requests (e : Env) (request : RunRequest) (d : Dashboard) (r : RunRequest) :
  r ∈ requestsOf (execute e request d) -> r = request \/ r ∈ requestsOf d.
Proof.
  rewrite !elem_of_requestsOf. unfold execute, executeInTerminal, fireRunning, pushState.
  destruct (runInTerminal request) as [[|] |]; simpl;
    rewrite ?map_app, ?elem_of_app; simpl; rewrite ?list_elem_of_singleton; tauto.
Qed.

Lemma execute_available (e : Env) (request : RunRequest) (d : Dashboard)
    (moduleId target : string) :
  availableFor (stateStore (execute e request d)) moduleId target
    = availableFor (stateStore d) moduleId target.
Proof.
  unfold execute, executeInTerminal, fireRunning, pushState.
  destruct (runInTerminal request) as [[|] |]; simpl; apply availableFor_updateRun.
Qed.

Lemma execute_pending (e : Env) (request : RunRequest) (d : Dashboard) :
  pending (runner (execute e request d)) = pending (runner d).
Proof.
  unfold execute, executeInTerminal, fireRunning, pushState.
  destruct (runInTerminal request) as [[|] |]; reflexivity.
Qed.

Lemma admits_kickLoop (e : Env) (queue : list RunRequest) (d : Dashboard) :
  pending (runner d) = queue -> admits d (kickLoop e queue d).
Proof.
  revert d. induction queue as [| request rest IH]; intros d Hq; simpl; [apply admits_refl |].
  destruct (Z.of_nat (size (running (runner d))) <? maxParallel (runner d)); [| apply admits_refl].
  eapply admits_trans; [| apply IH; rewrite execute_pending; reflexivity].
  split.
  - intros moduleId target. rewrite execute_available. reflexivity.
  - intros r Hin. left. apply execute_requests in Hin as [-> | Hin].
    + apply elem_of_requestsOf. left. rewrite Hq. left.
    + apply elem_of_requestsOf in Hin. apply elem_of_requestsOf. simpl in Hin.
      destruct Hin as [Hin | Hin]; [| right; exact Hin].
      left. rewrite Hq. right. exact Hin.
Qed.

Lemma admits_kick (e : Env) (d : Dashboard) : admits d (kick e d).
Proof. apply admits_kickLoop. reflexivity. Qed.

Lemma admits_enqueue (e : Env) (request : RunRequest) (d : Dashboard) :
  requestAvailable (stateStore d) request = true -> admits d (enqueue e request d).
Proof.
  intros Hav. unfold enqueue.
  destruct (isQueuedOrRunning (requestKey request) (runner d)); [apply admits_refl |].
  eapply admits_trans; [| apply admits_kick].
  split; [reflexivity |].
  intros r Hin. apply elem_of_requestsOf in Hin. simpl in Hin.
  rewrite elem_of_app, list_elem_of_singleton in Hin.
  destruct Hin as [[Hin | ->] | Hin].
  - left. apply elem_of_requestsOf. left. exact Hin.
  - right. exact Hav.
  - left. apply elem_of_requestsOf. right. exact Hin.
Qed.

Lemma enqueueRun_gate (e : Env) (m : ModuleInfo) (target : string) (ac it : option bool)
    (d : Dashboard) :
  availableFor (stateStore d) (id m) target = false -> enqueueRun e m target ac it d = d.
Proof.
  unfold availableFor, enqueueRun. intros Hav.
  destruct (StateStore.getModuleState (id m) (stateStore d)) as [moduleState |]; [| reflexivity].
  rewrite Hav. reflexivity.
Qed.

Lemma admits_enqueueRun (e : Env) (m : ModuleInfo) (target : string) (ac it : option bool)
    (d : Dashboard) :
  admits d (enqueueRun e m target ac it d).
Proof.
  destruct (availableFor (stateStore d) (id m) target) eqn:Hav.
  - unfold enqueueRun. unfold availableFor in Hav.
    destruct (StateStore.getModuleState (id m) (stateStore d)) as [moduleState |] eqn:Hm;
      [| apply admits_refl].
    rewrite Hav. simpl. apply admits_enqueue.
    unfold requestAvailable, availableFor. simpl. rewrite Hm. exact Hav.
  - rewrite enqueueRun_gate by exact Hav. apply admits_refl.
Qed.

Lemma admits_startNextRunAllTarget (e : Env) (moduleId : string) (d : Dashboard) :
  admits d (startNextRunAllTarget e moduleId d).
Proof.
  unfold startNextRunAllTarget.
  destruct (bool_decide (is_Some (runAllActive d !! moduleId))); [apply admits_refl |].
  destruct (runAllQueues d !! moduleId) as [queue |]; [| apply admits_refl].
  destruct (StateStore.getModuleState moduleId (stateStore d)) as [moduleState |];
    [| apply admits_same; reflexivity].
  destruct (shiftAvailable (StateStore.isAvailable moduleState) queue) as [[nextTarget rest] |];
    [| apply admits_same; reflexivity].
  eapply admits_trans; [| apply admits_enqueueRun].
  apply admits_same; reflexivity.
Qed.

Lemma admits_handleRunAllCompletion (e : Env) (moduleId target : string) (d : Dashboard) :
  admits d (handleRunAllCompletion e moduleId target d).
Proof.
  unfold handleRunAllCompletion.
  destruct (bool_decide (runAllActive d !! moduleId = Some target)); [| apply admits_refl].
  eapply admits_trans; [| apply admits_startNextRunAllTarget].
  apply admits_same; reflexivity.
Qed.

Lemma admits_startNextModuleTarget (e : Env) (m : ModuleInfo) (d : Dashboard) :
  admits d (startNextModuleTarget e m d).
Proof.
  unfold startNextModuleTarget.
  destruct (bool_decide (is_Some (runModuleActive d !! id m))); [apply admits_refl |].
  destruct (runModuleQueues d !! id m) as [queue |]; [| apply admits_refl].
  destruct (shiftAvailable _ queue) as [[nextTarget rest] |];
    [| apply admits_same; reflexivity].
  eapply admits_trans; [| apply admits_enqueueRun].
  apply admits_same; reflexivity.
Qed.

Lemma admits_handleRunModuleCompletion (e : Env) (moduleId target : string) (d : Dashboard) :
  admits d (handleRunModuleCompletion e moduleId target d).
Proof.
  unfold handleRunModuleCompletion.
  destruct (bool_decide (runModuleActive d !! moduleId = Some target)); [| apply admits_refl].
  simpl.
  destruct (StateStore.getModuleState moduleId (stateStore d)) as [moduleState |];
    [| apply admits_same; reflexivity].
  eapply admits_trans; [| apply admits_startNextModuleTarget].
  apply admits_same; reflexivity.
Qed.

Lemma admits_perform (e : Env) (c : RunCommand) (d : Dashboard) : admits d (perform e c d).
Proof.
  destruct c as [mid tgt | | | mid | tgt | mid tgt | mid tgt | mid tgt]; simpl.
  - unfold enqueueRunById.
    destruct (StateStore.getModuleState mid (stateStore d)); [| apply admits_refl].
    apply admits_enqueueRun.
  - unfold runAll.
    eapply admits_trans;
      [| apply admits_fold; intros d' x; apply admits_startNextRunAllTarget].
    eapply admits_trans;
      [| apply admits_fold; intros d' x; apply admits_same; reflexivity].
    apply admits_same; reflexivity.
  - unfold rerunFailed. apply admits_fold. intros d' x. apply admits_enqueueRun.
  - unfold runTargetForModule.
    destruct (StateStore.getModuleState mid (stateStore d)) as [moduleState |];
      [| apply admits_refl].
    destruct (availableTargets moduleState (StateStore.targets (stateStore d))) as [| t ts];
      [apply admits_refl |].
    eapply admits_trans; [| apply admits_startNextModuleTarget].
    eapply admits_trans; [| apply admits_same; reflexivity].
    eapply admits_trans; [| apply admits_same; reflexivity].
    eapply admits_trans; [| apply admits_same; reflexivity].
    apply admits_fold. intros d' x. apply admits_same; [| reflexivity].
    intros moduleId' target'. apply availableFor_updateRun.
  - unfold runTargetForAllModules. apply admits_fold. intros d' x.
    destruct (StateStore.isAvailable x tgt); [apply admits_enqueueRun | apply admits_refl].
  - unfold revealOrRerunTarget.
    destruct (StateStore.getModuleState mid (stateStore d)) as [moduleState |];
      [| apply admits_refl].
    destruct (existsb _ _); [apply admits_refl | apply admits_enqueueRun].
  - apply admits_handleRunAllCompletion.
  - apply admits_handleRunModuleCompletion.
Qed.

Lemma requestAvailable_spec (s : StateStore.t) (request : RunRequest) :
  requestAvailable s request = true
  <-> exists moduleState,
        StateStore.getModuleState (id (module request)) s = Some moduleState
        /\ readsTrue (availability moduleState) (target request).
Proof.
  unfold requestAvailable, availableFor, StateStore.isAvailable.
  destruct (StateStore.getModuleState (id (module request)) s) as [moduleState |].
  - rewrite truthy_spec. split; [intros H; exists moduleState; split; [reflexivity | exact H] |].
    intros (moduleState' & [= <-] & H). exact H.
  - split; [discriminate | intros (moduleState & Hsome & _); discriminate Hsome].
Qed.

(** C10, as the code has it: [enqueueRun] and [enqueueRunById] change
    nothing at all when the store has no module with the id, or when the
    availability flag of the target for that module does not read as true;
    and whatever run command the controller performs, every request that
    the scheduler holds afterwards was already held before or is for a
    target whose flag read as true for its module when the command was
    given.  (The flag is read when a request is enqueued and not again
    when it is dispatched.) *)
Theorem C10_enqueue_gated_on_availability :
  (forall e m target autoClose inTerminal d,
     StateStore.getModuleState (id m) (stateStore d) = None ->
     enqueueRun e m target autoClose inTerminal d = d)
  /\ (forall e m target autoClose inTerminal d moduleState,
        StateStore.getModuleState (id m) (stateStore d) = Some moduleState ->
        ~ readsTrue (availability moduleState) target ->
        enqueueRun e m target autoClose inTerminal d = d)
  /\ (forall e moduleId target d,
        StateStore.getModuleState moduleId (stateStore d) = None ->
        enqueueRunById e moduleId target d = d)
  /\ (forall e moduleId target d moduleState,
        StateStore.getModuleState moduleId (stateStore d) = Some moduleState ->
        ~ readsTrue (availability moduleState) target ->
        enqueueRunById e moduleId target d = d)
  /\ (forall moduleState target,
        ordinaryName target ->
        availability moduleState !! target <> Some true ->
        ~ readsTrue (availability moduleState) target)
  /\ (forall e c d request,
        request ∈ requestsOf (perform e c d) ->
        request ∈ requestsOf d
        \/ exists moduleState,
             StateStore.getModuleState (id (module request)) (stateStore d) = Some moduleState
             /\ readsTrue (availability moduleState) (target request)).
Proof.
  assert (Hflag : forall moduleState target,
             ~ readsTrue (availability moduleState) target ->
             StateStore.isAvailable moduleState target = false).
  { intros moduleState target Hne. unfold StateStore.isAvailable.
    destruct (Obj.truthy (availability moduleState) target) eqn:E; [| reflexivity].
    apply truthy_spec in E. contradiction. }
  split; [| split; [| split; [| split; [| split]]]].
  - intros e m target ac it d Hnone. apply enqueueRun_gate.
    unfold availableFor. rewrite Hnone. reflexivity.
  - intros e m target ac it d moduleState Hsome Hne. apply enqueueRun_gate.
    unfold availableFor. rewrite Hsome. apply Hflag, Hne.
  - intros e moduleId target d Hnone. unfold enqueueRunById. rewrite Hnone. reflexivity.
  - intros e moduleId target d moduleState Hsome Hne.
    unfold enqueueRunById, enqueueRun. rewrite Hsome.
    destruct (StateStore.getModuleState (id (ms_module moduleState)) (stateStore d))
      as [moduleState' |] eqn:Hsome'; [| reflexivity].
    assert (moduleState' = moduleState) as ->.
    { pose proof Hsome as Hfound. unfold StateStore.getModuleState in Hfound.
      apply find_some in Hfound as [_ Hid]. unfold StateStore.hasId in Hid.
      apply String.eqb_eq in Hid. rewrite Hid in Hsome'. congruence. }
    rewrite (Hflag _ _ Hne). reflexivity.
  - intros moduleState target [Hp Hm] Hne [H | [H | [_ H]]]; contradiction.
  - intros e c d request Hin.
    destruct (proj2 (admits_perform e c d) request Hin) as [Hold | Hav]; [left; exact Hold |].
    right. apply requestAvailable_spec, Hav.
Qed.

Lemma C10_enqueue_gated_on_availability_witness :
  enqueueRun sampleEnv sampleModule "all" None None (newDashboard 4) = newDashboard 4
  /\ enqueueRun sampleEnv sampleModule "lint" None None (sampleDashboard 4) = sampleDashboard 4
  /\ enqueueRunById sampleEnv "/ws:modules:x" "all" (sampleDashboard 4) = sampleDashboard 4
  /\ enqueueRunById sampleEnv "/ws:modules:m" "lint" (sampleDashboard 4) = sampleDashboard 4
  /\ ~ readsTrue (availability sampleModuleState) "lint"
  /\ (mkRunRequest sampleModule "all" true 8 true (Some false) ∈ requestsOf (sampleDashboard 4)
      \/ exists moduleState,
           StateStore.getModuleState (id sampleModule) (stateStore (sampleDashboard 4))
             = Some moduleState
           /\ readsTrue (availability moduleState) "all").
Proof.
  destruct C10_enqueue_gated_on_availability as (H1 & H2 & H3 & H4 & H5 & H6).
  assert (Hlint : ~ readsTrue (availability sampleModuleState) "lint").
  { apply H5; [| vm_compute; discriminate].
    split; [discriminate |]. intros Hin. apply isMember_spec in Hin. discriminate Hin. }
  split; [| split; [| split; [| split; [| split]]]].
  - apply H1. reflexivity.
  - apply (H2 sampleEnv sampleModule "lint"%string None None (sampleDashboard 4) sampleModuleState);
      [vm_compute; reflexivity | exact Hlint].
  - apply H3. reflexivity.
  - apply (H4 sampleEnv "/ws:modules:m"%string "lint"%string (sampleDashboard 4) sampleModuleState);
      [vm_compute; reflexivity | exact Hlint].
  - exact Hlint.
  - apply (H6 sampleEnv CmdRunAll (sampleDashboard 4)
             (mkRunRequest sampleModule "all" true 8 true (Some false))).
    vm_compute. constructor.
Defined.

(** C10, as the claim states it, fails.  With [all] running silently under
    a cap of one, the run-target command queues [flash] while it is
    available; a refresh then marks [flash] unavailable, and when [all]
    completes the dispatch loop starts [flash] all the same.  And on a
    module whose flags do not mention [constructor] at all, the run-target
    command for that name is not a no-op: the gate reads the function that
    every object inherits under this name. *)
Lemma C10_dispatched_while_unavailable :
  (pendingKeys flashQueued = [getKey (id sampleModule) "flash"]
   /\ availableFor (stateStore flashWithdrawn) (id sampleModule) "flash" = false
   /\ startingKeys flashWithdrawn = []
   /\ startingKeys (silentFinished sampleEnv 0 cleanBuild flashWithdrawn)
        = [getKey (id sampleModule) "flash"]
   /\ availableFor (stateStore (silentFinished sampleEnv 0 cleanBuild flashWithdrawn))
        (id sampleModule) "flash" = false)
  /\ (availability sampleModuleState !! "constructor" = None
      /\ startingKeys (enqueueRunById sampleEnv (id sampleModule) "constructor" (sampleDashboard 4))
           = [getKey (id sampleModule) "constructor"]).
Proof. vm_compute. repeat split; reflexivity. Qed.

(** ** Updates fired by the scheduler *)

Lemma announces_refl (d : Dashboard) : announces d d.
Proof. exists []. split; [rewrite app_nil_r; reflexivity | constructor]. Qed.

Lemma announces_trans (d1 d2 d3 : Dashboard) :
  announces d1 d2 -> announces d2 d3 -> announces d1 d3.
Proof.
  intros (l1 & H1 & F1) (l2 & H2 & F2). exists (l1 ++ l2). split.
  - rewrite H2, H1, app_assoc. reflexivity.
  - apply Forall_app. split; assumption.
Qed.

Lemma announces_same (d d' : Dashboard) :
  fired (runner d') = fired (runner d) -> announces d d'.
Proof. intros H. exists []. split; [rewrite app_nil_r; exact H | constructor]. Qed.

Lemma announces_fold {X} (f : Dashboard -> X -> Dashboard) (l : list X) (d : Dashboard) :
  (forall d x, announces d (f d x)) -> announces d (fold_left f l d).
Proof.
  intros Hf. revert d. induction l as [| x l IH]; intros d; simpl; [apply announces_refl |].
  eapply announces_trans; [apply Hf | apply IH].
Qed.

Lemma fireRunning_fired (e : Env) (moduleId target : string) (d : Dashboard) :
  fired (runner (fireRunning e moduleId target d))
    = fired (runner d) ++ [mkRunUpdate moduleId target StRunning None].
Proof. reflexivity. Qed.

Lemma execute_fired (e : Env) (request : RunRequest) (d : Dashboard) :
  fired (runner (execute e request d))
    = fired (runner d) ++ [mkRunUpdate (id (module request)) (target request) StRunning None].
Proof.
  unfold execute, executeInTerminal, fireRunning, pushState.
  destruct (runInTerminal request) as [[|] |]; reflexivity.
Qed.

Lemma announces_execute (e : Env) (request : RunRequest) (d : Dashboard) :
  announces d (execute e request d).
Proof.
  eexists. split; [apply execute_fired |]. constructor; [reflexivity | constructor].
Qed.

Lemma announces_kickLoop (e : Env) (queue : list RunRequest) (d : Dashboard) :
  announces d (kickLoop e queue d).
Proof.
  revert d. induction queue as [| request rest IH]; intros d; simpl; [apply announces_refl |].
  destruct (Z.of_nat (size (running (runner d))) <? maxParallel (runner d));
    [| apply announces_refl].
  eapply announces_trans; [| apply IH].
  eapply announces_trans; [| apply announces_execute].
  apply announces_same. reflexivity.
Qed.

Lemma announces_kick (e : Env) (d : Dashboard) : announces d (kick e d).
Proof. apply announces_kickLoop. Qed.

Lemma announces_enqueue (e : Env) (request : RunRequest) (d : Dashboard) :
  announces d (enqueue e request d).
Proof.
  unfold enqueue.
  destruct (isQueuedOrRunning (requestKey request) (runner d)); [apply announces_refl |].
  eapply announces_trans; [| apply announces_kick]. apply announces_same. reflexivity.
Qed.

Lemma announces_enqueueRun (e : Env) (m : ModuleInfo) (target : string) (ac it : option bool)
    (d : Dashboard) :
  announces d (enqueueRun e m target ac it d).
Proof.
  unfold enqueueRun.
  destruct (StateStore.getModuleState (id m) (stateStore d)); [| apply announces_refl].
  destruct (negb _); [apply announces_refl | apply announces_enqueue].
Qed.

Lemma announces_startNextRunAllTarget (e : Env) (moduleId : string) (d : Dashboard) :
  announces d (startNextRunAllTarget e moduleId d).
Proof.
  unfold startNextRunAllTarget.
  destruct (bool_decide (is_Some (runAllActive d !! moduleId))); [apply announces_refl |].
  destruct (runAllQueues d !! moduleId) as [queue |]; [| apply announces_refl].
  destruct (StateStore.getModuleState moduleId (stateStore d)) as [moduleState |];
    [| apply announces_same; reflexivity].
  destruct (shiftAvailable (StateStore.isAvailable moduleState) queue) as [[nextTarget rest] |];
    [| apply announces_same; reflexivity].
  eapply announces_trans; [| apply announces_enqueueRun].
  apply announces_same; reflexivity.
Qed.

Lemma announces_handleRunAllCompletion (e : Env) (moduleId target : string) (d : Dashboard) :
  announces d (handleRunAllCompletion e moduleId target d).
Proof.
  unfold handleRunAllCompletion.
  destruct (bool_decide (runAllActive d !! moduleId = Some target)); [| apply announces_refl].
  eapply announces_trans; [| apply announces_startNextRunAllTarget].
  apply announces_same; reflexivity.
Qed.

Lemma announces_startNextModuleTarget (e : Env) (m : ModuleInfo) (d : Dashboard) :
  announces d (startNextModuleTarget e m d).
Proof.
  unfold startNextModuleTarget.
  destruct (bool_decide (is_Some (runModuleActive d !! id m))); [apply announces_refl |].
  destruct (runModuleQueues d !! id m) as [queue |]; [| apply announces_refl].
  destruct (shiftAvailable _ queue) as [[nextTarget rest] |];
    [| apply announces_same; reflexivity].
  eapply announces_trans; [| apply announces_enqueueRun].
  apply announces_same; reflexivity.
Qed.

Lemma announces_handleRunModuleCompletion (e : Env) (moduleId target : string) (d : Dashboard) :
  announces d (handleRunModuleCompletion e moduleId target d).
Proof.
  unfold handleRunModuleCompletion.
  destruct (bool_decide (runModuleActive d !! moduleId = Some target)); [| apply announces_refl].
  simpl.
  destruct (StateStore.getModuleState moduleId (stateStore d)) as [moduleState |];
    [| apply announces_same; reflexivity].
  eapply announces_trans; [| apply announces_startNextModuleTarget].
  apply announces_same; reflexivity.
Qed.

(** [fireCompleted] adds its update and then only [running] updates. *)
Lemma fireCompleted_fired (e : Env) (u : RunUpdate) (d : Dashboard) :
  exists later,
    fired (runner (fireCompleted e u d)) = fired (runner d) ++ u :: later
    /\ Forall isRunningUpdate later.
Proof.
  unfold fireCompleted.
  set (d1 := on_stateStore _ (on_runner _ d)).
  assert (H1 : fired (runner d1) = fired (runner d) ++ [u]) by reflexivity.
  destruct (announces_trans _ _ _
              (announces_handleRunAllCompletion e (moduleId u) (upd_target u) d1)
              (announces_handleRunModuleCompletion e (moduleId u) (upd_target u)
                 (handleRunAllCompletion e (moduleId u) (upd_target u) d1)))
    as (later & Hl & Fl).
  exists later. split; [| exact Fl].
  unfold pushState. simpl. rewrite Hl, H1, <- app_assoc. reflexivity.
Qed.

(** C5: when the result of a silent run does not classify as success, the
    only update fired is a [running] one, no completion is reported, and
    the same request is started in terminal mode (with [runInTerminal]
    set) under the same key, outside the pending queue; when it classifies
    as success, exactly one completion update is fired, with status
    [success], followed at most by [running] updates of newly dispatched
    requests. *)
Theorem C5_silent_escalation (e : Env) (request : RunRequest) (key : string)
    (result : ExecResultWithExitCode) (d : Dashboard) :
  let d' := executeSilentlyResumed e request key result d in
  (silentStatus result <> StSuccess ->
   fired (runner d')
     = fired (runner d) ++ [mkRunUpdate (id (module request)) (target request) StRunning None]
   /\ starting (runner d') = starting (runner d) ++ [(inTerminal request, key)]
   /\ pending (runner d') = pending (runner d)
   /\ silentCalls (runner d') = silentCalls (runner d)
   /\ running (runner d') = delete key (running (runner d)))
  /\ (silentStatus result = StSuccess ->
      exists later,
        fired (runner d')
          = fired (runner d)
            ++ mkRunUpdate (id (module request)) (target request) StSuccess
                 (Some (default 0 (res_exitCode result))) :: later
        /\ Forall isRunningUpdate later).
Proof.
  intros d'. subst d'. unfold executeSilentlyResumed. fold (silentStatus result). split.
  - intros Hne. rewrite bool_decide_eq_false_2 by exact Hne.
    unfold executeInTerminal, fireRunning, pushState. simpl. repeat split; reflexivity.
  - intros Heq. rewrite bool_decide_eq_true_2 by exact Heq. rewrite Heq.
    set (u := mkRunUpdate _ _ _ _).
    set (d1 := on_runner (on_running (delete key)) d).
    destruct (fireCompleted_fired e u d1) as (l1 & H1 & F1).
    set (d2 := on_runner _ (fireCompleted e u d1)).
    destruct (announces_kick e d2) as (l2 & H2 & F2).
    exists (l1 ++ l2). split; [| apply Forall_app; split; assumption].
    assert (Hd2 : fired (runner d2) = fired (runner (fireCompleted e u d1))) by reflexivity.
    rewrite H2, Hd2, H1. simpl. rewrite <- app_assoc. reflexivity.
Qed.

Lemma C5_silent_escalation_witness :
  let key := requestKey (silentRequest "all") in
  (fired (runner (executeSilentlyResumed sampleEnv (silentRequest "all") key warningBuild silentInFlight))
     = fired (runner silentInFlight) ++ [mkRunUpdate (id sampleModule) "all" StRunning None]
   /\ starting (runner (executeSilentlyResumed sampleEnv (silentRequest "all") key warningBuild silentInFlight))
        = starting (runner silentInFlight) ++ [(inTerminal (silentRequest "all"), key)])
  /\ exists later,
       fired (runner (executeSilentlyResumed sampleEnv (silentRequest "all") key cleanBuild silentInFlight))
         = fired (runner silentInFlight)
           ++ mkRunUpdate (id sampleModule) "all" StSuccess (Some 0) :: later
       /\ Forall isRunningUpdate later.
Proof.
  intros key. split.
  - destruct (proj1 (C5_silent_escalation sampleEnv (silentRequest "all") key warningBuild
                       silentInFlight)) as (Hfired & Hstarting & _).
    + vm_compute. discriminate.
    + split; [exact Hfired | exact Hstarting].
  - apply (proj2 (C5_silent_escalation sampleEnv (silentRequest "all") key cleanBuild
                    silentInFlight)).
    vm_compute. reflexivity.
Defined.

(** ** The dispatch loop and the cap *)








(** [execute] adds an entry to the in-flight map for a silent request
    only; a request in terminal mode is counted when its task has started. *)
Lemma execute_terminal_not_counted (e : Env) (request : RunRequest) (d : Dashboard) :
  runInTerminal request = Some false
  \/ running (runner (execute e request d)) = running (runner d).
Proof.
  unfold execute, executeInTerminal, fireRunning, pushState.
  destruct (runInTerminal request) as [[|] |]; [right | left | right]; reflexivity.
Qed.

(** C2 on the code: the cap is one and is never changed.  The run-target
    command is given for [all] and for [flash] in one burst; each request
    is dispatched at once, because a request in terminal mode is not
    counted in the in-flight map before [executeTask] has resolved, so the
    dispatch loop finds the map empty both times.  When the two tasks have
    started, two executions are in flight under a cap of one. *)
Theorem C2_cap_exceeded_by_terminal_runs :
  (maxParallel (runner (sampleDashboard 1)) = 1
   /\ inFlight (sampleDashboard 1) = 0)
  /\ (maxParallel (runner twoClicks) = 1
      /\ inFlight twoClicks = 0
      /\ pendingKeys twoClicks = []
      /\ startingKeys twoClicks
           = [getKey (id sampleModule) "all"; getKey (id sampleModule) "flash"])
  /\ (maxParallel (runner twoTasksStarted) = 1
      /\ inFlight twoTasksStarted = 2
      /\ running (runner twoTasksStarted) !! getKey (id sampleModule) "all" = Some (TaskEntry 7)
      /\ running (runner twoTasksStarted) !! getKey (id sampleModule) "flash" = Some (TaskEntry 8)
      /\ ~ (inFlight twoTasksStarted <= maxParallel (runner twoTasksStarted)))
  /\ (forall e request d,
        runInTerminal request = Some false
        \/ running (runner (execute e request d)) = running (runner d)).
Proof.
  split; [vm_compute; split; reflexivity |].
  split; [vm_compute; repeat split; reflexivity |].
  split; [| exact execute_terminal_not_counted].
  vm_compute. repeat split; try reflexivity. intros H. apply H. reflexivity.
Qed.

(** ** Duplicate requests *)

(** A request whose key is in the in-flight map or in the pending queue is
    dropped: the dashboard does not change at all. *)
Lemma enqueue_duplicate_dropped (e : Env) (request : RunRequest) (d : Dashboard) :
  is_Some (running (runner d) !! requestKey request)
  \/ requestKey request ∈ pendingKeys d ->
  enqueue e request d = d.
Proof.
  intros Hdup. unfold enqueue.
  assert (Hq : isQueuedOrRunning (requestKey request) (runner d) = true); [| rewrite Hq; reflexivity].
  unfold isQueuedOrRunning. apply orb_true_iff. destruct Hdup as [Hrun | Hpend].
  - left. apply bool_decide_eq_true_2, Hrun.
  - right. apply existsb_exists. unfold pendingKeys in Hpend.
    apply list_elem_of_In, in_map_iff in Hpend as (item & Hkey & Hin).
    exists item. split; [exact Hin | apply String.eqb_eq, Hkey].
Qed.

(** C1 on the code: the run-target command given twice for the same
    module and target, before the task of the first one has started,
    begins two executions under one key, because a terminal-mode request
    leaves the pending queue at dispatch and enters the in-flight map only
    when [executeTask] has resolved; in the same window a key can come to
    be in the pending queue and in the in-flight map at once, with more
    entries in flight than the cap allows. *)
Theorem C1_duplicate_execution :
  let key := getKey (id sampleModule) "all" in
  (startingKeys clickedOnce = [key]
   /\ pendingKeys clickedOnce = []
   /\ running (runner clickedOnce) !! key = None)
  /\ (startingKeys clickedTwice = [key; key]
      /\ fired (runner clickedTwice)
           = [mkRunUpdate (id sampleModule) "all" StRunning None;
              mkRunUpdate (id sampleModule) "all" StRunning None])
  /\ (pendingKeys queuedAndRunning = [key]
      /\ running (runner queuedAndRunning) !! key = Some (TaskEntry 7)
      /\ maxParallel (runner queuedAndRunning) = 1
      /\ inFlight queuedAndRunning = 2).
Proof.
  vm_compute. repeat split; reflexivity.
Qed.

(** * Further properties of the code *)

(** ** State store: updates addressed by module id *)

Lemma updateFirst_unknown (moduleId : string) (f : ModuleState -> ModuleState)
    (l : list ModuleState) :
  find (StateStore.hasId moduleId) l = None -> StateStore.updateFirst moduleId f l = l.
Proof.
  induction l as [| m l IH]; simpl; [reflexivity |].
  destruct (StateStore.hasId moduleId m); [discriminate |].
  intros Hnone. rewrite IH by exact Hnone. reflexivity.
Qed.

Lemma onModule_unknown (moduleId : string) (f : ModuleState -> ModuleState) (s : StateStore.t) :
  StateStore.getModuleState moduleId s = None -> StateStore.onModule moduleId f s = s.
Proof.
  intros Hnone. unfold StateStore.onModule.
  rewrite updateFirst_unknown by exact Hnone. destruct s; reflexivity.
Qed.

(** X1: every mutator that addresses a module by id leaves the store
    exactly as it is when no module state has that id. *)
Theorem X1_unknown_module_is_noop (s : StateStore.t) (moduleId : string) :
  StateStore.getModuleState moduleId s = None ->
  (forall g, StateStore.setModuleGenerator moduleId g s = s)
  /\ (forall b, StateStore.setNeedsConfigure moduleId b s = s)
  /\ (forall target b, StateStore.setAvailability moduleId target b s = s)
  /\ (forall target u, StateStore.updateRun moduleId target u s = s)
  /\ (forall u, StateStore.updateConfigure moduleId u s = s).
Proof.
  intros Hnone. repeat split; intros; apply onModule_unknown, Hnone.
Qed.

Lemma X1_unknown_module_is_noop_witness :
  let s := stateStore (sampleDashboard 4) in
  StateStore.updateRun "/ws:modules:other" "all" (runningPatch 5) s = s
  /\ StateStore.setAvailability "/ws:modules:other" "all" true s = s.
Proof.
  intros s.
  destruct (X1_unknown_module_is_noop s "/ws:modules:other") as (_ & _ & Hav & Hrun & _).
  - vm_compute. reflexivity.
  - split; [apply Hrun | apply Hav].
Defined.

Lemma spreadResult_fieldOf (o : RunObject) (name : string) :
  StateStore.spreadResult (fieldOf o name) = None.
Proof.
  unfold fieldOf.
  destruct (String.eqb name "status"); [reflexivity |].
  destruct (String.eqb name "exitCode"); [destruct (exitCode (run_result o)); reflexivity |].
  destruct (String.eqb name "startedAt"); [destruct (startedAt (run_result o)); reflexivity |].
  destruct (String.eqb name "finishedAt"); [destruct (finishedAt (run_result o)); reflexivity |].
  generalize 0%nat. induction (run_chars o) as [| c rest IH]; intros n; simpl; [reflexivity |].
  destruct (String.eqb name (indexName n)); [reflexivity | apply IH].
Qed.

(** What [runs[name]] shows as a run object comes from an own property,
    or from the prototype itself under the name [__proto__]. *)
Lemma spreadResult_getRun (r : Runs) (name : string) :
  StateStore.spreadResult (getRun r name)
    = if Obj.isProto name then run_result <$> proto r
      else StateStore.spreadResult (own r !! name).
Proof.
  unfold getRun. destruct (Obj.isProto name); [destruct (proto r); reflexivity |].
  destruct (own r !! name) as [value |]; [reflexivity |].
  destruct (proto r) as [o |]; simpl.
  - pose proof (spreadResult_fieldOf o name) as Hfield.
    destruct (fieldOf o name); [exact Hfield |]. destruct (Obj.isMember name); reflexivity.
  - destruct (Obj.isMember name); reflexivity.
Qed.

Lemma spreadResult_updateEntry (r : Runs) (target target' : string) (u : RunPatch) :
  StateStore.spreadResult (getRun (StateStore.updateEntry target u r) target')
    = if decide (target = target')
      then Some (StateStore.mergeRun (StateStore.spreadResult (getRun r target)) u)
      else StateStore.spreadResult (getRun r target').
Proof.
  rewrite (spreadResult_getRun _ target'), (spreadResult_getRun r target').
  unfold StateStore.updateEntry, assignRun.
  destruct (Obj.isProto target) eqn:Hp; simpl.
  - apply isProto_spec in Hp. subst target.
    destruct (Obj.isProto target') eqn:Hp'.
    + apply isProto_spec in Hp'. subst target'. rewrite decide_True by reflexivity. reflexivity.
    + rewrite decide_False; [reflexivity |]. intros <-. discriminate Hp'.
  - destruct (decide (target = target')) as [<- | Hne].
    + rewrite Hp, lookup_insert_eq. reflexivity.
    + destruct (Obj.isProto target'); [reflexivity |].
      rewrite lookup_insert_ne by exact Hne. reflexivity.
Qed.

Lemma runOf_updateRun (s : StateStore.t) (moduleId target : string) (u : RunPatch)
    (moduleId' target' : string) :
  runOf (StateStore.updateRun moduleId target u s) moduleId' target'
    = if decide (moduleId = moduleId' /\ target = target')
      then (fun _ => StateStore.mergeRun (runOf s moduleId target) u)
             <$> StateStore.getModuleState moduleId s
      else runOf s moduleId' target'.
Proof.
  unfold runOf, StateStore.updateRun.
  rewrite getModuleState_onModule by reflexivity.
  destruct (String.eqb_spec moduleId moduleId') as [<- | Hne].
  - destruct (StateStore.getModuleState moduleId s) as [m |]; simpl.
    + rewrite spreadResult_updateEntry.
      destruct (decide (target = target')) as [<- | Hnt].
      * rewrite decide_True by auto. reflexivity.
      * rewrite decide_False by tauto. reflexivity.
    + destruct (decide _); reflexivity.
  - rewrite decide_False by tauto.
    destruct (StateStore.getModuleState moduleId' s); reflexivity.
Qed.

(** X2: [updateRun] on a known module makes [runs[target]] the shallow
    merge of the run object that it showed before (if any) and the update.
    For a target other than [__proto__] this is an own property of the
    object, which keeps its other own properties and its prototype, so
    that [runs] reads the same under every other name; for the target
    [__proto__] no own property is written and the merged object becomes
    the prototype.  No other run of any module changes;
    merging the listener's [running] update and then its completion update
    leaves the start time of the first and the status, exit code and
    finish time of the second. *)
Theorem X2_updateRun_merges (s : StateStore.t) (moduleId target : string) (m : ModuleState) :
  StateStore.getModuleState moduleId s = Some m ->
  (forall u,
     runOf (StateStore.updateRun moduleId target u s) moduleId target
       = Some (StateStore.mergeRun (runOf s moduleId target) u))
  /\ (forall u,
        target <> "__proto__"%string ->
        moduleHas (StateStore.updateRun moduleId target u s) moduleId
          (fun after =>
             proto (runs after) = proto (runs m)
             /\ (exists o,
                   own (runs after) = <[target := VObject o]> (own (runs m))
                   /\ run_result o = StateStore.mergeRun (runOf s moduleId target) u)
             /\ forall target',
                  target' <> target -> getRun (runs after) target' = getRun (runs m) target'))
  /\ (forall u,
        target = "__proto__"%string ->
        moduleHas (StateStore.updateRun moduleId target u s) moduleId
          (fun after =>
             own (runs after) = own (runs m)
             /\ exists o,
                  proto (runs after) = Some o
                  /\ run_result o = StateStore.mergeRun (run_result <$> proto (runs m)) u))
  /\ (forall u moduleId' target',
        (moduleId', target') <> (moduleId, target) ->
        runOf (StateStore.updateRun moduleId target u s) moduleId' target'
          = runOf s moduleId' target')
  /\ (forall t1 t2 status exitCode,
        runOf (StateStore.updateRun moduleId target (completedPatch status exitCode t2)
                 (StateStore.updateRun moduleId target (runningPatch t1) s))
              moduleId target
          = Some (mkRunResult status exitCode (Some t1) (Some t2))).
Proof.
  intros Hm.
  assert (Hone : forall u,
             runOf (StateStore.updateRun moduleId target u s) moduleId target
               = Some (StateStore.mergeRun (runOf s moduleId target) u)).
  { intros u. rewrite runOf_updateRun. rewrite decide_True by auto.
    rewrite Hm. reflexivity. }
  assert (Hafter : forall u,
             StateStore.getModuleState moduleId (StateStore.updateRun moduleId target u s)
               = Some (StateStore.with_runs (StateStore.updateEntry target u) m)).
  { intros u. unfold StateStore.updateRun.
    rewrite getModuleState_onModule by reflexivity. rewrite Hm, String.eqb_refl. reflexivity. }
  assert (Hread : runOf s moduleId target = StateStore.spreadResult (getRun (runs m) target)).
  { unfold runOf. rewrite Hm. reflexivity. }
  split; [exact Hone |]. split; [| split; [| split]].
  - intros u Hne. eexists. split; [apply Hafter |]. simpl.
    unfold StateStore.updateEntry, assignRun. rewrite (isProto_false _ Hne). simpl.
    split; [reflexivity |]. split.
    + eexists. split; [reflexivity |]. simpl. rewrite Hread. reflexivity.
    + intros target' Hdiff. unfold getRun. simpl.
      rewrite lookup_insert_ne by congruence. reflexivity.
  - intros u ->. eexists. split; [apply Hafter |]. simpl.
    split; [reflexivity |]. eexists. split; [reflexivity |]. simpl.
    destruct (proto (runs m)); reflexivity.
  - intros u moduleId' target' Hne. rewrite runOf_updateRun.
    rewrite decide_False; [reflexivity |]. intros [-> ->]. apply Hne. reflexivity.
  - intros t1 t2 status exitCode. rewrite runOf_updateRun.
    rewrite decide_True by auto. rewrite Hafter, Hone. reflexivity.
Qed.

Lemma X2_updateRun_merges_witness :
  runOf (StateStore.updateRun (id sampleModule) "all" (completedPatch StFailed (Some 2) 30)
           (StateStore.updateRun (id sampleModule) "all" (runningPatch 10)
              (stateStore (sampleDashboard 4))))
        (id sampleModule) "all"
    = Some (mkRunResult StFailed (Some 2) (Some 10) (Some 30)).
Proof.
  refine (proj2 (proj2 (proj2 (proj2 (X2_updateRun_merges (stateStore (sampleDashboard 4))
                          (id sampleModule) "all" sampleModuleState _)))) 10 30 StFailed (Some 2)).
  vm_compute. reflexivity.
Defined.

(** ** State store: the two queries *)

(** X3: [getFailedTargets] lists exactly the pairs of a module and a
    target for which that module's [runs] object has an own property that
    is a run object with status [failed]. *)
Theorem X3_getFailedTargets_exact (s : StateStore.t) (m : ModuleInfo) (target : string) :
  (m, target) ∈ StateStore.getFailedTargets s
  <-> exists moduleState o,
        moduleState ∈ StateStore.modules s
        /\ ms_module moduleState = m
        /\ own (runs moduleState) !! target = Some (VObject o)
        /\ status (run_result o) = StFailed.
Proof.
  unfold StateStore.getFailedTargets. rewrite list_elem_of_In, in_flat_map. split.
  - intros (moduleState & Hin & Hpair).
    apply in_map_iff in Hpair as ([k value] & Heq & Hkv). simpl in Heq.
    injection Heq as <- <-.
    apply filter_In in Hkv as [Hkv Hst]. simpl in Hst.
    apply list_elem_of_In, elem_of_map_to_list in Hkv.
    destruct value as [o | | | |]; try discriminate Hst.
    apply bool_decide_eq_true in Hst.
    exists moduleState, o. repeat split; try assumption. apply list_elem_of_In, Hin.
  - intros (moduleState & o & Hin & Hm & Hrun & Hst).
    exists moduleState. split; [apply list_elem_of_In, Hin |].
    apply in_map_iff. exists (target, VObject o). simpl. split; [rewrite Hm; reflexivity |].
    apply filter_In. split; [apply list_elem_of_In, elem_of_map_to_list, Hrun |].
    simpl. apply bool_decide_eq_true, Hst.
Qed.

(** X4: [getAllTargets] lists exactly the pairs of a module and a target
    of the current target list whose availability flag in that module's
    state reads as true: the flag is [true], or the object has no such flag
    and the name is one that [Object.prototype] defines. *)
Theorem X4_getAllTargets_exact (s : StateStore.t) (m : ModuleInfo) (target : string) :
  (m, target) ∈ StateStore.getAllTargets s
  <-> exists moduleState,
        moduleState ∈ StateStore.modules s
        /\ ms_module moduleState = m
        /\ target ∈ targetNames (StateStore.targets s)
        /\ readsTrue (availability moduleState) target.
Proof.
  assert (Hflag : forall moduleState t,
             StateStore.isAvailable moduleState t = true
             <-> readsTrue (availability moduleState) t).
  { intros moduleState t. apply truthy_spec. }
  unfold StateStore.getAllTargets. rewrite list_elem_of_In, in_flat_map. split.
  - intros (moduleState & Hin & Hpair).
    apply in_map_iff in Hpair as (t & Heq & Ht). injection Heq as <- <-.
    apply list_elem_of_In, list_elem_of_filter in Ht as [Hav Ht].
    exists moduleState. split; [apply list_elem_of_In, Hin |]. split; [reflexivity |].
    split; [| apply Hflag, Hav].
    unfold targetNames. apply list_elem_of_In, in_map, list_elem_of_In, Ht.
  - intros (moduleState & Hin & Hm & Ht & Hav).
    exists moduleState. split; [apply list_elem_of_In, Hin |].
    unfold targetNames in Ht. apply list_elem_of_In, in_map_iff in Ht as (t & <- & Ht).
    apply in_map_iff. exists t. split; [rewrite Hm; reflexivity |].
    apply list_elem_of_In, list_elem_of_filter. split; [apply Hflag, Hav | apply list_elem_of_In, Ht].
Qed.

Lemma availableFor_setAvailability_other (moduleId target : string) (b : bool)
    (s : StateStore.t) (moduleId' target' : string) :
  (moduleId', target') <> (moduleId, target) ->
  availableFor (StateStore.setAvailability moduleId target b s) moduleId' target'
    = availableFor s moduleId' target'.
Proof.
  intros Hne. unfold availableFor, StateStore.setAvailability.
  rewrite getModuleState_onModule by reflexivity.
  destruct (String.eqb_spec moduleId moduleId') as [<- | Hid].
  - destruct (StateStore.getModuleState moduleId s) as [m |]; simpl; [| reflexivity].
    unfold StateStore.isAvailable. simpl. rewrite truthy_assignFlag.
    rewrite decide_False; [reflexivity |]. intros [-> _]. apply Hne. reflexivity.
  - destruct (StateStore.getModuleState moduleId' s); reflexivity.
Qed.

Lemma updateFirst_same (moduleId : string) (f : ModuleState -> ModuleState)
    (l : list ModuleState) :
  (forall m, f m = m) -> StateStore.updateFirst moduleId f l = l.
Proof.
  intros Hf. induction l as [| m l IH]; simpl; [reflexivity |].
  destruct (StateStore.hasId moduleId m); [rewrite Hf | rewrite IH]; reflexivity.
Qed.

(** X5: [setAvailability] on a known module, for a target other than
    [__proto__], gives the module the own flag with the given value, so
    that the flag reads as that value; for the target [__proto__] the
    assignment is ignored and the store stays as it is, the flag reading
    as true.  In both cases no other flag and no run changes. *)
Theorem X5_setAvailability_sets_one_flag (s : StateStore.t) (moduleId target : string)
    (b : bool) (m : ModuleState) :
  StateStore.getModuleState moduleId s = Some m ->
  (target <> "__proto__"%string ->
   moduleHas (StateStore.setAvailability moduleId target b s) moduleId
     (fun after => availability after = <[target := b]> (availability m))
   /\ availableFor (StateStore.setAvailability moduleId target b s) moduleId target = b)
  /\ (target = "__proto__"%string ->
      StateStore.setAvailability moduleId target b s = s
      /\ availableFor s moduleId target = true)
  /\ (forall moduleId' target',
        (moduleId', target') <> (moduleId, target) ->
        availableFor (StateStore.setAvailability moduleId target b s) moduleId' target'
          = availableFor s moduleId' target')
  /\ (forall moduleId' target',
        runOf (StateStore.setAvailability moduleId target b s) moduleId' target'
          = runOf s moduleId' target').
Proof.
  intros Hm. split; [| split; [| split]].
  - intros Hne. split.
    + eexists. split.
      * unfold StateStore.setAvailability. rewrite getModuleState_onModule by reflexivity.
        rewrite Hm, String.eqb_refl. reflexivity.
      * simpl. unfold Obj.assignFlag. rewrite (isProto_false _ Hne). reflexivity.
    + rewrite availableFor_setAvailability, Hm. rewrite decide_True; [reflexivity |].
      split; [reflexivity | exact Hne].
  - intros ->. split.
    + unfold StateStore.setAvailability, StateStore.onModule.
      rewrite updateFirst_same; [destruct s; reflexivity |].
      intros [? ? ? ? ? ?]. reflexivity.
    + unfold availableFor. rewrite Hm. reflexivity.
  - intros moduleId' target'. apply availableFor_setAvailability_other.
  - intros moduleId' target'. unfold runOf, StateStore.setAvailability.
    rewrite getModuleState_onModule by reflexivity.
    destruct (StateStore.getModuleState moduleId' s); simpl; [| reflexivity].
    destruct (String.eqb moduleId moduleId'); reflexivity.
Qed.

Lemma X5_setAvailability_sets_one_flag_witness :
  let s := StateStore.setAvailability (id sampleModule) "all" false (stateStore (sampleDashboard 4)) in
  availableFor s (id sampleModule) "all" = false
  /\ availableFor s (id sampleModule) "flash" = true
  /\ StateStore.setAvailability (id sampleModule) "__proto__" false (stateStore (sampleDashboard 4))
       = stateStore (sampleDashboard 4).
Proof.
  intros s.
  destruct (X5_setAvailability_sets_one_flag (stateStore (sampleDashboard 4))
              (id sampleModule) "all" false sampleModuleState)
    as (Hset & _ & Hother & _); [vm_compute; reflexivity |].
  destruct (X5_setAvailability_sets_one_flag (stateStore (sampleDashboard 4))
              (id sampleModule) "__proto__" false sampleModuleState)
    as (_ & Hproto & _); [vm_compute; reflexivity |].
  split; [apply Hset; discriminate |]. split.
  - unfold s. rewrite Hother by (intros [=]). vm_compute. reflexivity.
  - apply Hproto. reflexivity.
Defined.

(** ** Scheduler: queueing and dispatch *)

(** X6: [enqueue] drops a request whose key is in the in-flight map or
    belongs to a request of the pending queue: nothing changes, no update
    is fired and the dispatch loop is not run. *)
Theorem X6_enqueue_drops_duplicates (e : Env) (request : RunRequest) (d : Dashboard) :
  is_Some (running (runner d) !! requestKey request)
  \/ requestKey request ∈ pendingKeys d ->
  enqueue e request d = d.
Proof. apply enqueue_duplicate_dropped. Qed.

Lemma X6_enqueue_drops_duplicates_witness :
  enqueue sampleEnv (terminalRequest "all") silentInFlight = silentInFlight
  /\ enqueue sampleEnv (silentRequest "all") allQueued = allQueued.
Proof.
  split.
  - apply X6_enqueue_drops_duplicates. left. vm_compute. eauto.
  - apply X6_enqueue_drops_duplicates. right. vm_compute. constructor.
Defined.

Lemma kickLoop_fifo (e : Env) (queue : list RunRequest) (d : Dashboard) :
  pending (runner d) = queue ->
  exists n,
    pending (runner (kickLoop e queue d)) = drop n queue
    /\ fired (runner (kickLoop e queue d)) = fired (runner d) ++ map runningUpdateOf (take n queue)
    /\ (drop n queue = [] \/ maxParallel (runner (kickLoop e queue d)) <= inFlight (kickLoop e queue d)).
Proof.
  revert d. induction queue as [| request rest IH]; intros d Hq; simpl.
  - exists 0%nat. simpl. rewrite app_nil_r. auto.
  - destruct (Z.ltb_spec (Z.of_nat (size (running (runner d)))) (maxParallel (runner d)))
      as [Hlt | Hge].
    + set (d1 := on_runner (on_pending (fun _ => rest)) d).
      destruct (IH (execute e request d1)) as (n & Hpend & Hfired & Hstop).
      { rewrite execute_pending. reflexivity. }
      exists (S n). simpl. split; [exact Hpend |]. split; [| exact Hstop].
      rewrite Hfired, execute_fired. simpl. rewrite <- app_assoc. reflexivity.
    + exists 0%nat. simpl. rewrite app_nil_r. split; [exact Hq |]. split; [reflexivity |].
      right. unfold inFlight. lia.
Qed.

(** X7: the dispatch loop is first-in first-out: it takes some number of
    requests from the front of the pending queue, fires their [running]
    updates in queue order and leaves the rest of the queue in order; it
    stops only when the queue is empty or the number of in-flight entries
    has reached the cap. *)
Theorem X7_kick_is_fifo (e : Env) (d : Dashboard) :
  exists n,
    pending (runner (kick e d)) = drop n (pending (runner d))
    /\ fired (runner (kick e d))
         = fired (runner d) ++ map runningUpdateOf (take n (pending (runner d)))
    /\ (pending (runner (kick e d)) = []
        \/ maxParallel (runner (kick e d)) <= inFlight (kick e d)).
Proof.
  destruct (kickLoop_fifo e (pending (runner d)) d eq_refl) as (n & Hpend & Hfired & Hstop).
  exists n. unfold kick. split; [exact Hpend |]. split; [exact Hfired |].
  rewrite Hpend. exact Hstop.
Qed.

(** X8: [stopAll] of the controller empties the pending queue and the four
    queue maps, fires no update and changes neither the in-flight map nor
    the store; it terminates exactly the executions of the task entries of
    the in-flight map, never a silent entry; after it the dispatch loop
    starts nothing. *)
Theorem X8_stopAll (e : Env) (d : Dashboard) :
  pending (runner (stopAll d)) = []
  /\ running (runner (stopAll d)) = running (runner d)
  /\ fired (runner (stopAll d)) = fired (runner d)
  /\ stateStore (stopAll d) = stateStore d
  /\ (runAllQueues (stopAll d) = ∅ /\ runAllActive (stopAll d) = ∅
      /\ runModuleQueues (stopAll d) = ∅ /\ runModuleActive (stopAll d) = ∅)
  /\ (forall x,
        x ∈ terminated (runner (stopAll d))
        <-> x ∈ terminated (runner d)
            \/ exists key, running (runner d) !! key = Some (TaskEntry x))
  /\ kick e (stopAll d) = stopAll d.
Proof.
  repeat split; try reflexivity.
  - simpl. rewrite elem_of_app. intros [Hold | Hnew]; [left; exact Hold | right].
    unfold taskExecutions in Hnew. apply list_elem_of_In, in_flat_map in Hnew
      as ([key entry] & Hkv & Hx).
    apply list_elem_of_In, elem_of_map_to_list in Hkv. simpl in Hx.
    destruct entry as [y |]; [| destruct Hx].
    destruct Hx as [<- | []]. exists key. exact Hkv.
  - simpl. rewrite elem_of_app. intros [Hold | (key & Hkey)]; [left; exact Hold | right].
    unfold taskExecutions. apply list_elem_of_In, in_flat_map.
    exists (key, TaskEntry x). split; [| simpl; left; reflexivity].
    apply list_elem_of_In, elem_of_map_to_list, Hkey.
Qed.

(** ** Scheduler: captured output and classification at the end of a task *)

Lemma substring_length_le (n m : nat) (s : string) :
  (String.length (String.substring n m s) <= m)%nat.
Proof.
  revert n m. induction s as [| c s IH]; intros n m.
  - destruct n, m; simpl; lia.
  - destruct n as [| n]; [| simpl; apply IH].
    destruct m as [| m]; simpl; [lia |]. specialize (IH 0%nat m). lia.
Qed.

(** X9: the output kept for a key never exceeds [maxOutputSize]
    characters; while the accumulated text fits, it is the old text
    followed by the new data. *)
Theorem X9_taskOutput_bounded (moduleId target data : string) (d : Dashboard) :
  moduleId <> EmptyString ->
  target <> EmptyString ->
  let key := getKey moduleId target in
  let old := default EmptyString (taskOutput (runner d) !! key) in
  exists kept,
    taskOutput (runner (handleTaskOutput moduleId target data d)) !! key = Some kept
    /\ (N.of_nat (String.length kept) <= maxOutputSize)%N
    /\ ((N.of_nat (String.length (String.append old data)) <= maxOutputSize)%N ->
        kept = String.append old data).
Proof.
  intros Hm Ht key old. unfold handleTaskOutput.
  destruct moduleId; [contradiction |]. destruct target; [contradiction |].
  cbn [Js.isEmpty orb]. fold key. fold old.
  set (next := String.append old data).
  destruct (N.ltb_spec maxOutputSize (N.of_nat (String.length next))) as [Hbig | Hfit].
  - eexists. split; [simpl; apply lookup_insert_eq |]. split; [| lia].
    pose proof (substring_length_le
                  (N.to_nat (N.of_nat (String.length next) - maxOutputSize))
                  (N.to_nat maxOutputSize) next) as Hle.
    lia.
  - exists next. split; [simpl; apply lookup_insert_eq |]. split; [exact Hfit | reflexivity].
Qed.

Lemma X9_taskOutput_bounded_witness :
  exists kept,
    taskOutput (runner (handleTaskOutput (id sampleModule) "all" "warning: w" taskRunning))
      !! getKey (id sampleModule) "all" = Some kept
    /\ (N.of_nat (String.length kept) <= maxOutputSize)%N.
Proof.
  destruct (X9_taskOutput_bounded (id sampleModule) "all" "warning: w" taskRunning)
    as (kept & Hkept & Hlen & _).
  - discriminate.
  - discriminate.
  - exists kept. split; [exact Hkept | exact Hlen].
Defined.

Lemma handleTaskEndFinish_fired (e : Env) (t : TaskEnd) (status : TargetRunStatus) (d : Dashboard) :
  exists later,
    fired (runner (handleTaskEndFinish e t status d))
      = fired (runner d)
        ++ mkRunUpdate (end_moduleId t) (end_target t)
             (reportedStatus status (end_output t)) (end_exitCode t) :: later
    /\ Forall isRunningUpdate later.
Proof.
  unfold handleTaskEndFinish. fold (reportedStatus status (end_output t)).
  set (u := mkRunUpdate _ _ _ _).
  set (d1 := if _ && _ then closeTaskTerminal e _ d else d).
  assert (H1 : fired (runner d1) = fired (runner d)).
  { unfold d1, closeTaskTerminal. destruct (_ && _); [| reflexivity].
    destruct (taskNames (runner d) !! _) as [taskName |]; [| reflexivity].
    destruct (Js.isEmpty taskName); [reflexivity |]. destruct (existsb _ _); reflexivity. }
  destruct (fireCompleted_fired e u d1) as (l1 & Hf1 & F1).
  set (d2 := on_runner _ (fireCompleted e u d1)).
  assert (Hd2 : fired (runner d2) = fired (runner (fireCompleted e u d1))) by reflexivity.
  destruct (announces_kick e d2) as (l2 & Hf2 & F2).
  exists (l1 ++ l2). split; [| apply Forall_app; split; assumption].
  rewrite Hf2, Hd2, Hf1, H1. simpl. rewrite <- app_assoc. reflexivity.
Qed.

(** X10: at the end of a task process with an exit code other than 0 (or
    none) the completion update is fired at once with status [failed] and
    that exit code, without waiting for diagnostics; with exit code 0 and a
    known module path nothing is fired until the diagnostics have settled,
    and then errors give [failed] and warnings without errors give
    [warning] whatever the captured output says, which is consulted only
    when the diagnostics report neither. *)
Theorem X10_task_end_classification (e : Env) (mid tgt : string) (d : Dashboard) :
  mid <> EmptyString ->
  tgt <> EmptyString ->
  (forall exitCode,
     exitCode <> Some 0 ->
     exists later,
       fired (runner (handleTaskEnd e mid tgt exitCode d))
         = fired (runner d) ++ mkRunUpdate mid tgt StFailed exitCode :: later
       /\ Forall isRunningUpdate later)
  /\ (forall modulePath,
        modulePaths (runner d) !! getKey mid tgt = Some modulePath ->
        modulePath <> EmptyString ->
        fired (runner (handleTaskEnd e mid tgt (Some 0) d)) = fired (runner d)
        /\ settling (runner (handleTaskEnd e mid tgt (Some 0) d))
             = settling (runner d)
               ++ [mkTaskEnd mid tgt (Some 0) modulePath
                     (default EmptyString (taskOutput (runner d) !! getKey mid tgt))]
        /\ running (runner (handleTaskEnd e mid tgt (Some 0) d))
             = delete (getKey mid tgt) (running (runner d)))
  /\ (forall t errors warnings d',
        exists later,
          fired (runner (handleTaskEndFinish e t (resolveDiagnosticsStatus errors warnings) d'))
            = fired (runner d')
              ++ mkRunUpdate (end_moduleId t) (end_target t)
                   (if 0 <? errors then StFailed
                    else if 0 <? warnings then StWarning
                    else if Js.isEmpty (end_output t) then StSuccess
                    else resolveOutputStatus 0 (end_output t))
                   (end_exitCode t) :: later
          /\ Forall isRunningUpdate later).
Proof.
  intros Hm Ht.
  assert (Hem : Js.isEmpty mid = false) by (destruct mid; [contradiction | reflexivity]).
  assert (Het : Js.isEmpty tgt = false) by (destruct tgt; [contradiction | reflexivity]).
  split; [| split].
  - intros exitCode Hne. unfold handleTaskEnd. rewrite Hem, Het. cbn [orb].
    rewrite bool_decide_eq_false_2 by exact Hne.
    match goal with
    | |- context [handleTaskEndFinish e ?t ?st ?d0] =>
        destruct (handleTaskEndFinish_fired e t st d0) as (later & Hf & Fl)
    end.
    exists later. split; [exact Hf | exact Fl].
  - intros modulePath Hpath Hne. unfold handleTaskEnd. rewrite Hem, Het. cbn [orb].
    rewrite bool_decide_eq_true_2 by reflexivity.
    cbn [runner on_runner modulePaths on_running taskOutput].
    rewrite Hpath. cbn [default]. destruct modulePath; [contradiction |].
    cbn [Js.isEmpty negb]. repeat split; reflexivity.
  - intros t errors warnings d'.
    destruct (handleTaskEndFinish_fired e t (resolveDiagnosticsStatus errors warnings) d')
      as (later & Hf & Fl).
    exists later. split; [| exact Fl]. rewrite Hf. repeat f_equal.
    unfold reportedStatus, resolveDiagnosticsStatus.
    destruct (0 <? errors); [reflexivity |]. destruct (0 <? warnings); [reflexivity |].
    simpl. destruct (Js.isEmpty (end_output t)); reflexivity.
Qed.

Lemma X10_task_end_classification_witness :
  (exists later,
     fired (runner (handleTaskEnd sampleEnv (id sampleModule) "all" (Some 2) taskRunning))
       = fired (runner taskRunning)
         ++ mkRunUpdate (id sampleModule) "all" StFailed (Some 2) :: later
     /\ Forall isRunningUpdate later)
  /\ fired (runner (handleTaskEnd sampleEnv (id sampleModule) "all" (Some 0) taskRunning))
       = fired (runner taskRunning).
Proof.
  destruct (X10_task_end_classification sampleEnv (id sampleModule) "all" taskRunning)
    as (Hfailed & Hwait & _); [discriminate | discriminate |].
  split.
  - apply Hfailed. discriminate.
  - apply (Hwait "/ws/modules/m"%string); [vm_compute; reflexivity | discriminate].
Defined.

(** ** Controller: the per-module queues *)

Lemma shiftAvailable_spec (available : string -> bool) (queue : list string) :
  match shiftAvailable available queue with
  | Some (t, rest) =>
      exists skipped,
        queue = skipped ++ t :: rest
        /\ t <> EmptyString
        /\ available t = true
        /\ Forall (fun s => s = EmptyString \/ available s = false) skipped
  | None => Forall (fun s => s = EmptyString \/ available s = false) queue
  end.
Proof.
  induction queue as [| t queue IH]; simpl; [constructor |].
  destruct (negb (Js.isEmpty t) && available t) eqn:Hok.
  - apply andb_true_iff in Hok as [Hne Hav]. exists []. simpl.
    repeat split; [| exact Hav | constructor].
    intros ->. discriminate Hne.
  - assert (Hskip : t = EmptyString \/ available t = false).
    { apply andb_false_iff in Hok as [Hne | Hav]; [left | right; exact Hav].
      destruct t; [reflexivity | discriminate Hne]. }
    destruct (shiftAvailable available queue) as [[t' rest] |].
    + destruct IH as (skipped & -> & Hne & Hav & Hall).
      exists (t :: skipped). repeat split; try assumption. constructor; assumption.
    + constructor; assumption.
Qed.

Lemma sameQueues_trans (d1 d2 d3 : Dashboard) :
  sameQueues d1 d2 -> sameQueues d2 d3 -> sameQueues d1 d3.
Proof.
  intros (A1 & B1 & C1 & D1) (A2 & B2 & C2 & D2). repeat split; congruence.
Qed.

Lemma sameQueues_execute (e : Env) (request : RunRequest) (d : Dashboard) :
  sameQueues d (execute e request d).
Proof.
  unfold execute, executeInTerminal, fireRunning, pushState.
  destruct (runInTerminal request) as [[|] |]; repeat split; reflexivity.
Qed.

Lemma sameQueues_kickLoop (e : Env) (queue : list RunRequest) (d : Dashboard) :
  sameQueues d (kickLoop e queue d).
Proof.
  revert d. induction queue as [| request rest IH]; intros d; simpl;
    [repeat split; reflexivity |].
  destruct (_ <? _); [| repeat split; reflexivity].
  eapply sameQueues_trans; [| apply IH].
  eapply sameQueues_trans; [| apply sameQueues_execute]. repeat split; reflexivity.
Qed.

Lemma sameQueues_enqueueRun (e : Env) (m : ModuleInfo) (target : string) (ac it : option bool)
    (d : Dashboard) :
  sameQueues d (enqueueRun e m target ac it d).
Proof.
  unfold enqueueRun.
  destruct (StateStore.getModuleState (id m) (stateStore d)); [| repeat split; reflexivity].
  destruct (negb _); [repeat split; reflexivity |]. unfold enqueue.
  destruct (isQueuedOrRunning _ _); [repeat split; reflexivity |]. unfold kick.
  eapply sameQueues_trans; [| apply sameQueues_kickLoop]. repeat split; reflexivity.
Qed.

(** X11: when no target of a module is active in the run-all sequence,
    [startNextRunAllTarget] takes the first target of the module's queue
    that is non-empty and whose availability flag reads as true, records
    it as active, leaves the targets after it in the queue in order, and
    skips only targets that are empty or whose flag does not read as true;
    when the queue holds no such target the queue is removed and nothing
    becomes active.  (A flag reads as true when it is [true], or when the
    object has no such flag and the name is one that [Object.prototype]
    defines.) *)
Theorem X11_run_all_takes_first_available (e : Env) (mid : string) (d : Dashboard)
    (queue : list string) (moduleState : ModuleState) :
  runAllActive d !! mid = None ->
  runAllQueues d !! mid = Some queue ->
  StateStore.getModuleState mid (stateStore d) = Some moduleState ->
  let d' := startNextRunAllTarget e mid d in
  (exists skipped t rest,
     queue = skipped ++ t :: rest
     /\ t <> EmptyString
     /\ readsTrue (availability moduleState) t
     /\ Forall (fun s => s = EmptyString \/ ~ readsTrue (availability moduleState) s) skipped
     /\ runAllActive d' !! mid = Some t
     /\ runAllQueues d' !! mid = Some rest)
  \/ (Forall (fun s => s = EmptyString \/ ~ readsTrue (availability moduleState) s) queue
      /\ runAllActive d' !! mid = None
      /\ runAllQueues d' !! mid = None
      /\ runner d' = runner d).
Proof.
  intros Hidle Hqueue Hm d'. subst d'. unfold startNextRunAllTarget.
  rewrite Hidle, Hqueue, Hm. rewrite bool_decide_eq_false_2 by (intros [x Hx]; discriminate).
  assert (Hskip : forall l,
             Forall (fun s => s = EmptyString \/ StateStore.isAvailable moduleState s = false) l ->
             Forall (fun s => s = EmptyString \/ ~ readsTrue (availability moduleState) s) l).
  { intros l Hl. eapply Forall_impl; [exact Hl |]. intros s [Hs | Hs]; [left; exact Hs |].
    right. intros Hread. apply truthy_spec in Hread.
    unfold StateStore.isAvailable in Hs. congruence. }
  pose proof (shiftAvailable_spec (StateStore.isAvailable moduleState) queue) as Hspec.
  destruct (shiftAvailable (StateStore.isAvailable moduleState) queue) as [[t rest] |].
  - left. destruct Hspec as (skipped & Hq & Hne & Hav & Hall).
    exists skipped, t, rest.
    match goal with
    | |- context [enqueueRun e ?m ?t ?ac ?it ?d1] =>
        destruct (sameQueues_enqueueRun e m t ac it d1) as (HQ & HA & _)
    end.
    rewrite HQ, HA. simpl. rewrite !lookup_insert_eq.
    repeat split; try assumption; [apply truthy_spec, Hav | apply Hskip, Hall].
  - right. split; [apply Hskip, Hspec |]. simpl. rewrite lookup_delete_eq.
    split; [exact Hidle |]. split; reflexivity.
Qed.

Lemma X11_run_all_takes_first_available_witness :
  let d' := startNextRunAllTarget sampleEnv (id sampleModule) runAllWaiting in
  (exists skipped t rest,
     ["lint"; ""; "flash"; "all"]%string = skipped ++ t :: rest
     /\ t <> EmptyString
     /\ readsTrue (availability sampleModuleState) t
     /\ Forall (fun s => s = EmptyString \/ ~ readsTrue (availability sampleModuleState) s) skipped
     /\ runAllActive d' !! id sampleModule = Some t
     /\ runAllQueues d' !! id sampleModule = Some rest)
  \/ (Forall (fun s => s = EmptyString \/ ~ readsTrue (availability sampleModuleState) s)
             ["lint"; ""; "flash"; "all"]%string
      /\ runAllActive d' !! id sampleModule = None
      /\ runAllQueues d' !! id sampleModule = None
      /\ runner d' = runner runAllWaiting).
Proof.
  apply (X11_run_all_takes_first_available sampleEnv (id sampleModule) runAllWaiting);
    vm_compute; reflexivity.
Defined.

(** ** Controller: run all targets of one module *)

Lemma isRunningIn_updateRun_keeps (s : StateStore.t) (mid tgt : string) (n : Z)
    (mid' tgt' : string) :
  isRunningIn s mid' tgt' -> isRunningIn (StateStore.updateRun mid tgt (runningPatch n) s) mid' tgt'.
Proof.
  intros (result & Hrun & Hst). unfold isRunningIn. rewrite runOf_updateRun.
  destruct (decide (mid = mid' /\ tgt = tgt')) as [[-> ->] | _]; [| eauto].
  unfold runOf in Hrun.
  destruct (StateStore.getModuleState mid' s) as [m |]; [| discriminate]. simpl.
  eexists. split; reflexivity.
Qed.

Lemma isRunningIn_updateRun_sets (s : StateStore.t) (mid tgt : string) (n : Z) :
  is_Some (StateStore.getModuleState mid s) ->
  isRunningIn (StateStore.updateRun mid tgt (runningPatch n) s) mid tgt.
Proof.
  intros [m Hm]. unfold isRunningIn. rewrite runOf_updateRun.
  rewrite decide_True by auto. rewrite Hm. simpl. eexists. split; reflexivity.
Qed.

Lemma getModuleState_updateRun_known (s : StateStore.t) (mid tgt : string) (u : RunPatch)
    (mid' : string) :
  is_Some (StateStore.getModuleState mid' s) ->
  is_Some (StateStore.getModuleState mid' (StateStore.updateRun mid tgt u s)).
Proof.
  intros [m Hm]. unfold StateStore.updateRun.
  rewrite getModuleState_onModule by reflexivity. rewrite Hm. simpl. eauto.
Qed.

Lemma keepsRunningStatus_refl (d : Dashboard) : keepsRunningStatus d d.
Proof. intros mid tgt H. exact H. Qed.

Lemma keepsRunningStatus_trans (d1 d2 d3 : Dashboard) :
  keepsRunningStatus d1 d2 -> keepsRunningStatus d2 d3 -> keepsRunningStatus d1 d3.
Proof. intros H12 H23 mid tgt H. apply H23, H12, H. Qed.

Lemma execute_store (e : Env) (request : RunRequest) (d : Dashboard) :
  stateStore (execute e request d)
    = StateStore.updateRun (id (module request)) (target request) (runningPatch (now e))
        (stateStore d).
Proof.
  unfold execute, executeInTerminal, fireRunning, pushState.
  destruct (runInTerminal request) as [[|] |]; reflexivity.
Qed.

Lemma keepsRunningStatus_kickLoop (e : Env) (queue : list RunRequest) (d : Dashboard) :
  keepsRunningStatus d (kickLoop e queue d).
Proof.
  revert d. induction queue as [| request rest IH]; intros d; simpl;
    [apply keepsRunningStatus_refl |].
  destruct (_ <? _); [| apply keepsRunningStatus_refl].
  eapply keepsRunningStatus_trans; [| apply IH].
  intros mid tgt H. rewrite execute_store. apply isRunningIn_updateRun_keeps. exact H.
Qed.

Lemma keepsRunningStatus_enqueueRun (e : Env) (m : ModuleInfo) (tgt : string)
    (ac it : option bool) (d : Dashboard) :
  keepsRunningStatus d (enqueueRun e m tgt ac it d).
Proof.
  unfold enqueueRun.
  destruct (StateStore.getModuleState (id m) (stateStore d)); [| apply keepsRunningStatus_refl].
  destruct (negb _); [apply keepsRunningStatus_refl |]. unfold enqueue.
  destruct (isQueuedOrRunning _ _); [apply keepsRunningStatus_refl |]. unfold kick.
  eapply keepsRunningStatus_trans; [| apply keepsRunningStatus_kickLoop].
  intros mid t H. exact H.
Qed.

Lemma keepsRunningStatus_startNextModuleTarget (e : Env) (m : ModuleInfo) (d : Dashboard) :
  keepsRunningStatus d (startNextModuleTarget e m d).
Proof.
  unfold startNextModuleTarget.
  destruct (bool_decide _); [apply keepsRunningStatus_refl |].
  destruct (runModuleQueues d !! id m) as [queue |]; [| apply keepsRunningStatus_refl].
  destruct (shiftAvailable _ queue) as [[nextTarget rest] |];
    [| intros mid t H; exact H].
  eapply keepsRunningStatus_trans; [| apply keepsRunningStatus_enqueueRun].
  intros mid t H. exact H.
Qed.

Lemma mark_running_fold (mid : string) (n : Z) (ts : list string) (d : Dashboard) (tgt : string) :
  is_Some (StateStore.getModuleState mid (stateStore d)) ->
  tgt ∈ ts \/ isRunningIn (stateStore d) mid tgt ->
  isRunningIn
    (stateStore
       (fold_left (fun d t => on_stateStore (StateStore.updateRun mid t (runningPatch n)) d) ts d))
    mid tgt.
Proof.
  revert d. induction ts as [| t ts IH]; intros d Hknown Hin; simpl.
  - destruct Hin as [Hin | Hd]; [inversion Hin | exact Hd].
  - apply IH.
    + simpl. apply getModuleState_updateRun_known, Hknown.
    + simpl. destruct Hin as [Hin | Hd].
      * apply elem_of_cons in Hin as [-> | Hin]; [| left; exact Hin].
        right. apply isRunningIn_updateRun_sets, Hknown.
      * right. apply isRunningIn_updateRun_keeps, Hd.
Qed.

(** X12: [runTargetForModule] on a known module marks every available
    target of the module as running in the store at once, whether or not
    its request has been dispatched; a following [stopAll] empties the
    queues but leaves these targets shown as running. *)
Theorem X12_runTargetForModule_marks_running (e : Env) (mid : string) (d : Dashboard)
    (moduleState : ModuleState) (tgt : string) :
  StateStore.getModuleState mid (stateStore d) = Some moduleState ->
  tgt ∈ availableTargets moduleState (StateStore.targets (stateStore d)) ->
  isRunningIn (stateStore (runTargetForModule e mid d)) mid tgt
  /\ isRunningIn (stateStore (stopAll (runTargetForModule e mid d))) mid tgt
  /\ pending (runner (stopAll (runTargetForModule e mid d))) = []
  /\ runModuleQueues (stopAll (runTargetForModule e mid d)) = ∅.
Proof.
  intros Hm Hin.
  assert (Hrun : isRunningIn (stateStore (runTargetForModule e mid d)) mid tgt).
  { unfold runTargetForModule. rewrite Hm.
    destruct (availableTargets moduleState (StateStore.targets (stateStore d))) as [| t ts] eqn:Hav;
      [inversion Hin |].
    apply keepsRunningStatus_startNextModuleTarget.
    cbn [stateStore on_runModuleActive on_runModuleQueues pushState on_published].
    apply (mark_running_fold mid (now e) (t :: ts) d tgt); [rewrite Hm; eauto | left; exact Hin]. }
  split; [exact Hrun |]. split; [exact Hrun |]. split; reflexivity.
Qed.

Lemma X12_runTargetForModule_marks_running_witness :
  isRunningIn (stateStore (runTargetForModule sampleEnv (id sampleModule) (sampleDashboard 0)))
    (id sampleModule) "flash"
  /\ pending (runner (runTargetForModule sampleEnv (id sampleModule) (sampleDashboard 0)))
       = [silentRequest "all"].
Proof.
  split.
  - apply (X12_runTargetForModule_marks_running sampleEnv (id sampleModule) (sampleDashboard 0)
             sampleModuleState "flash").
    + vm_compute. reflexivity.
    + vm_compute. right. left.
  - vm_compute. reflexivity.
Defined.

(** ** Controller: configure, detect and refresh *)

Lemma moduleHas_onModule (s : StateStore.t) (mid mid' : string)
    (f : ModuleState -> ModuleState) (P : ModuleState -> Prop) :
  (forall m, ms_module (f m) = ms_module m) ->
  (forall m, P m -> P (f m)) ->
  moduleHas s mid' P -> moduleHas (StateStore.onModule mid f s) mid' P.
Proof.
  intros Hmod Hf (m & Hm & HP). unfold moduleHas.
  rewrite getModuleState_onModule by exact Hmod. rewrite Hm. simpl.
  destruct (String.eqb mid mid'); eexists; split; try reflexivity; auto.
Qed.

Lemma moduleHas_fold_setAvailability (mid : string) (flag : string -> bool)
    (P : ModuleState -> Prop) (ts : list TargetDefinition) (d : Dashboard) :
  (forall m flags,
     P m ->
     P (mkModuleState (ms_module m) flags (runs m) (generator m)
          (needsConfigure m) (configure m))) ->
  moduleHas (stateStore d) mid P ->
  moduleHas
    (stateStore
       (fold_left (fun d t =>
                     on_stateStore
                       (StateStore.setAvailability mid (target_name t) (flag (target_name t))) d)
                  ts d))
    mid P.
Proof.
  intros HP. revert d. induction ts as [| t ts IH]; intros d Hd; simpl; [exact Hd |].
  apply IH. simpl. unfold StateStore.setAvailability.
  apply moduleHas_onModule; [reflexivity | | exact Hd]. intros m Hm. apply HP, Hm.
Qed.

Lemma flags_after_fold (mid : string) (flag : string -> bool) (ts : list TargetDefinition)
    (d : Dashboard) (tn : string) :
  is_Some (StateStore.getModuleState mid (stateStore d)) ->
  (tn ∈ targetNames ts /\ tn <> "__proto__"%string)
  \/ availableFor (stateStore d) mid tn = flag tn ->
  availableFor
    (stateStore
       (fold_left (fun d t =>
                     on_stateStore
                       (StateStore.setAvailability mid (target_name t) (flag (target_name t))) d)
                  ts d))
    mid tn = flag tn.
Proof.
  revert d. induction ts as [| t ts IH]; intros d Hknown Hin; simpl.
  - destruct Hin as [[Hin _] | Hd]; [inversion Hin | exact Hd].
  - destruct Hknown as [m Hm]. apply IH.
    + simpl. unfold StateStore.setAvailability.
      rewrite getModuleState_onModule by reflexivity. rewrite Hm. simpl. eauto.
    + simpl. rewrite availableFor_setAvailability, Hm.
      case_decide as Hsame; [destruct Hsame as [<- _]; right; reflexivity |].
      destruct Hin as [[Hin Hproto] | Hd].
      * simpl in Hin. apply elem_of_cons in Hin as [-> | Hin]; [| left; split; assumption].
        exfalso. apply Hsame. split; [reflexivity | exact Hproto].
      * right. unfold availableFor in Hd. rewrite Hm in Hd. exact Hd.
Qed.

(** X13: when the configure step and the detection of [configureAndDetect]
    succeed for a module of the store, nothing is thrown, every target of
    the dashboard is available for the module exactly when the detected
    set holds its name (a target named [__proto__] apart, which reads as
    available whatever is detected), and the module state records the
    selected generator and no longer needs configuring. *)
Theorem X13_configureAndDetect_publishes_detection (h : Host) (e : Env) (m : ModuleInfo)
    (bs : BuildSystem) (skip upd rt : bool) (d : Dashboard) (g : CMakeGenerator) (out : string)
    (detected : gset string) (moduleState : ModuleState) :
  outcome (configureStep h m bs skip (upd && rt)) = inr (g, out) ->
  outcome (detectTargets h (path m) g) = inr detected ->
  StateStore.getModuleState (id m) (stateStore d) = Some moduleState ->
  let result := configureAndDetect h e m bs skip upd rt d in
  fst (snd result) = None
  /\ (forall tn,
        tn ∈ targetNames (StateStore.targets (stateStore d)) ->
        tn <> "__proto__"%string ->
        availableFor (stateStore (snd (snd result))) (id m) tn = bool_decide (tn ∈ detected))
  /\ availableFor (stateStore (snd (snd result))) (id m) "__proto__" = true
  /\ moduleHas (stateStore (snd (snd result))) (id m)
       (fun after => generator after = Some g /\ needsConfigure after = false).
Proof.
  intros Hstep Hdetect Hm result. subst result. unfold configureAndDetect.
  destruct (configureStep h m bs skip (upd && rt)) as [t1 [err | [g' out']]];
    simpl in Hstep; [discriminate |]. injection Hstep as -> ->.
  destruct (detectTargets h (path m) g) as [t2 [err | targets]]; simpl in Hdetect;
    [discriminate |]. injection Hdetect as ->.
  cbn [fst snd].
  set (d0 := if upd then _ else d).
  set (d1 := if negb skip && (upd && rt) then _ else d0).
  set (d2 := on_stateStore (StateStore.setNeedsConfigure (id m) false)
               (on_stateStore (StateStore.setModuleGenerator (id m) g) d1)).
  set (d3 := if upd then _ else d2).
  assert (H0 : moduleHas (stateStore d0) (id m) (fun _ => True)).
  { unfold d0. destruct upd; simpl; [| exists moduleState; auto].
    unfold StateStore.updateConfigure.
    apply moduleHas_onModule; [reflexivity | auto | exists moduleState; auto]. }
  assert (H1 : moduleHas (stateStore d1) (id m) (fun _ => True)).
  { unfold d1. destruct (negb skip && (upd && rt)); exact H0. }
  assert (H2 : moduleHas (stateStore d2) (id m)
                 (fun after => generator after = Some g /\ needsConfigure after = false)).
  { destruct H1 as (m1 & Hm1 & _). unfold d2. simpl.
    unfold moduleHas, StateStore.setNeedsConfigure, StateStore.setModuleGenerator.
    rewrite !getModuleState_onModule by reflexivity.
    rewrite Hm1, String.eqb_refl. simpl. eexists. split; [reflexivity |]. split; reflexivity. }
  assert (H3 : moduleHas (stateStore d3) (id m)
                 (fun after => generator after = Some g /\ needsConfigure after = false)).
  { unfold d3. destruct upd; [| exact H2]. simpl. unfold StateStore.updateConfigure.
    apply moduleHas_onModule; [reflexivity | | exact H2]. intros m0 Hm0. exact Hm0. }
  assert (Ht3 : StateStore.targets (stateStore d3) = StateStore.targets (stateStore d)).
  { unfold d3, d2, d1, d0. destruct upd, (negb skip), rt; reflexivity. }
  pose (flag := fun name : string => bool_decide (name ∈ detected)).
  assert (Hlast : moduleHas
                    (stateStore
                       (fold_left
                          (fun d t =>
                             on_stateStore
                               (StateStore.setAvailability (id m) (target_name t)
                                  (flag (target_name t))) d)
                          (StateStore.targets (stateStore d3)) d3))
                    (id m)
                    (fun after => generator after = Some g /\ needsConfigure after = false)).
  { apply (moduleHas_fold_setAvailability (id m) flag); [| exact H3].
    intros m0 flags Hm0. exact Hm0. }
  split; [reflexivity |]. split; [| split].
  - intros tn Hin Hne.
    apply (flags_after_fold (id m) flag).
    + destruct H3 as (m3 & Hm3 & _). rewrite Hm3. eauto.
    + left. split; [rewrite Ht3; exact Hin | exact Hne].
  - destruct Hlast as (mf & Hmf & _).
    exact (@eq_ind_r _ (Some mf)
             (fun found =>
                match found with
                | Some moduleState => StateStore.isAvailable moduleState "__proto__"
                | None => false
                end = true)
             eq_refl _ Hmf).
  - exact Hlast.
Qed.

Lemma X13_configureAndDetect_publishes_detection_witness :
  let after :=
    stateStore (snd (snd (configureAndDetect configuredHost sampleEnv sampleModule BsAuto
                            true false true undetectedDashboard))) in
  availableFor after (id sampleModule) "all" = true
  /\ availableFor after (id sampleModule) "lint" = false.
Proof.
  intros after.
  destruct (X13_configureAndDetect_publishes_detection configuredHost sampleEnv sampleModule
              BsAuto true false true undetectedDashboard Ninja Configure.skipped
              ({["all"%string; "flash"%string]} : gset string)
              (StateStore.freshModule [mkTarget "all"; mkTarget "lint"] sampleModule))
    as (_ & Hflags & _).
  - vm_compute. reflexivity.
  - vm_compute. reflexivity.
  - vm_compute. reflexivity.
  - split.
    + unfold after. rewrite (Hflags "all"%string); [vm_compute; reflexivity | | discriminate].
      vm_compute. left.
    + unfold after. rewrite (Hflags "lint"%string); [vm_compute; reflexivity | | discriminate].
      vm_compute. right. left.
Defined.

(** X14: for a module without a cache file [refreshModule] asks the host
    for nothing but the status of the cache path and runs no command; it
    leaves every target of the dashboard unavailable for the module (a
    target named [__proto__] apart, whose flag the store cannot set) and,
    when the store knows the module, marks it as needing configure with an
    idle configure status. *)
Theorem X14_refreshModule_without_cache (h : Host) (e : Env) (m : ModuleInfo) (d : Dashboard) :
  fs_stat h (pathJoin3 (path m) "out" "CMakeCache.txt") <> inr KindFile ->
  fst (refreshModule h e m d) = [CallStat (pathJoin3 (path m) "out" "CMakeCache.txt")]
  /\ (forall tn,
        tn ∈ targetNames (StateStore.targets (stateStore d)) ->
        tn <> "__proto__"%string ->
        availableFor (stateStore (snd (refreshModule h e m d))) (id m) tn = false)
  /\ (is_Some (StateStore.getModuleState (id m) (stateStore d)) ->
      moduleHas (stateStore (snd (refreshModule h e m d))) (id m)
        (fun after =>
           needsConfigure after = true
           /\ cfg_status (configure after) = CfgIdle
           /\ cfg_output (configure after) = Some "Configure required (missing CMake cache)."%string
           /\ generator after = (StateStore.getModuleState (id m) (stateStore d) ≫= generator)))
  /\ runner (snd (refreshModule h e m d)) = runner d.
Proof.
  intros Hnone. unfold refreshModule.
  destruct (hasCMakeCache_spec h (path m)) as (cached & Hcache & Hiff). rewrite Hcache.
  assert (cached = false) as ->.
  { destruct cached; [| reflexivity]. exfalso. apply Hnone, Hiff. reflexivity. }
  cbn [fst snd]. split; [reflexivity |]. split; [| split].
  - intros tn Hin Hne. apply markUnavailable_all; [exact Hin | exact Hne].
  - intros [m0 Hm0]. unfold markUnavailable.
    apply (moduleHas_fold_setAvailability (id m) (fun _ => false)).
    + intros m1 flags Hm1. exact Hm1.
    + simpl. unfold moduleHas, StateStore.updateConfigure, StateStore.setNeedsConfigure.
      rewrite !getModuleState_onModule by reflexivity.
      rewrite Hm0, String.eqb_refl. simpl. eexists. split; [reflexivity |].
      repeat split; reflexivity.
  - unfold markUnavailable.
    generalize (StateStore.targets
                  (stateStore
                     (on_stateStore
                        (StateStore.updateConfigure (id m)
                           (mkConfigurePatch CfgIdle
                              (Some (Some "Configure required (missing CMake cache)."%string))
                              (Some (Some (now e)))))
                        (on_stateStore (StateStore.setNeedsConfigure (id m) true) d)))).
    intros ts.
    change (runner d) with
      (runner (on_stateStore
                 (StateStore.updateConfigure (id m)
                    (mkConfigurePatch CfgIdle
                       (Some (Some "Configure required (missing CMake cache)."%string))
                       (Some (Some (now e)))))
                 (on_stateStore (StateStore.setNeedsConfigure (id m) true) d))).
    generalize (on_stateStore
                  (StateStore.updateConfigure (id m)
                     (mkConfigurePatch CfgIdle
                        (Some (Some "Configure required (missing CMake cache)."%string))
                        (Some (Some (now e)))))
                  (on_stateStore (StateStore.setNeedsConfigure (id m) true) d)).
    induction ts as [| t ts IH]; intros d0; simpl; [reflexivity |]. rewrite IH. reflexivity.
Qed.

Lemma X14_refreshModule_without_cache_witness :
  fst (refreshModule offlineHost sampleEnv sampleModule (sampleDashboard 4))
    = [CallStat "/ws/modules/m/out/CMakeCache.txt"%string]
  /\ availableFor
       (stateStore (snd (refreshModule offlineHost sampleEnv sampleModule (sampleDashboard 4))))
       (id sampleModule) "all" = false.
Proof.
  destruct (X14_refreshModule_without_cache offlineHost sampleEnv sampleModule (sampleDashboard 4))
    as (Htrace & Hflags & _).
  - vm_compute. discriminate.
  - split; [exact Htrace |]. apply Hflags; [vm_compute; left | discriminate].
Defined.

(** ** Target detection: the names that are collected *)

Lemma targetChar_not_space (c : ascii) : isTargetChar c = true -> Js.isSpace c = false.
Proof.
  destruct c as [b0 b1 b2 b3 b4 b5 b6 b7].
  destruct b0, b1, b2, b3, b4, b5, b6, b7; vm_compute; congruence.
Qed.

Lemma captureTarget_proper (s captured : string) :
  captureTarget s = Some captured -> properName captured.
Proof.
  revert captured. induction s as [| c s IH]; intros captured; simpl; [discriminate |].
  destruct (isTargetChar c) eqn:Hc; [| discriminate].
  apply targetChar_not_space in Hc.
  destruct (captureTarget s) as [longer |].
  - intros [= <-]. destruct (IH longer eq_refl) as [_ Hno].
    split; [discriminate |]. simpl. rewrite Hc, Hno. reflexivity.
  - destruct (xorb _ _); [| discriminate]. intros [= <-].
    split; [discriminate |]. simpl. rewrite Hc. reflexivity.
Qed.

Lemma takeUntil_excludes (stop p : ascii -> bool) (s : string) :
  (forall c, p c = true -> stop c = true) ->
  Js.includes p (Js.takeUntil stop s) = false.
Proof.
  intros Hp. induction s as [| c s IH]; simpl; [reflexivity |].
  destruct (stop c) eqn:Hs; simpl; [reflexivity |].
  rewrite IH. destruct (p c) eqn:Hpc; [| reflexivity].
  apply Hp in Hpc. congruence.
Qed.

Lemma takeUntil_keeps_excluded (stop p : ascii -> bool) (s : string) :
  Js.includes p s = false -> Js.includes p (Js.takeUntil stop s) = false.
Proof.
  induction s as [| c s IH]; simpl; [reflexivity |].
  intros H. apply orb_false_iff in H as [Hc Hs].
  destruct (stop c); simpl; [reflexivity |]. rewrite Hc, IH by exact Hs. reflexivity.
Qed.

Lemma isEmpty_false (s : string) : Js.isEmpty s = false -> s <> EmptyString.
Proof. destruct s; [discriminate | discriminate]. Qed.

Lemma collectHelpLine_proper (targets : gset string) (line : string) :
  (forall n, n ∈ targets -> properName n) ->
  forall n, n ∈ collectHelpLine targets line -> properName n.
Proof.
  intros Hall n. unfold collectHelpLine.
  destruct (matchHelpLine line) as [captured |] eqn:Hmatch.
  - rewrite elem_of_union, elem_of_singleton. intros [-> | Hn]; [| apply Hall, Hn].
    unfold matchHelpLine in Hmatch.
    destruct (Js.dropPrefix "..." (Js.skipSpaces line)) as [[| c rest] |]; try discriminate.
    destruct (Js.isSpace c); [| discriminate].
    apply (captureTarget_proper _ _ Hmatch).
  - destruct (Js.isEmpty (Js.trim line) || _); [apply Hall |].
    destruct (Js.isEmpty (Js.takeUntil Js.isSpace (Js.trim line))) eqn:Htok; [apply Hall |].
    assert (Hnospace : Js.includes Js.isSpace (Js.takeUntil Js.isSpace (Js.trim line)) = false)
      by (apply takeUntil_excludes; auto).
    destruct (Js.isEmpty (if Js.includes isColon _ then _ else _)) eqn:Hclean; [apply Hall |].
    rewrite elem_of_union, elem_of_singleton. intros [-> | Hn]; [| apply Hall, Hn].
    split; [apply isEmpty_false, Hclean |].
    destruct (Js.includes isColon _); [| exact Hnospace].
    apply takeUntil_keeps_excluded, Hnospace.
Qed.

Lemma collectNinjaLine_proper (targets : gset string) (line : string) :
  (forall n, n ∈ targets -> properName n) ->
  forall n, n ∈ collectNinjaLine targets line -> properName n.
Proof.
  intros Hall n. unfold collectNinjaLine.
  destruct (Js.isEmpty (Js.trim line)); [apply Hall |].
  destruct (Js.isEmpty (Js.takeUntil _ (Js.trim line))) eqn:Hname; [apply Hall |].
  rewrite elem_of_union, elem_of_singleton. intros [-> | Hn]; [| apply Hall, Hn].
  split; [apply isEmpty_false, Hname |].
  apply takeUntil_excludes. intros c Hc. rewrite Hc. apply orb_true_r.
Qed.

Lemma fold_proper (step : gset string -> string -> gset string) (lines : list string)
    (targets : gset string) :
  (forall set line, (forall n, n ∈ set -> properName n) ->
                    forall n, n ∈ step set line -> properName n) ->
  (forall n, n ∈ targets -> properName n) ->
  forall n, n ∈ fold_left step lines targets -> properName n.
Proof.
  intros Hstep. revert targets. induction lines as [| line lines IH]; intros targets Hall; simpl;
    [exact Hall |].
  apply IH. apply Hstep, Hall.
Qed.

(** X15: every name in the set that [detectTargets] returns is non-empty
    and contains no white space, whatever the commands print. *)
Theorem X15_detected_names_are_proper (h : Host) (modulePath : string) (g : CMakeGenerator)
    (detected : gset string) (n : string) :
  outcome (detectTargets h modulePath g) = inr detected ->
  n ∈ detected ->
  properName n.
Proof.
  assert (Hnin : forall out set, (forall n, n ∈ set -> properName n) ->
                   forall n, n ∈ collectNinjaTargets out set -> properName n).
  { intros out set. apply fold_proper. exact collectNinjaLine_proper. }
  assert (Hhelp : forall out set, (forall n, n ∈ set -> properName n) ->
                    forall n, n ∈ collectTargetsFromLines out set -> properName n).
  { intros out set. apply fold_proper. exact collectHelpLine_proper. }
  assert (Hempty : forall n, n ∈ (∅ : gset string) -> properName n).
  { intros x Hx. exfalso. exact (not_elem_of_empty x Hx). }
  destruct g; unfold detectTargets, runCommand, call, bind, ret.
  - destruct (execFile h "ninja" _ _) as [err | r1]; [discriminate |].
    destruct (execFile h "ninja" _ _) as [err | r2]; [discriminate |].
    destruct (bool_decide _).
    + destruct (execFile h "cmake" _ _) as [err | r3]; [discriminate |].
      simpl. intros [= <-]. apply Hhelp, Hnin, Hnin, Hempty.
    + simpl. intros [= <-]. apply Hnin, Hnin, Hempty.
  - destruct (execFile h "cmake" _ _) as [err | r1]; [discriminate |].
    destruct (bool_decide _).
    + destruct (execFile h "make" _ _) as [err | r2]; [discriminate |].
      simpl. intros [= <-]. apply Hhelp, Hhelp, Hempty.
    + simpl. intros [= <-]. apply Hhelp, Hempty.
Qed.

Lemma X15_detected_names_are_proper_witness : properName "flash".
Proof.
  apply (X15_detected_names_are_proper brokenNinjaHost (path sampleModule) UnixMakefiles
           ({["all"%string; "flash"%string]} : gset string)).
  - vm_compute. reflexivity.
  - vm_compute. reflexivity.
Defined.

(** ** Configure runner: failures *)

(** X16: when there is no usable cache, a failure of [mkdir] makes
    [ensureConfigured] fail with that error before [cmake] is run, and a
    failure of the [cmake] command (after a successful [mkdir]) makes it
    fail with the error of the command: no result with [configured] is
    returned in either case. *)
Theorem X16_ensureConfigured_failures (h : Host) (modulePath : string) (bs : BuildSystem)
    (g : CMakeGenerator) (err : JsError) :
  let outDir := pathJoin modulePath "out" in
  fs_stat h outDir <> inr KindDirectory
  \/ fs_stat h (pathJoin3 modulePath "out" "CMakeCache.txt") <> inr KindFile ->
  outcome (selectGenerator h bs outDir) = inr g ->
  (fs_mkdir h outDir = inl err ->
   outcome (Configure.ensureConfigured h modulePath bs) = inl err
   /\ Forall (fun c => runsConfigure c = false) (trace (Configure.ensureConfigured h modulePath bs)))
  /\ (fs_mkdir h outDir = inr tt ->
      execFile h "cmake" (Configure.configureArgs g) (Some modulePath) = inl err ->
      outcome (Configure.ensureConfigured h modulePath bs) = inl err).
Proof.
  intros outDir Hnot Hg.
  destruct (selectGenerator_quiet h bs outDir) as (ts & gs & Hsel & Hquiet).
  rewrite Hsel in Hg. simpl in Hg. injection Hg as ->.
  destruct (hasCMakeCache_spec h modulePath) as (cached & Hcache & Hiff).
  fold outDir in Hcache, Hiff.
  assert (Hts : Forall (fun c => runsConfigure c = false) ts).
  { eapply Forall_impl; [exact Hquiet |]. intros c [Hc _]. exact Hc. }
  assert (Hc : fs_stat h outDir = inr KindDirectory -> cached = false).
  { intros Hdir. destruct cached; [| reflexivity]. exfalso.
    destruct Hnot as [Hnot | Hnot]; [exact (Hnot Hdir) | apply Hnot, Hiff; reflexivity]. }
  unfold Configure.hasCMakeCache, call, bind, catch, ret in Hcache. fold outDir in Hcache.
  split.
  - intros Hmk. unfold Configure.ensureConfigured, Configure.hasCMakeCache. fold outDir.
    unfold runCommand, call, bind, catch, ret.
    destruct (fs_stat h outDir) as [e0 | kind] eqn:Hstat.
    + rewrite Hsel, Hmk. simpl. split; [reflexivity |].
      constructor; [reflexivity |]. apply Forall_app. split; [exact Hts | repeat constructor].
    + destruct (decide (kind = KindDirectory)) as [-> | Hk].
      * specialize (Hc eq_refl). subst cached. simpl bool_decide. cbn iota. rewrite Hsel.
        destruct (fs_stat h (pathJoin3 modulePath "out" "CMakeCache.txt")) as [e1 | kind1].
        -- rewrite Hmk. simpl. split; [reflexivity |].
           constructor; [reflexivity |]. rewrite <- ?app_assoc.
           apply Forall_app. split; [exact Hts | repeat constructor].
        -- injection Hcache as Hb. rewrite Hb, Hmk. simpl. split; [reflexivity |].
           constructor; [reflexivity |]. rewrite <- ?app_assoc.
           apply Forall_app. split; [exact Hts | repeat constructor].
      * rewrite bool_decide_eq_false_2 by exact Hk. cbn iota. rewrite Hsel, Hmk. simpl.
        split; [reflexivity |].
        constructor; [reflexivity |]. apply Forall_app. split; [exact Hts | repeat constructor].
  - intros Hmk Hrun. unfold Configure.ensureConfigured, Configure.hasCMakeCache. fold outDir.
    unfold runCommand, call, bind, catch, ret.
    destruct (fs_stat h outDir) as [e0 | kind] eqn:Hstat.
    + rewrite Hsel, Hmk, Hrun. reflexivity.
    + destruct (decide (kind = KindDirectory)) as [-> | Hk].
      * specialize (Hc eq_refl). subst cached. simpl bool_decide. cbn iota. rewrite Hsel.
        destruct (fs_stat h (pathJoin3 modulePath "out" "CMakeCache.txt")) as [e1 | kind1].
        -- rewrite Hmk, Hrun. reflexivity.
        -- injection Hcache as Hb. rewrite Hb, Hmk, Hrun. reflexivity.
      * rewrite bool_decide_eq_false_2 by exact Hk. cbn iota. rewrite Hsel, Hmk, Hrun.
        reflexivity.
Qed.

Lemma X16_ensureConfigured_failures_witness :
  outcome (Configure.ensureConfigured offlineHost "/ws/m" BsNinja) = inl notFound
  /\ outcome (Configure.ensureConfigured failingCmakeHost "/ws/m" BsNinja) = inl cmakeError.
Proof.
  split.
  - refine (proj1 (proj1 (X16_ensureConfigured_failures offlineHost "/ws/m" BsNinja Ninja notFound
                            (or_introl _) _) _)).
    + vm_compute. discriminate.
    + vm_compute. reflexivity.
    + vm_compute. reflexivity.
  - refine (proj2 (X16_ensureConfigured_failures failingCmakeHost "/ws/m" BsNinja Ninja cmakeError
                     (or_introl _) _) _ _).
    + vm_compute. discriminate.
    + vm_compute. reflexivity.
    + vm_compute. reflexivity.
    + vm_compute. reflexivity.
Defined.

(** ** Module discovery: identities *)

Lemma discoverModules_outcome (h : Host) (ws root : string) (excluded : gset string)
    (entries : list Dirent) :
  fs_readdir h (pathJoin ws root) = inr entries ->
  outcome (discoverModules h ws root excluded)
    = inr (sortBy (fun a b => localeCompare h (name a) (name b))
             (map (fun entry => moduleOf ws root (pathJoin ws root) (dirent_name entry))
                  (List.filter (qualifies h (pathJoin ws root) excluded) entries))).
Proof.
  intros Hread.
  pose proof (scanEntries_spec h ws root (pathJoin ws root) excluded entries) as Hscan.
  unfold discoverModules, call, bind, catch, ret. rewrite Hread.
  destruct (scanEntries h ws root (pathJoin ws root) excluded entries) as [t [err | found]];
    simpl in Hscan; [discriminate |].
  injection Hscan as ->. reflexivity.
Qed.

Lemma append_cancel (a b c : string) : String.append a b = String.append a c -> b = c.
Proof. induction a as [| x a IH]; simpl; [auto |]. intros [= H]. apply IH, H. Qed.

(** X17: every discovered module has the id [root-folder:root:name] and
    the path of its directory, and is not excluded; when the listing of
    the root has no repeated name, the ids of the discovered modules are
    pairwise distinct. *)
Theorem X17_discovered_ids (h : Host) (ws root : string) (excluded : gset string)
    (entries : list Dirent) (modules : list ModuleInfo) :
  fs_readdir h (pathJoin ws root) = inr entries ->
  outcome (discoverModules h ws root excluded) = inr modules ->
  (forall m,
     m ∈ modules ->
     id m = String.append ws (String.append ":" (String.append root (String.append ":" (name m))))
     /\ path m = pathJoin (pathJoin ws root) (name m)
     /\ name m ∉ excluded
     /\ hasMarker h (path m) = true)
  /\ (NoDup (map dirent_name entries) -> NoDup (map id modules)).
Proof.
  intros Hread Hout. rewrite (discoverModules_outcome h ws root excluded entries Hread) in Hout.
  injection Hout as <-.
  set (found := map _ (List.filter _ entries)).
  pose proof (sortBy_perm (fun a b => localeCompare h (name a) (name b)) found) as Hperm.
  split.
  - intros m Hm. apply list_elem_of_In in Hm. apply (Permutation_in _ Hperm) in Hm.
    unfold found in Hm. apply in_map_iff in Hm as (entry & <- & Hentry).
    apply filter_In in Hentry as [_ Hq]. unfold qualifies in Hq.
    apply andb_true_iff in Hq as [Hq Hmark]. apply andb_true_iff in Hq as [_ Hex].
    simpl. repeat split; [| exact Hmark].
    apply negb_true_iff, bool_decide_eq_false_1 in Hex. exact Hex.
  - intros Hnodup.
    assert (Hids : Permutation (map id (sortBy (fun a b => localeCompare h (name a) (name b)) found))
                               (map id found)) by (apply Permutation_map, Hperm).
    rewrite Hids. unfold found. rewrite map_map. simpl.
    assert (Hfilter : NoDup (map dirent_name
                               (List.filter (qualifies h (pathJoin ws root) excluded) entries))).
    { clear -Hnodup. induction entries as [| entry entries IH]; simpl; [constructor |].
      simpl in Hnodup. apply NoDup_cons in Hnodup as [Hnotin Hrest].
      destruct (qualifies _ _ _ entry); [| apply IH, Hrest].
      simpl. apply NoDup_cons. split; [| apply IH, Hrest].
      intros Hin. apply Hnotin. apply list_elem_of_In, in_map_iff in Hin as (e' & He' & Hin).
      apply filter_In in Hin as [Hin _]. apply list_elem_of_In, in_map_iff. exists e'. auto. }
    rewrite <- (map_map dirent_name
                  (fun n => String.append ws
                              (String.append ":" (String.append root (String.append ":" n))))).
    apply (NoDup_fmap_2_strong
             (fun n => String.append ws
                         (String.append ":" (String.append root (String.append ":" n)))));
      [| exact Hfilter].
    intros x y _ _ Heq. do 4 apply append_cancel in Heq. exact Heq.
Qed.

Lemma X17_discovered_ids_witness :
  NoDup (map id [mkModuleInfo "/ws:modules:a" "a" "/ws/modules/a" "/ws";
                 mkModuleInfo "/ws:modules:B" "B" "/ws/modules/B" "/ws"]).
Proof.
  refine (proj2 (X17_discovered_ids twoModulesHost "/ws" "modules" {["c"%string]} _ _ _ _) _).
  - vm_compute. reflexivity.
  - vm_compute. reflexivity.
  - vm_compute. repeat constructor; intros Hin; repeat (inversion Hin as [| ? ? ? Hin']; subst; clear Hin; rename Hin' into Hin).
Defined.

(** ** Silent execution: the exit code of a rejected command *)

(** X18: [runCommandWithExitCode] reports exit code 0 for a command that
    succeeds and also for one whose output overflowed the buffer, the
    numeric code of a rejection that has one, and no exit code otherwise;
    a result with a non-zero or missing exit code is classified as
    [failed] by the silent mode whatever the captured output is. *)
Theorem X18_exit_code_of_silent_command
    (exec : string -> list string -> string -> Rejection + ExecResult)
    (command : string) (args : list string) (cwd : string) :
  let result := runCommandWithExitCode exec command args cwd in
  (forall r, exec command args cwd = inr r ->
             result = mkExecResultWithExitCode (stdout r) (stderr r) (Some 0))
  /\ (forall out err,
        exec command args cwd = inl (WithStreams out err (CodeText MAXBUFFER)) ->
        result = mkExecResultWithExitCode (streamText out) (streamText err) (Some 0))
  /\ (forall out err n,
        exec command args cwd = inl (WithStreams out err (CodeNumber n)) ->
        res_exitCode result = Some n)
  /\ (forall rejection,
        exec command args cwd = inl rejection ->
        (forall out err n, rejection <> WithStreams out err (CodeNumber n)) ->
        (forall out err, rejection <> WithStreams out err (CodeText MAXBUFFER)) ->
        res_exitCode result = None)
  /\ (res_exitCode result <> Some 0 -> silentStatus result = StFailed).
Proof.
  intros result. subst result. unfold runCommandWithExitCode.
  split; [intros r ->; reflexivity |].
  split; [intros out err ->; reflexivity |].
  split; [intros out err n ->; reflexivity |].
  split.
  - intros rejection -> Hnum Hmax. destruct rejection as [out err code |]; [| reflexivity].
    destruct code as [n | s | |]; simpl; try reflexivity.
    + exfalso. exact (Hnum out err n eq_refl).
    + destruct (String.eqb_spec s MAXBUFFER) as [-> | _]; [| reflexivity].
      exfalso. exact (Hmax out err eq_refl).
  - intros Hne. unfold silentStatus. apply resolveOutputStatus_nonzero.
    destruct (res_exitCode _) as [n |]; simpl; [| discriminate].
    intros ->. apply Hne. reflexivity.
Qed.

Lemma X18_exit_code_of_silent_command_witness :
  let notInstalled := fun (_ : string) (_ : list string) (_ : string) =>
                        inl (WithStreams (TextValue "") (TextValue "") (CodeText "ENOENT"))
                        : Rejection + ExecResult in
  res_exitCode (runCommandWithExitCode notInstalled "ninja" ["all"%string] "/ws/modules/m/out") = None
  /\ silentStatus (runCommandWithExitCode notInstalled "ninja" ["all"%string] "/ws/modules/m/out")
       = StFailed.
Proof.
  intros notInstalled.
  destruct (X18_exit_code_of_silent_command notInstalled "ninja" ["all"%string] "/ws/modules/m/out")
    as (_ & _ & _ & Hnone & Hfailed).
  split.
  - apply (Hnone (WithStreams (TextValue "") (TextValue "") (CodeText "ENOENT"))).
    + reflexivity.
    + intros out err n. discriminate.
    + intros out err. discriminate.
  - apply Hfailed. vm_compute. discriminate.
Defined.

(** ** The registry of task names *)

(** X19: [clearRegisteredTaskTerminals] always leaves the registry empty;
    without the [closeAllTerminals] option a terminal of the window is
    closed exactly when its name is registered, so a terminal with an
    unregistered name is never closed; with the option every terminal is
    closed. *)
Theorem X19_clear_closes_registered_only (registered : gset string) (terminals : list string) :
  (forall closeAllTerminals,
     registeredAfter (clearRegisteredTaskTerminals closeAllTerminals registered terminals) = ∅)
  /\ (forall terminal,
        terminal ∈ closedTerminalsOf (clearRegisteredTaskTerminals false registered terminals) terminals
        <-> terminal ∈ terminals /\ terminal ∈ registered)
  /\ closedTerminalsOf (clearRegisteredTaskTerminals true registered terminals) terminals = terminals.
Proof.
  split; [| split; [| reflexivity]].
  - intros [|]; unfold clearRegisteredTaskTerminals; [reflexivity |].
    destruct (bool_decide (size registered = 0%nat)) eqn:Hsize.
    + apply bool_decide_eq_true_1 in Hsize. simpl. apply size_empty_inv in Hsize.
      apply leibniz_equiv. exact Hsize.
    + destruct (existsb _ _); reflexivity.
  - intros terminal. unfold clearRegisteredTaskTerminals, closedTerminalsOf.
    destruct (bool_decide (size registered = 0%nat)) eqn:Hsize.
    + apply bool_decide_eq_true_1, size_empty_inv in Hsize. simpl. split.
      * intros Hin. inversion Hin.
      * intros [_ Hreg]. exfalso. apply (Hsize terminal) in Hreg.
        exact (not_elem_of_empty terminal Hreg).
    + destruct (existsb _ terminals) eqn:Hsome; simpl.
      * rewrite list_elem_of_In, filter_In, <- list_elem_of_In.
        unfold isRegistered. rewrite bool_decide_eq_true. reflexivity.
      * split; [| tauto]. intros Hin. split; [exact Hin |].
        destruct (decide (terminal ∈ registered)) as [Hreg | Hnot]; [exact Hreg |].
        exfalso. assert (Hex : existsb (fun t => negb (isRegistered registered t)) terminals = true).
        { apply existsb_exists. exists terminal. split; [apply list_elem_of_In, Hin |].
          unfold isRegistered. rewrite bool_decide_eq_false_2 by exact Hnot. reflexivity. }
        congruence.
Qed.

(** ** Dashboards from the configuration *)

Lemma includes_rev_onto (p : ascii -> bool) (s acc : string) :
  Js.includes p (Js.rev_onto s acc) = Js.includes p s || Js.includes p acc.
Proof.
  revert acc. induction s as [|c s IH]; intros acc; simpl.
  - reflexivity.
  - rewrite IH. simpl. destruct (p c), (Js.includes p s), (Js.includes p acc); reflexivity.
Qed.

Lemma includes_rev (p : ascii -> bool) (s : string) :
  Js.includes p (Js.rev s) = Js.includes p s.
Proof. unfold Js.rev. rewrite includes_rev_onto. simpl. apply orb_false_r. Qed.

Lemma includes_skipSpaces (p : ascii -> bool) (s : string) :
  Js.includes p s = false -> Js.includes p (Js.skipSpaces s) = false.
Proof.
  induction s as [|c s IH]; simpl; intros H; [reflexivity|].
  apply orb_false_iff in H as [Hc Hs].
  destruct (Js.isSpace c); [auto | simpl; now rewrite Hc, Hs].
Qed.

Lemma includes_trim (p : ascii -> bool) (s : string) :
  Js.includes p s = false -> Js.includes p (Js.trim s) = false.
Proof.
  intros H. unfold Js.trim. rewrite includes_rev.
  apply includes_skipSpaces. rewrite includes_rev.
  now apply includes_skipSpaces.
Qed.

Lemma skipSpaces_headOk (s : string) : headOk (Js.skipSpaces s).
Proof.
  induction s as [|c s IH]; simpl; [exact I|].
  destruct (Js.isSpace c) eqn:E; [exact IH | exact E].
Qed.

Lemma skipSpaces_fixed (s : string) : headOk s -> Js.skipSpaces s = s.
Proof. destruct s as [|c s]; simpl; [reflexivity | now intros ->]. Qed.

Lemma lastOk_skipSpaces (s : string) : lastOk s -> lastOk (Js.skipSpaces s).
Proof.
  induction s as [|c s IH]; [intros _; exact I|].
  intros H. cbn [Js.skipSpaces]. destruct (Js.isSpace c) eqn:E; [|exact H].
  destruct s as [|c' s]; [exact I|]. apply IH. exact H.
Qed.

Lemma headOk_rev_onto (s acc : string) :
  s <> EmptyString -> lastOk s -> headOk (Js.rev_onto s acc).
Proof.
  revert acc. induction s as [|c s IH]; intros acc Hne H; [congruence|].
  cbn [Js.rev_onto]. destruct s as [|c' s]; [exact H|].
  apply IH; [discriminate | exact H].
Qed.

Lemma lastOk_rev_onto (s acc : string) :
  (if Js.isEmpty acc then headOk s else lastOk acc) -> lastOk (Js.rev_onto s acc).
Proof.
  revert acc. induction s as [|c s IH]; intros acc H; cbn [Js.rev_onto].
  - destruct acc; [exact I | exact H].
  - apply IH. cbn [Js.isEmpty]. destruct acc as [|a acc]; exact H.
Qed.

Lemma headOk_rev (s : string) : lastOk s -> headOk (Js.rev s).
Proof.
  intros H. destruct s as [|c s]; [exact I|].
  apply headOk_rev_onto; [discriminate | exact H].
Qed.

Lemma lastOk_rev (s : string) : headOk s -> lastOk (Js.rev s).
Proof. intros H. apply lastOk_rev_onto. exact H. Qed.

Lemma trim_fixed (s : string) : headOk s -> lastOk s -> Js.trim s = s.
Proof.
  intros Hh Hl. unfold Js.trim.
  rewrite (skipSpaces_fixed s Hh).
  rewrite (skipSpaces_fixed (Js.rev s) (headOk_rev s Hl)).
  apply rev_involutive.
Qed.

Lemma trim_trimmed (s : string) : headOk (Js.trim s) /\ lastOk (Js.trim s).
Proof.
  unfold Js.trim. split.
  - apply headOk_rev, lastOk_skipSpaces, lastOk_rev, skipSpaces_headOk.
  - apply lastOk_rev, skipSpaces_headOk.
Qed.

Lemma trim_idempotent (s : string) : Js.trim (Js.trim s) = Js.trim s.
Proof. destruct (trim_trimmed s). now apply trim_fixed. Qed.

Lemma splitComma_aux_free (s cur : string) :
  Js.includes isComma cur = false ->
  Forall (fun part => Js.includes isComma part = false) (splitComma_aux s cur).
Proof.
  revert cur. induction s as [|c s IH]; intros cur Hcur; simpl.
  - constructor; [|constructor]. now rewrite includes_rev.
  - destruct (isComma c) eqn:E.
    + constructor; [now rewrite includes_rev | now apply IH].
    + apply IH. simpl. now rewrite E, Hcur.
Qed.

Lemma splitComma_aux_whole (s cur : string) :
  Js.includes isComma s = false ->
  splitComma_aux s cur = [Js.rev (Js.rev_onto s cur)].
Proof.
  revert cur. induction s as [|c s IH]; intros cur H; simpl in *.
  - reflexivity.
  - apply orb_false_iff in H as [Hc Hs]. rewrite Hc. now apply IH.
Qed.

Lemma splitComma_whole (s : string) :
  Js.includes isComma s = false -> splitComma s = [s].
Proof.
  intros H. unfold splitComma. rewrite (splitComma_aux_whole s EmptyString H).
  f_equal. apply rev_involutive.
Qed.

Lemma nonEmpty_true (s : string) : nonEmpty s = true <-> s <> EmptyString.
Proof. destruct s; cbn; split; intros H; try discriminate; try reflexivity; now contradict H. Qed.

Lemma rootsOfText_trimmed (s : string) : Forall trimmedRoot (rootsOfText s).
Proof.
  unfold rootsOfText. apply List.Forall_forall. intros root Hin.
  apply List.filter_In in Hin as [Hin Hne].
  apply List.in_map_iff in Hin as [part [<- Hpart]].
  pose proof (splitComma_aux_free s EmptyString eq_refl) as Hfree.
  rewrite List.Forall_forall in Hfree. specialize (Hfree part Hpart).
  repeat split.
  - now apply nonEmpty_true.
  - now apply includes_trim.
  - apply trim_idempotent.
Qed.

Lemma rootsOfText_fixed (root : string) :
  trimmedRoot root -> rootsOfText root = [root].
Proof.
  intros [[Hne Hfree] Htrim]. unfold rootsOfText.
  rewrite (splitComma_whole root Hfree). simpl. rewrite Htrim.
  apply nonEmpty_true in Hne. now rewrite Hne.
Qed.

Lemma normalizeModuleRoots_trimmed (moduleRoots : RootsSetting) :
  Forall trimmedRoot (normalizeModuleRoots moduleRoots).
Proof.
  destruct moduleRoots as [s | entries |]; simpl.
  - apply rootsOfText_trimmed.
  - apply List.Forall_forall. intros root Hin.
    apply List.filter_In in Hin as [Hin _].
    apply List.in_flat_map in Hin as [[s|] [_ Hin]]; [|destruct Hin].
    pose proof (rootsOfText_trimmed s) as H. rewrite List.Forall_forall in H. now apply H.
  - constructor.
Qed.

Lemma normalizeModuleRoots_fixed (roots : list string) :
  Forall trimmedRoot roots ->
  normalizeModuleRoots (RootsArray (map Some roots)) = roots.
Proof.
  induction 1 as [|root roots Hroot _ IH]; [reflexivity|].
  simpl in *. rewrite (rootsOfText_fixed root Hroot). simpl.
  destruct Hroot as [[Hne _] _]. apply nonEmpty_true in Hne. rewrite Hne.
  now rewrite IH.
Qed.

(** X20. Whatever the setting holds, every module root that
    [normalizeModuleRoots] returns is non-empty, contains no comma and has no
    white space at either end; and the returned list is a fixed point: given
    back as an array of strings it is returned unchanged. *)
Theorem X20_normalizeModuleRoots (moduleRoots : RootsSetting) :
  let roots := normalizeModuleRoots moduleRoots in
  Forall (fun root => properRoot root /\ Js.trim root = root) roots
  /\ normalizeModuleRoots (RootsArray (map Some roots)) = roots.
Proof.
  intros roots. pose proof (normalizeModuleRoots_trimmed moduleRoots) as H.
  split; [exact H | now apply normalizeModuleRoots_fixed].
Qed.

Lemma keptEntry_truthy (entry : ListEntry) : keptEntry entry = true -> truthyEntry entry.
Proof.
  destruct entry as [text | [|]]; simpl; intros H; split; try discriminate.
  intros [= ->]. discriminate H.
Qed.

Lemma normalizeDashboard_proper (dashboard : ConfiguredDashboard) :
  hasName dashboard = true ->
  dash_moduleRoots (normalizeDashboard dashboard) <> [] ->
  properDashboard (normalizeDashboard dashboard).
Proof.
  intros Hname Hroots. unfold properDashboard. repeat split.
  - unfold hasName in Hname. simpl.
    destruct (conf_name dashboard) as [n|]; [|discriminate].
    now apply nonEmpty_true.
  - exact Hroots.
  - simpl. eapply List.Forall_impl; [|apply normalizeModuleRoots_trimmed].
    intros root [Hp _]. exact Hp.
  - simpl. destruct (conf_excludedModules dashboard) as [l|].
    + apply List.Forall_forall. intros n Hin.
      apply List.filter_In in Hin as [_ Hn]. now apply keptEntry_truthy.
    + simpl. repeat constructor; discriminate.
  - simpl. destruct (conf_targets dashboard) as [l|]; [|constructor].
    apply List.Forall_forall. intros n Hin.
    apply List.filter_In in Hin as [_ Hn]. now apply keptEntry_truthy.
Qed.

Lemma namedEntries_spec (entries : list ConfiguredEntry) :
  match namedEntries entries with
  | inl _ => NullEntry ∈ entries
  | inr named => (NullEntry ∉ entries) /\ Forall (fun dashboard => hasName dashboard = true) named
  end.
Proof.
  induction entries as [| [| dashboard] rest IH]; simpl.
  - split; [apply not_elem_of_nil | constructor].
  - left.
  - destruct (namedEntries rest) as [err | named].
    + right. exact IH.
    + destruct IH as [Hnull Hnamed]. split.
      * intros Hin. apply elem_of_cons in Hin as [Hin | Hin]; [discriminate | contradiction].
      * destruct (hasName dashboard) eqn:E; [constructor; assumption | exact Hnamed].
Qed.

Lemma normalizeDashboards_proper (configured : ConfiguredValue) (dashboards : list DashboardDefinition) :
  normalizeDashboards configured = inr dashboards -> Forall properDashboard dashboards.
Proof.
  destruct configured as [| entries]; simpl; [discriminate |].
  pose proof (namedEntries_spec entries) as Hspec.
  destruct (namedEntries entries) as [err | named]; [discriminate |].
  intros [= <-]. destruct Hspec as [_ Hnamed].
  apply List.Forall_forall. intros dashboard Hin.
  apply List.filter_In in Hin as [Hin Hroots].
  apply List.in_map_iff in Hin as [entry [<- Hin]].
  rewrite Forall_forall in Hnamed.
  apply normalizeDashboard_proper; [apply Hnamed, list_elem_of_In, Hin |].
  intros E. rewrite E in Hroots. discriminate.
Qed.

Lemma default_dashboards_proper : Forall properDashboard DEFAULT_DASHBOARDS.
Proof.
  repeat constructor; try discriminate; simpl; repeat constructor; discriminate.
Qed.

(** X21: [getDashboards] throws exactly when the configured value is not
    an array or holds a [null] entry; otherwise it returns at least one
    dashboard, and every dashboard it returns has a non-empty name, at
    least one module root, module roots that are non-empty and comma-free,
    and only truthy entries (no empty string) in its lists of excluded
    modules and of targets. *)
Theorem X21_getDashboards (configured : ConfiguredValue) :
  ((exists err, getDashboards configured = inl err)
   <-> configured = NotAnArray
       \/ exists entries, configured = ArrayOf entries /\ NullEntry ∈ entries)
  /\ (forall dashboards,
        getDashboards configured = inr dashboards ->
        dashboards <> [] /\ Forall properDashboard dashboards).
Proof.
  split.
  - unfold getDashboards, normalizeDashboards.
    destruct configured as [| entries].
    + split; [intros _; left; reflexivity | intros _; eexists; reflexivity].
    + pose proof (namedEntries_spec entries) as Hspec.
      destruct (namedEntries entries) as [err | named].
      * split; [| intros _; eexists; reflexivity].
        intros _. right. exists entries. split; [reflexivity | exact Hspec].
      * destruct Hspec as [Hnull _]. split.
        -- intros [err Herr]. destruct (List.filter _ _); discriminate Herr.
        -- intros [H | (entries' & [= <-] & Hin)]; [discriminate | contradiction].
  - intros dashboards. unfold getDashboards.
    pose proof (normalizeDashboards_proper configured) as Hproper.
    destruct (normalizeDashboards configured) as [err | [| first rest]]; [discriminate | |].
    + intros [= <-]. split; [discriminate | apply default_dashboards_proper].
    + intros [= <-]. split; [discriminate | apply Hproper; reflexivity].
Qed.

Lemma X21_getDashboards_witness :
  (exists err, getDashboards (ArrayOf [ObjectEntry sampleConfigured; NullEntry]) = inl err)
  /\ (getDashboards (ArrayOf [ObjectEntry sampleConfigured]) = inr [sampleNormalized]
      /\ properDashboard sampleNormalized).
Proof.
  split.
  - apply (proj1 (X21_getDashboards (ArrayOf [ObjectEntry sampleConfigured; NullEntry]))).
    right. eexists. split; [reflexivity |]. right. left.
  - split; [vm_compute; reflexivity |].
    destruct (proj2 (X21_getDashboards (ArrayOf [ObjectEntry sampleConfigured])) [sampleNormalized])
      as [_ Hproper]; [vm_compute; reflexivity |].
    apply Forall_cons in Hproper as [Hfirst _]. exact Hfirst.
Defined.

(** ** Scheduler: lowering the cap *)



(** ** State store: run entries for ordinary target names *)

(** X22: as long as every target name that the store is given is an
    ordinary one (not [__proto__] and not a name that [Object.prototype]
    defines), after any sequence of calls of the store's mutators from the
    empty store every module state has a run entry for every target of the
    current list; on a store whose [runs] objects hold run objects only,
    [setTargets] keeps every entry of every module state and adds an idle
    one for each listed target that had none, changing nothing else; and
    [setModules] builds, for each module of its argument, a state with
    empty availability, idle configure state, no generator and exactly the
    idle entries of the current targets. *)
Theorem X22_runs_entries_for_ordinary_names :
  (forall calls,
     Forall ordinaryCall calls ->
     covered (fold_left storeCall calls StateStore.empty))
  /\ (forall ts s,
        plainStore s ->
        Forall ordinaryName (targetNames ts) ->
        StateStore.targets (StateStore.setTargets ts s) = ts
        /\ Forall2 (backfilled ts) (StateStore.modules s)
                   (StateStore.modules (StateStore.setTargets ts s)))
  /\ (forall ms s,
        Forall ordinaryName (targetNames (StateStore.targets s)) ->
        StateStore.targets (StateStore.setModules ms s) = StateStore.targets s
        /\ Forall2 (freshFor (StateStore.targets s)) ms
                   (StateStore.modules (StateStore.setModules ms s))).
Proof.
  split; [| split].
  - intros calls Hcalls. apply tidy_covered, tidy_calls; [exact Hcalls | apply tidy_empty].
  - intros ts s Hplain Hnames. split; [reflexivity | apply setTargets_backfilled; assumption].
  - intros ms s Hnames. split; [reflexivity | apply setModules_fresh; assumption].
Qed.

Lemma X22_runs_entries_for_ordinary_names_witness :
  covered
    (fold_left storeCall
       [SetTargets sampleTargets;
        SetModules [sampleModule];
        UpdateRun (id sampleModule) "all" (runningPatch 10);
        SetTargets [mkTarget "all"; mkTarget "lint"]]
       StateStore.empty)
  /\ runOf
       (fold_left storeCall
          [SetTargets sampleTargets;
           SetModules [sampleModule];
           UpdateRun (id sampleModule) "all" (runningPatch 10);
           SetTargets [mkTarget "all"; mkTarget "lint"]]
          StateStore.empty)
       (id sampleModule) "lint" = Some idleRun.
Proof.
  split; [| vm_compute; reflexivity].
  apply (proj1 X22_runs_entries_for_ordinary_names).
  assert (Hname : forall name, name <> "__proto__"%string -> Obj.isMember name = false ->
                               ordinaryName name).
  { intros name Hp Hm. split; [exact Hp |]. intros Hin. apply isMember_spec in Hin. congruence. }
  repeat constructor; apply Hname; (discriminate || reflexivity).
Defined.
